(** * Multi-SendSpin player container: providers and process supervision

    A shallow embedding of
    - [app/providers/squeezelite.py], [app/providers/sendspin.py],
      [app/providers/snapcast.py] and [app/providers/base.py] (validation,
      command building, identifier generation, configuration preparation),
    - [app/managers/process_manager.py] (start / fallback / stop, the
      queries and loops over the process table, log streaming and its
      cleanup),
    - [app/managers/audio_manager.py] (setting the volume), and
    - [app/schemas/player_config.py] (the validators of the MAC address and
      of the Sendspin device),
    followed by the properties of the specification that concern them and
    by further properties of the same code. *)

From Stdlib Require Import ZArith List Lia Bool.
From Stdlib.Strings Require Import Ascii String Byte.
From stdpp Require Import base option list strings gmap pretty.

Local Open Scope string_scope.
Local Open Scope Z_scope.

(** ** Python values

    A [str] is a Rocq [string] holding the UTF-8 text; [bytes] is a list of
    [byte].  A configuration is a [dict[str, Any]]: the values that occur in
    player configurations are [None], booleans, integers and strings (no
    field of a player is a float, a list or a nested dictionary). *)

Abbreviation bytes := (list byte) (only parsing).

Inductive value : Type :=
  | VNone
  | VBool (b : bool)
  | VInt (z : Z)
  | VStr (s : string).

Global Instance value_eq_dec : EqDecision value.
Proof. solve_decision. Defined.

(** Python truthiness ([if v:], [not v]). *)
Definition truthy (v : value) : bool :=
  match v with
  | VNone => false
  | VBool b => b
  | VInt z => negb (z =? 0)
  | VStr s => negb (String.eqb s "")
  end.

(** [d.get(k)] is [None] for a missing key. *)
Definition dict_get (d : gmap string value) (k : string) : value :=
  default VNone (d !! k).

(** [d.get(k, dflt)]. *)
Definition dict_get_default (d : gmap string value) (k : string) (dflt : value) : value :=
  default dflt (d !! k).

(** [result = defaults; result.update(config)]: keys of [config] win. *)
Definition dict_update (defaults config : gmap string value) : gmap string value :=
  config ∪ defaults.

(** Exceptions that the modelled code can meet. *)
Inductive exn : Type :=
  | KeyError (key : string)
  | AttributeError (text : string)
  | TypeError (text : string)
  | FileNotFoundError (text : string)
  | TimeoutExpired (text : string)
  | UnicodeDecodeError (text : string)
  | OtherException (text : string).

Inductive result (A : Type) : Type :=
  | Ok (a : A)
  | Raise (e : exn).
Arguments Ok {A} a.
Arguments Raise {A} e.

Global Instance result_ret : MRet result := fun A a => Ok a.

Global Instance result_bind : MBind result := fun A B k r =>
  match r with
  | Ok a => k a
  | Raise e => Raise e
  end.

(** [d[k]] raises [KeyError] for a missing key. *)
Definition dict_item (d : gmap string value) (k : string) : result value :=
  match d !! k with
  | Some v => Ok v
  | None => Raise (KeyError k)
  end.

(** ** Strings and bytes *)

Definition int_of_byte (b : byte) : Z := Z.of_N (Byte.to_N b).

Definition byte_of_int (z : Z) : byte :=
  default x00 (Byte.of_N (Z.to_N (z mod 256))).

(** [s.encode()]: the UTF-8 bytes of the text. *)
Definition encode (s : string) : bytes := list_byte_of_string s.

(** [sep.join(parts)]. *)
Fixpoint join (sep : string) (parts : list string) : string :=
  match parts with
  | [] => ""
  | [p] => p
  | p :: rest => p ++ sep ++ join sep rest
  end.

(** [s.split(sep)] for a one-character separator. *)
Fixpoint split (sep : ascii) (s : string) : list string :=
  match s with
  | EmptyString => [""]
  | String c rest =>
      if Ascii.eqb c sep then "" :: split sep rest
      else match split sep rest with
           | p :: ps => String c p :: ps
           | [] => [String c ""]
           end
  end.

Definition hex_digit (d : Z) : ascii :=
  match d with
  | 0 => "0" | 1 => "1" | 2 => "2" | 3 => "3" | 4 => "4" | 5 => "5"
  | 6 => "6" | 7 => "7" | 8 => "8" | 9 => "9" | 10 => "a" | 11 => "b"
  | 12 => "c" | 13 => "d" | 14 => "e" | _ => "f"
  end%char.

(** [f"{b:02x}"] for an octet [0 <= b < 256]. *)
Definition fmt_02x (b : Z) : string :=
  String (hex_digit (b / 16)) (String (hex_digit (b mod 16)) "").

(** [int(c, 16)] for one hexadecimal digit. *)
Definition hex_value (c : ascii) : option Z :=
  let n := Z.of_N (N_of_ascii c) in
  if (48 <=? n) && (n <=? 57) then Some (n - 48)
  else if (97 <=? n) && (n <=? 102) then Some (n - 87)
  else if (65 <=? n) && (n <=? 70) then Some (n - 55)
  else None.

(** [int(part, 16)] for a two-digit part. *)
Definition int16_octet (part : string) : option Z :=
  match part with
  | String a (String b EmptyString) =>
      match hex_value a, hex_value b with
      | Some x, Some y => Some (16 * x + y)
      | _, _ => None
      end
  | _ => None
  end.

Definition is_lower_hex (c : ascii) : bool :=
  let n := Z.of_N (N_of_ascii c) in
  ((48 <=? n) && (n <=? 57)) || ((97 <=? n) && (n <=? 102)).

(** Two characters, both lowercase hexadecimal digits. *)
Definition is_lower_hex_octet (part : string) : bool :=
  match part with
  | String a (String b EmptyString) => is_lower_hex a && is_lower_hex b
  | _ => false
  end.

(** ** MD5 ([hashlib.md5], RFC 1321) on 32-bit words kept in [Z] *)

Module MD5.

Definition wrap (x : Z) : Z := x mod 2 ^ 32.

Definition rotl (x : Z) (c : Z) : Z :=
  wrap (Z.lor (Z.shiftl x c) (Z.shiftr x (32 - c))).

Definition not32 (x : Z) : Z := Z.lxor x 4294967295.

(** [floor(2^32 * abs(sin(i + 1)))] for [i = 0 .. 63]. *)
Definition K : list Z :=
  [ 3614090360; 3905402710; 606105819; 3250441966; 4118548399; 1200080426;
    2821735955; 4249261313; 1770035416; 2336552879; 4294925233; 2304563134;
    1804603682; 4254626195; 2792965006; 1236535329; 4129170786; 3225465664;
    643717713; 3921069994; 3593408605; 38016083; 3634488961; 3889429448;
    568446438; 3275163606; 4107603335; 1163531501; 2850285829; 4243563512;
    1735328473; 2368359562; 4294588738; 2272392833; 1839030562; 4259657740;
    2763975236; 1272893353; 4139469664; 3200236656; 681279174; 3936430074;
    3572445317; 76029189; 3654602809; 3873151461; 530742520; 3299628645;
    4096336452; 1126891415; 2878612391; 4237533241; 1700485571; 2399980690;
    4293915773; 2240044497; 1873313359; 4264355552; 2734768916; 1309151649;
    4149444226; 3174756917; 718787259; 3951481745 ].

(** Per-round left-rotation amounts. *)
Definition S : list Z :=
  [ 7; 12; 17; 22; 7; 12; 17; 22; 7; 12; 17; 22; 7; 12; 17; 22;
    5; 9; 14; 20; 5; 9; 14; 20; 5; 9; 14; 20; 5; 9; 14; 20;
    4; 11; 16; 23; 4; 11; 16; 23; 4; 11; 16; 23; 4; 11; 16; 23;
    6; 10; 15; 21; 6; 10; 15; 21; 6; 10; 15; 21; 6; 10; 15; 21 ].

Record state := State { sA : Z; sB : Z; sC : Z; sD : Z }.

Definition init : state :=
  State 1732584193 4023233417 2562383102 271733878.

(** Little-endian word of four bytes. *)
Definition word_of_bytes (bs : list Z) : Z :=
  match bs with
  | [b0; b1; b2; b3] => b0 + 256 * b1 + 65536 * b2 + 16777216 * b3
  | _ => 0
  end.

Definition bytes_of_word (w : Z) : list Z :=
  [ w mod 256; (w / 256) mod 256; (w / 65536) mod 256; (w / 16777216) mod 256 ].

(** Cut a list into consecutive pieces of [n] elements. *)
Fixpoint chunks {A : Type} (fuel : nat) (n : nat) (l : list A) : list (list A) :=
  match fuel with
  | O => []
  | Datatypes.S fuel' =>
      match l with
      | [] => []
      | _ => take n l :: chunks fuel' n (drop n l)
      end
  end.

Definition round (M : list Z) (st : state) (i : nat) : state :=
  let '(State a b c d) := st in
  let iz := Z.of_nat i in
  let '(f, g) :=
    if iz <? 16 then (Z.lor (Z.land b c) (Z.land (not32 b) d), iz)
    else if iz <? 32 then (Z.lor (Z.land d b) (Z.land (not32 d) c), (5 * iz + 1) mod 16)
    else if iz <? 48 then (Z.lxor (Z.lxor b c) d, (3 * iz + 5) mod 16)
    else (Z.lxor c (Z.lor b (not32 d)), (7 * iz) mod 16) in
  let f' := wrap (f + a + nth i K 0 + nth (Z.to_nat g) M 0) in
  State d (wrap (b + rotl f' (nth i S 0))) b c.

Definition compress (st : state) (block : list Z) : state :=
  let M := map word_of_bytes (chunks 16 4 block) in
  let st' := fold_left (round M) (seq 0 64) st in
  State (wrap (sA st + sA st')) (wrap (sB st + sB st'))
        (wrap (sC st + sC st')) (wrap (sD st + sD st')).

(** Append the bit [1], zeros up to 56 modulo 64, and the bit length as a
    64-bit little-endian integer. *)
Definition pad (msg : list Z) : list Z :=
  let len := Z.of_nat (length msg) in
  let zeros := Z.to_nat ((55 - len) mod 64) in
  let bits := (8 * len) mod 2 ^ 64 in
  (msg ++ [128] ++ repeat 0 zeros
       ++ bytes_of_word (bits mod 2 ^ 32) ++ bytes_of_word (bits / 2 ^ 32))%list.

Definition digest_words (msg : list Z) : state :=
  let padded := pad msg in
  fold_left compress (chunks (length padded) 64 padded) init.

(** [hashlib.md5(data).digest()]: sixteen bytes. *)
Definition digest (data : bytes) : bytes :=
  let st := digest_words (map int_of_byte data) in
  map byte_of_int
    (bytes_of_word (sA st) ++ bytes_of_word (sB st)
     ++ bytes_of_word (sC st) ++ bytes_of_word (sD st))%list.

(** [hashlib.md5(data).hexdigest()]. *)
Definition hexdigest (data : bytes) : string :=
  String.concat "" (map (fun b => fmt_02x (int_of_byte b)) (digest data)).

End MD5.

(** ** UTF-8 text

    [bytes.decode("utf-8")] walks the bytes and either accepts a well-formed
    sequence or reports the maximal ill-formed prefix at that position; with
    [errors="replace"] each report becomes one U+FFFD, with the default strict
    handler the first report raises [UnicodeDecodeError]. *)

Module UTF8.

Inductive item : Type :=
  | Char (bs : bytes)   (* one well-formed code point *)
  | Bad.                (* one ill-formed subpart *)

Definition in_range (lo hi : Z) (b : byte) : bool :=
  (lo <=? int_of_byte b) && (int_of_byte b <=? hi).

Definition is_cont : byte -> bool := in_range 128 191.

(** Allowed range of the second byte after lead byte [b0]. *)
Definition second_ok (b0 : byte) (b1 : byte) : bool :=
  let n := int_of_byte b0 in
  if n =? 224 then in_range 160 191 b1
  else if n =? 237 then in_range 128 159 b1
  else if n =? 240 then in_range 144 191 b1
  else if n =? 244 then in_range 128 143 b1
  else is_cont b1.

Fixpoint scan (bs : bytes) : list item :=
  match bs with
  | [] => []
  | b0 :: r0 =>
      if in_range 0 127 b0 then Char [b0] :: scan r0
      else if in_range 194 223 b0 then
        match r0 with
        | [] => [Bad]
        | b1 :: r1 =>
            if is_cont b1 then Char [b0; b1] :: scan r1 else Bad :: scan r0
        end
      else if in_range 224 239 b0 then
        match r0 with
        | [] => [Bad]
        | b1 :: r1 =>
            if second_ok b0 b1 then
              match r1 with
              | [] => [Bad]
              | b2 :: r2 =>
                  if is_cont b2 then Char [b0; b1; b2] :: scan r2
                  else Bad :: scan r1
              end
            else Bad :: scan r0
        end
      else if in_range 240 244 b0 then
        match r0 with
        | [] => [Bad]
        | b1 :: r1 =>
            if second_ok b0 b1 then
              match r1 with
              | [] => [Bad]
              | b2 :: r2 =>
                  if is_cont b2 then
                    match r2 with
                    | [] => [Bad]
                    | b3 :: r3 =>
                        if is_cont b3 then Char [b0; b1; b2; b3] :: scan r3
                        else Bad :: scan r2
                    end
                  else Bad :: scan r1
              end
            else Bad :: scan r0
        end
      else Bad :: scan r0
  end.

(** U+FFFD REPLACEMENT CHARACTER. *)
Definition replacement : bytes := [xef; xbf; xbd].

Definition item_bytes (i : item) : bytes :=
  match i with
  | Char bs => bs
  | Bad => replacement
  end.

Definition is_char (i : item) : bool :=
  match i with Char _ => true | Bad => false end.

(** The code points of a [str]. *)
Definition chars (s : string) : list bytes :=
  map item_bytes (scan (list_byte_of_string s)).

Definition of_chars (cs : list bytes) : string :=
  string_of_list_byte (concat cs).

(** [data.decode()] (strict): [None] stands for [UnicodeDecodeError]. *)
Definition decode (data : bytes) : option string :=
  if forallb is_char (scan data) then Some (string_of_list_byte data) else None.

(** [data.decode("utf-8", errors="replace")]: total. *)
Definition decode_replace (data : bytes) : string :=
  of_chars (map item_bytes (scan data)).

(** Scalar value of one encoded code point. *)
Definition codepoint (c : bytes) : Z :=
  match map int_of_byte c with
  | [b0] => b0
  | [b0; b1] => Z.lor (Z.shiftl (Z.land b0 31) 6) (Z.land b1 63)
  | [b0; b1; b2] =>
      Z.lor (Z.shiftl (Z.land b0 15) 12)
            (Z.lor (Z.shiftl (Z.land b1 63) 6) (Z.land b2 63))
  | [b0; b1; b2; b3] =>
      Z.lor (Z.shiftl (Z.land b0 7) 18)
            (Z.lor (Z.shiftl (Z.land b1 63) 12)
                   (Z.lor (Z.shiftl (Z.land b2 63) 6) (Z.land b3 63)))
  | _ => 0
  end.

(** [ch.isspace()]: the characters removed by [str.rstrip()]. *)
Definition isspace (c : bytes) : bool :=
  let n := codepoint c in
  ((9 <=? n) && (n <=? 13)) || ((28 <=? n) && (n <=? 32))
  || (n =? 133) || (n =? 160) || (n =? 5760)
  || ((8192 <=? n) && (n <=? 8202))
  || (n =? 8232) || (n =? 8233) || (n =? 8239) || (n =? 8287) || (n =? 12288).

Fixpoint drop_while {A : Type} (p : A -> bool) (l : list A) : list A :=
  match l with
  | [] => []
  | x :: r => if p x then drop_while p r else l
  end.

(** [s.rstrip()]. *)
Definition rstrip (s : string) : string :=
  of_chars (rev (drop_while isspace (rev (chars s)))).

(** [len(s)]: the number of code points. *)
Definition len (s : string) : Z := Z.of_nat (length (chars s)).

(** [s[:n]]. *)
Definition prefix (n : nat) (s : string) : string :=
  of_chars (take n (chars s)).

End UTF8.

(** [s.startswith(p)]. *)
Definition startswith (s p : string) : bool := String.prefix p s.

(** [s.replace(" ", "-")], one character for another. *)
Fixpoint replace_char (old new : ascii) (s : string) : string :=
  match s with
  | EmptyString => EmptyString
  | String c rest =>
      String (if Ascii.eqb c old then new else c) (replace_char old new rest)
  end.

(** [c in s] for a one-character [c]. *)
Fixpoint contains_char (c : ascii) (s : string) : bool :=
  match s with
  | EmptyString => false
  | String d rest => Ascii.eqb c d || contains_char c rest
  end.

(** [a == b] and [a != b] across the dynamic types ([True == 1], [False == 0]). *)
Definition py_eq (a b : value) : bool :=
  match a, b with
  | VNone, VNone => true
  | VStr s, VStr t => String.eqb s t
  | VInt x, VInt y => x =? y
  | VBool x, VBool y => Bool.eqb x y
  | VBool x, VInt y | VInt y, VBool x => (if x then 1 else 0) =? y
  | _, _ => false
  end.

Definition py_ne (a b : value) : bool := negb (py_eq a b).

(** [str(v)]. *)
Definition py_str (v : value) : string :=
  match v with
  | VNone => "None"
  | VBool true => "True"
  | VBool false => "False"
  | VInt z => pretty z
  | VStr s => s
  end.

(** [type(v).__name__]. *)
Definition type_name (v : value) : string :=
  match v with
  | VNone => "NoneType"
  | VBool _ => "bool"
  | VInt _ => "int"
  | VStr _ => "str"
  end.

(** Calling the [str] method [attr] on [v]: only a [str] has it. *)
Definition str_method (v : value) (attr : string) : result string :=
  match v with
  | VStr s => Ok s
  | _ => Raise (AttributeError
                  ("'" ++ type_name v ++ "' object has no attribute '" ++ attr ++ "'"))
  end.

(** [len(v)] of a configuration value. *)
Definition py_len (v : value) : result Z :=
  match v with
  | VStr s => Ok (UTF8.len s)
  | _ => Raise (TypeError ("object of type '" ++ type_name v ++ "' has no len()"))
  end.

Definition is_none (v : value) : bool :=
  match v with VNone => true | _ => false end.

(** ** What the providers take from outside this repository's sources *)

(** Builtins of the interpreter whose Unicode tables are not reproduced. *)
Record Builtins : Type := {
  str_lower : string -> string;       (* [s.lower()] *)
  int_accepts : string -> bool        (* [int(s)] raises no [ValueError] *)
}.

(** The [environment] module (not among the sources) and the variables of
    the process environment read when [squeezelite.py] is imported. *)
Record Environment : Type := {
  get_squeezelite_output_device : value -> value;
  get_player_backend_for_snapcast : string;
  DEFAULT_BUFFER_SIZE : string;       (* SQUEEZELITE_BUFFER_TIME, "80" *)
  DEFAULT_BUFFER_PARAMS : string;     (* SQUEEZELITE_BUFFER_PARAMS, "500:2000" *)
  DEFAULT_CLOSE_TIMEOUT : string;     (* SQUEEZELITE_CLOSE_TIMEOUT, "5" *)
  DEFAULT_SAMPLE_RATE : string        (* SQUEEZELITE_SAMPLE_RATE, "44100" *)
}.

(** [try: int(v) except (TypeError, ValueError)] for [v is not None]. *)
Definition int_ok (rt : Builtins) (v : value) : bool :=
  match v with
  | VNone => false
  | VBool _ | VInt _ => true
  | VStr s => int_accepts rt s
  end.

(** The checks on [name] shared by the three [validate_config] methods,
    after [name] was found truthy. *)
Definition validate_name (name : value) : result (bool * string) :=
  n ← py_len name;
  if 64 <? n then mret (false, "Player name too long (max 64 characters)")
  else
    s ← str_method name "__contains__";
    if contains_char "/" s || contains_char "\" s || contains_char "000" s
    then mret (false, "Player name contains invalid characters")
    else mret (true, "").

(** ** [providers/squeezelite.py] *)

Module Squeezelite.
Section provider.
Context (env : Environment).

Definition provider_type := "squeezelite".
Definition binary_name := "squeezelite".
Definition NULL_DEVICE := "null".

Definition build_command (player : gmap string value) (log_path : string)
  : result (list value) :=
  device ← dict_item player "device";
  let output_device := get_squeezelite_output_device env device in
  name ← dict_item player "name";
  mac_address ← dict_item player "mac_address";
  let cmd := [VStr binary_name; VStr "-n"; name; VStr "-o"; output_device;
              VStr "-m"; mac_address] in
  let cmd := if truthy (dict_get player "server_ip")
             then (cmd ++ [VStr "-s"; dict_get player "server_ip"])%list
             else cmd in
  let cmd := (cmd ++ [VStr "-a"; VStr (DEFAULT_BUFFER_SIZE env);
                      VStr "-b"; VStr (DEFAULT_BUFFER_PARAMS env);
                      VStr "-C"; VStr (DEFAULT_CLOSE_TIMEOUT env)])%list in
  let cmd := if py_eq device (VStr NULL_DEVICE)
             then (cmd ++ [VStr "-r"; VStr (DEFAULT_SAMPLE_RATE env)])%list
             else cmd in
  mret cmd.

Definition build_fallback_command (player : gmap string value) (log_path : string)
  : result (list value) :=
  name ← dict_item player "name";
  mac_address ← dict_item player "mac_address";
  let cmd := [VStr binary_name; VStr "-n"; name; VStr "-o"; VStr NULL_DEVICE;
              VStr "-m"; mac_address] in
  let cmd := if truthy (dict_get player "server_ip")
             then (cmd ++ [VStr "-s"; dict_get player "server_ip"])%list
             else cmd in
  mret (cmd ++ [VStr "-a"; VStr (DEFAULT_BUFFER_SIZE env);
                VStr "-b"; VStr (DEFAULT_BUFFER_PARAMS env);
                VStr "-C"; VStr (DEFAULT_CLOSE_TIMEOUT env);
                VStr "-r"; VStr (DEFAULT_SAMPLE_RATE env)])%list.

Definition validate_config (config : gmap string value) : result (bool * string) :=
  if negb (truthy (dict_get config "name")) then mret (false, "Player name is required")
  else if negb (truthy (dict_get config "device")) then mret (false, "Audio device is required")
  else validate_name (dict_get config "name").

Definition get_default_config : gmap string value :=
  {[ "provider" := VStr provider_type;
     "device" := VStr "default";
     "server_ip" := VStr "";
     "mac_address" := VStr "";
     "volume" := VInt 75;
     "autostart" := VBool false ]}.

(** The digest has sixteen bytes, so index 0 of its first six exists. *)
Definition generate_mac_address (name : string) : string :=
  let hash_bytes := MD5.digest (encode name) in
  let mac_bytes := map int_of_byte (take 6 hash_bytes) in
  let mac_bytes := <[ 0%nat := Z.land (Z.lor (mac_bytes !!! 0%nat) 2) 254 ]> mac_bytes in
  join ":" (map fmt_02x mac_bytes).

Definition prepare_config (config : gmap string value) : result (gmap string value) :=
  let result := dict_update get_default_config config in
  if negb (truthy (dict_get result "mac_address")) && truthy (dict_get result "name")
  then
    name ← str_method (dict_get result "name") "encode";
    mret (<[ "mac_address" := VStr (generate_mac_address name) ]> result)
  else mret result.

End provider.
End Squeezelite.

(** ** [providers/sendspin.py] *)

Module Sendspin.
Section provider.
Context (rt : Builtins).

Definition provider_type := "sendspin".
Definition binary_name := "sendspin".
Definition DEFAULT_LOG_LEVEL := "INFO".
Definition CLIENT_ID_PREFIX := "sendspin".

Definition _generate_client_id (name : string) : string :=
  let hash_suffix := UTF8.prefix 8 (MD5.hexdigest (encode name)) in
  let safe_name := UTF8.prefix 20 (replace_char " " "-" (str_lower rt name)) in
  CLIENT_ID_PREFIX ++ "-" ++ safe_name ++ "-" ++ hash_suffix.

(** The default of [player.get("client_id", ...)] is evaluated before the
    lookup, so the name is read and hashed on every call. *)
Definition build_command (player : gmap string value) (log_path : string)
  : result (list value) :=
  name ← dict_item player "name";
  n ← str_method name "encode";
  let client_id := dict_get_default player "client_id" (VStr (_generate_client_id n)) in
  let cmd := [VStr binary_name; VStr "--headless"; VStr "--name"; name;
              VStr "--id"; client_id] in
  let device := dict_get_default player "device" (VStr "default") in
  cmd ← (if truthy device && py_ne device (VStr "default") && py_ne device (VStr "null")
         then
           d ← str_method device "startswith";
           if startswith d "hw:" || startswith d "plughw:" then mret cmd
           else if startswith d "alsa_output." || startswith d "alsa_input." then mret cmd
           else mret (cmd ++ [VStr "--audio-device"; device])%list
         else mret cmd);
  let delay_ms := dict_get player "delay_ms" in
  let cmd := if negb (is_none delay_ms) && py_ne delay_ms (VInt 0)
             then (cmd ++ [VStr "--static-delay-ms"; VStr (py_str delay_ms)])%list
             else cmd in
  let log_level := dict_get_default player "log_level" (VStr DEFAULT_LOG_LEVEL) in
  mret (cmd ++ [VStr "--log-level"; log_level])%list.

Definition build_fallback_command (player : gmap string value) (log_path : string)
  : option (list value) := None.

Definition validate_config (config : gmap string value) : result (bool * string) :=
  if negb (truthy (dict_get config "name")) then mret (false, "Player name is required")
  else
    r ← validate_name (dict_get config "name");
    if negb (fst r) then mret r
    else
      let delay_ms := dict_get config "delay_ms" in
      if negb (is_none delay_ms) && negb (int_ok rt delay_ms)
      then mret (false, "Delay must be an integer (milliseconds)")
      else mret (true, "").

Definition get_default_config : gmap string value :=
  {[ "provider" := VStr provider_type;
     "device" := VStr "default";
     "client_id" := VStr "";
     "delay_ms" := VInt 0;
     "log_level" := VStr DEFAULT_LOG_LEVEL;
     "volume" := VInt 75;
     "autostart" := VBool false ]}.

Definition prepare_config (config : gmap string value) : result (gmap string value) :=
  let result := dict_update get_default_config config in
  if negb (truthy (dict_get result "client_id")) && truthy (dict_get result "name")
  then
    name ← str_method (dict_get result "name") "encode";
    mret (<[ "client_id" := VStr (_generate_client_id name) ]> result)
  else mret result.

End provider.
End Sendspin.

(** ** [providers/snapcast.py] *)

Module Snapcast.
Section provider.
Context (rt : Builtins) (env : Environment).

Definition provider_type := "snapcast".
Definition binary_name := "snapclient".
Definition DEFAULT_LATENCY := 0.
Definition HOST_ID_PREFIX := "snapcast".

Definition build_command (player : gmap string value) (log_path : string)
  : result (list value) :=
  let cmd := [VStr binary_name] in
  let cmd := if truthy (dict_get player "server_ip")
             then (cmd ++ [VStr "--host"; dict_get player "server_ip"])%list
             else cmd in
  let device := dict_get_default player "device" (VStr "default") in
  let cmd := if truthy device && py_ne device (VStr "default")
             then (cmd ++ [VStr "--soundcard"; device])%list
             else cmd in
  let host_id := dict_get player "host_id" in
  let cmd := if truthy host_id then (cmd ++ [VStr "--hostID"; host_id])%list else cmd in
  let latency := dict_get_default player "latency" (VInt DEFAULT_LATENCY) in
  let cmd := if truthy latency && py_ne latency (VInt 0)
             then (cmd ++ [VStr "--latency"; VStr (py_str latency)])%list
             else cmd in
  let player_backend := get_player_backend_for_snapcast env in
  let cmd := (cmd ++ [VStr "--player"; VStr player_backend])%list in
  mret (cmd ++ [VStr "--logsink"; VStr "stderr"])%list.

Definition build_fallback_command (player : gmap string value) (log_path : string)
  : option (list value) := None.

Definition validate_config (config : gmap string value) : result (bool * string) :=
  if negb (truthy (dict_get config "name")) then mret (false, "Player name is required")
  else
    r ← validate_name (dict_get config "name");
    if negb (fst r) then mret r
    else
      let latency := dict_get config "latency" in
      if negb (is_none latency) && negb (int_ok rt latency)
      then mret (false, "Latency must be an integer (milliseconds)")
      else mret (true, "").

Definition get_default_config : gmap string value :=
  {[ "provider" := VStr provider_type;
     "device" := VStr "default";
     "server_ip" := VStr "";
     "host_id" := VStr "";
     "latency" := VInt 0;
     "volume" := VInt 75;
     "autostart" := VBool false ]}.

Definition generate_host_id (name : string) : string :=
  let hash_suffix := UTF8.prefix 12 (MD5.hexdigest (encode name)) in
  let safe_name := UTF8.prefix 20 (replace_char " " "-" (str_lower rt name)) in
  HOST_ID_PREFIX ++ "-" ++ safe_name ++ "-" ++ hash_suffix.

Definition prepare_config (config : gmap string value) : result (gmap string value) :=
  let result := dict_update get_default_config config in
  if negb (truthy (dict_get result "host_id")) && truthy (dict_get result "name")
  then
    name ← str_method (dict_get result "name") "encode";
    mret (<[ "host_id" := VStr (generate_host_id name) ]> result)
  else mret result.

End provider.
End Snapcast.

(** ** [managers/process_manager.py] *)

(** What one reader thread meets at each turn of its loop. *)
Inductive read_step : Type :=
  | StopIsSet                       (* [stop_event.is_set()] before the read *)
  | ReadlineRaises                  (* [OSError] / [ValueError]: stream closed *)
  | ReadlineBytes (line : bytes)    (* [b""] is end of file *)
  | ReadlineOther (v : value).      (* not [bytes], as test doubles return *)

Inductive signal : Type := SIGTERM | SIGKILL.

(** A [subprocess.Popen] handle. *)
Record Popen : Type := mkPopen { pid : Z; args : list string }.

Record Event : Type := mkEvent { event_of : Z }.
Record LogFile : Type := mkLogFile { path : string }.
Record Thread : Type := mkThread { thread_name : string; target : Z }.

Global Instance Popen_eq_dec : EqDecision Popen.
Proof. solve_decision. Defined.

(** Everything the manager does to the outside, in program order. *)
Inductive effect : Type :=
  | Log (level msg : string)                  (* [logger.<level>(msg)] *)
  | Print (line : string)                     (* [print(line, flush=True)] *)
  | FileWrite (text : string)                 (* [log_file.write(text); log_file.flush()] *)
  | StreamClose                               (* [stream.close()] *)
  | PopenCall (command : list string)         (* [subprocess.Popen(command, ...)] *)
  | Sleep (millis : Z)                        (* [time.sleep] *)
  | Communicate (p : Popen)                   (* [process.communicate()] *)
  | Killpg (p : Popen) (sig : signal)         (* [os.killpg(os.getpgid(pid), sig)] *)
  | Wait (p : Popen) (timeout : Z)            (* [process.wait(timeout=...)] *)
  | EventSet (e : Event)                      (* [stop_event.set()] *)
  | ThreadStart (t : Thread)
  | ThreadJoin (t : Thread)                   (* [thread.join(timeout=0.5)] *)
  | FileOpen (f : LogFile)
  | FileClose (f : LogFile).

(** [_stream_output]: the body of a reader thread, as the effects it has on
    the console, the log file and its pipe.  The pipe is the list of what
    the successive turns of the loop meet; a pipe that runs out is at end of
    file. *)
Fixpoint stream_loop (prefix : string) (log_file : bool) (stream : list read_step)
  : list effect :=
  match stream with
  | [] => []
  | StopIsSet :: _ => []
  | ReadlineRaises :: _ => []
  | ReadlineOther _ :: _ =>
      (* falsy: taken for end of file; truthy: [line.decode] raises
         [AttributeError] or [TypeError] *)
      []
  | ReadlineBytes line :: rest =>
      match line with
      | [] => []
      | _ =>
          let decoded := UTF8.rstrip (UTF8.decode_replace line) in
          ((if negb (String.eqb decoded "")
            then Print (prefix ++ " " ++ decoded)
                 :: (if log_file
                     then [FileWrite (decoded ++ String "010" "")]
                     else [])
            else []) ++ stream_loop prefix log_file rest)%list
      end
  end.

Definition _stream_output (stream : list read_step) (name stream_type : string)
    (log_file : bool) : list effect :=
  let prefix := "[" ++ name ++ "]" in
  let prefix := if String.eqb stream_type "stderr"
                then "[" ++ name ++ ":ERR]" else prefix in
  (stream_loop prefix log_file stream ++ [StreamClose])%list.

Definition PROCESS_STARTUP_DELAY_MILLIS : Z := 500.
Definition PROCESS_STOP_TIMEOUT_SECS : Z := 5.
Definition PROCESS_KILL_TIMEOUT_SECS : Z := 2.

(** The attributes of a [ProcessManager]. *)
Record ProcessManager : Type := mkProcessManager {
  processes : gmap string Popen;
  log_dir : string;
  _stream_threads : gmap string (list Thread);
  _log_files : gmap string LogFile;
  _stop_events : gmap string Event
}.

(** What [subprocess.Popen] and the poll after the start-up delay show. *)
Inductive spawn_outcome : Type :=
  | SpawnRaises (e : exn)
  | Spawned (pid : Z) (early_exit : option bytes).
      (* [Some stderr]: [poll()] after the delay shows an exit code, and
         [communicate()] then returns this standard error *)

(** The operating system and interpreter, as the answers they give. *)
Record OS : Type := {
  os_win32 : bool;                                  (* [sys.platform == "win32"] *)
  os_has_setsid : bool;                             (* [hasattr(os, "setsid")] *)
  os_spawn : nat -> list string -> spawn_outcome;   (* n-th [Popen] of a call *)
  os_poll : Popen -> option Z;                      (* [poll()] of a tracked handle *)
  os_killpg : Popen -> signal -> option exn;        (* [None]: returns *)
  os_wait : Popen -> Z -> option exn;               (* [None]: exited in time *)
  os_open_log : string -> option exn;               (* [open(path, "a")]; [None]: opens *)
  os_decode_error : bytes -> string                 (* text of [UnicodeDecodeError] *)
}.

(** [str(e)]. *)
Definition exn_text (e : exn) : string :=
  match e with
  | KeyError t | AttributeError t | TypeError t | FileNotFoundError t
  | TimeoutExpired t | UnicodeDecodeError t | OtherException t => t
  end.

(** [os.path.join(a, b)] on POSIX. *)
Definition os_path_join (a b : string) : string :=
  if startswith b "/" then b
  else if String.eqb a "" || String.eqb (substring (String.length a - 1) 1 a) "/"
       then a ++ b
       else a ++ "/" ++ b.

(** The manager's methods run in a state monad over the manager and the
    list of effects so far. *)
Record world : Type := mkWorld { self : ProcessManager; trace : list effect }.

Definition M (A : Type) : Type := world -> A * world.

Global Instance M_ret : MRet M := fun A a w => (a, w).
Global Instance M_bind : MBind M := fun A B k m w => let '(a, w') := m w in k a w'.

Definition emit (e : effect) : M unit :=
  fun w => (tt, mkWorld (self w) (trace w ++ [e])).

Definition get_self : M ProcessManager := fun w => (self w, w).

Definition modify (f : ProcessManager -> ProcessManager) : M unit :=
  fun w => (tt, mkWorld (f (self w)) (trace w)).

Fixpoint for_each {A : Type} (l : list A) (body : A -> M unit) : M unit :=
  match l with
  | [] => mret tt
  | x :: r => _ ← body x; for_each r body
  end.

Definition set_processes (f : gmap string Popen -> gmap string Popen)
    (m : ProcessManager) : ProcessManager :=
  mkProcessManager (f (processes m)) (log_dir m) (_stream_threads m)
                   (_log_files m) (_stop_events m).

Definition set_stream_threads (f : gmap string (list Thread) -> gmap string (list Thread))
    (m : ProcessManager) : ProcessManager :=
  mkProcessManager (processes m) (log_dir m) (f (_stream_threads m))
                   (_log_files m) (_stop_events m).

Definition set_log_files (f : gmap string LogFile -> gmap string LogFile)
    (m : ProcessManager) : ProcessManager :=
  mkProcessManager (processes m) (log_dir m) (_stream_threads m)
                   (f (_log_files m)) (_stop_events m).

Definition set_stop_events (f : gmap string Event -> gmap string Event)
    (m : ProcessManager) : ProcessManager :=
  mkProcessManager (processes m) (log_dir m) (_stream_threads m)
                   (_log_files m) (f (_stop_events m)).

Section manager.
Context (os : OS).

(** [_get_preexec_fn() is not None]. *)
Definition _get_preexec_fn : M bool :=
  if os_win32 os then mret false
  else if negb (os_has_setsid os) then
    _ ← emit (Log "warning" "os.setsid not available on this platform");
    mret false
  else mret true.

Definition get_log_path (m : ProcessManager) (name : string) : string :=
  os_path_join (log_dir m) (name ++ ".log").

Definition _setup_streaming (name : string) (process : Popen) : M unit :=
  let stop_event := mkEvent (pid process) in
  _ ← modify (set_stop_events <[ name := stop_event ]>);
  m ← get_self;
  let log_path := get_log_path m name in
  _ ← match os_open_log os log_path with
      | None =>
          let log_file := mkLogFile log_path in
          _ ← emit (FileOpen log_file);
          _ ← modify (set_log_files <[ name := log_file ]>);
          emit (Log "debug" ("Opened log file for '" ++ name ++ "': " ++ log_path))
      | Some e =>
          emit (Log "warning" ("Could not open log file for '" ++ name ++ "': "
                               ++ exn_text e))
      end;
  let stdout_thread := mkThread (name ++ "-stdout") (pid process) in
  _ ← emit (ThreadStart stdout_thread);
  let stderr_thread := mkThread (name ++ "-stderr") (pid process) in
  _ ← emit (ThreadStart stderr_thread);
  let threads := [stdout_thread; stderr_thread] in
  _ ← modify (set_stream_threads <[ name := threads ]>);
  emit (Log "debug" ("Started " ++ pretty (length threads)
                     ++ " streaming threads for '" ++ name ++ "'")).

Definition _cleanup_streaming (name : string) : M unit :=
  m ← get_self;
  _ ← match _stop_events m !! name with
      | Some ev =>
          _ ← emit (EventSet ev);
          modify (set_stop_events (delete name))
      | None => mret tt
      end;
  _ ← match _stream_threads m !! name with
      | Some threads =>
          _ ← for_each threads (fun thread => emit (ThreadJoin thread));
          modify (set_stream_threads (delete name))
      | None => mret tt
      end;
  _ ← match _log_files m !! name with
      | Some f =>
          _ ← emit (FileClose f);
          modify (set_log_files (delete name))
      | None => mret tt
      end;
  emit (Log "debug" ("Cleaned up streaming resources for '" ++ name ++ "'")).

(** [stderr.decode() if stderr else "Unknown error"], after
    [process.communicate()]. *)
Definition error_message (stderr : bytes) : result string :=
  match stderr with
  | [] => Ok "Unknown error"
  | _ => match UTF8.decode stderr with
         | Some s => Ok s
         | None => Raise (UnicodeDecodeError (os_decode_error os stderr))
         end
  end.

Definition _start_fallback (name : string) (command : list string)
  : M (bool * string) :=
  _ ← emit (Log "info" ("Fallback command for '" ++ name ++ "': " ++ join " " command));
  _ ← emit (Print ("[" ++ name ++ "] Trying fallback configuration..."));
  let on_exception (e : exn) : M (bool * string) :=
    _ ← emit (Log "error" ("Error starting fallback for '" ++ name ++ "': " ++ exn_text e));
    _ ← emit (Print ("[" ++ name ++ ":ERR] Fallback error: " ++ exn_text e));
    mret (false, "Error starting fallback: " ++ exn_text e) in
  _ ← _get_preexec_fn;
  _ ← emit (PopenCall command);
  match os_spawn os 1 command with
  | SpawnRaises e => on_exception e
  | Spawned new_pid early_exit =>
      let process := mkPopen new_pid command in
      _ ← modify (set_processes <[ name := process ]>);
      _ ← emit (Sleep PROCESS_STARTUP_DELAY_MILLIS);
      match early_exit with
      | Some stderr =>
          _ ← emit (Communicate process);
          match error_message stderr with
          | Raise e => on_exception e
          | Ok error_msg =>
              _ ← emit (Print ("[" ++ name ++ ":ERR] Fallback also failed: " ++ error_msg));
              mret (false, "Fallback also failed: " ++ error_msg)
          end
      | None =>
          _ ← _setup_streaming name process;
          _ ← emit (Log "info" ("Started process '" ++ name ++ "' with fallback (PID "
                                 ++ pretty new_pid ++ ")"));
          _ ← emit (Print ("[" ++ name ++ "] Started with fallback (PID "
                            ++ pretty new_pid ++ ")"));
          mret (true, "Process '" ++ name ++ "' started with fallback configuration")
      end
  end.

(** [if fallback_command:] holds for a list that is given and not empty. *)
Definition fallback_given (fallback_command : option (list string)) : bool :=
  match fallback_command with
  | Some (_ :: _) => true
  | _ => false
  end.

Definition start (name : string) (command : list string)
    (fallback_command : option (list string)) : M (bool * string) :=
  m ← get_self;
  let running := match processes m !! name with
                 | Some p => bool_decide (os_poll os p = None)
                 | None => false
                 end in
  if running then mret (false, "Process '" ++ name ++ "' is already running")
  else
    _ ← emit (Log "info" ("Starting process '" ++ name ++ "' with command: "
                           ++ join " " command));
    let on_exception (e : exn) : M (bool * string) :=
      match e with
      | FileNotFoundError _ =>
          let binary := match command with b :: _ => b | [] => "unknown" end in
          _ ← emit (Log "error" ("Binary '" ++ binary ++ "' not found"));
          _ ← emit (Print ("[" ++ name ++ ":ERR] Binary '" ++ binary ++ "' not found"));
          mret (false, "Binary '" ++ binary ++ "' not found")
      | _ =>
          _ ← emit (Log "error" ("Error starting process '" ++ name ++ "': " ++ exn_text e));
          _ ← emit (Print ("[" ++ name ++ ":ERR] Error starting: " ++ exn_text e));
          mret (false, "Error starting process: " ++ exn_text e)
      end in
    _ ← _cleanup_streaming name;
    preexec ← _get_preexec_fn;
    _ ← emit (Log "debug" ("Starting subprocess with preexec_fn="
                            ++ py_str (VBool preexec)));
    _ ← emit (PopenCall command);
    match os_spawn os 0 command with
    | SpawnRaises e => on_exception e
    | Spawned new_pid early_exit =>
        let process := mkPopen new_pid command in
        _ ← modify (set_processes <[ name := process ]>);
        _ ← emit (Sleep PROCESS_STARTUP_DELAY_MILLIS);
        match early_exit with
        | Some stderr =>
            _ ← emit (Communicate process);
            match error_message stderr with
            | Raise e => on_exception e
            | Ok error_msg =>
                _ ← emit (Log "error" ("Process '" ++ name ++ "' failed to start: "
                                        ++ error_msg));
                _ ← emit (Print ("[" ++ name ++ ":ERR] Failed to start: " ++ error_msg));
                match fallback_command with
                | Some ((_ :: _) as fallback) =>
                    _ ← emit (Log "info" ("Trying fallback command for '" ++ name ++ "'"));
                    _start_fallback name fallback
                | _ => mret (false, "Process failed to start: " ++ error_msg)
                end
            end
        | None =>
            _ ← _setup_streaming name process;
            _ ← emit (Log "info" ("Started process '" ++ name ++ "' with PID "
                                   ++ pretty new_pid));
            _ ← emit (Print ("[" ++ name ++ "] Started with PID " ++ pretty new_pid));
            mret (true, "Process '" ++ name ++ "' started successfully")
        end
    end.

Definition stop (name : string) : M (bool * string) :=
  m ← get_self;
  match processes m !! name with
  | None => mret (false, "Process '" ++ name ++ "' not found")
  | Some process =>
      match os_poll os process with
      | Some _ =>
          _ ← modify (set_processes (delete name));
          _ ← _cleanup_streaming name;
          mret (false, "Process '" ++ name ++ "' was not running")
      | None =>
          let on_timeout : M (bool * string) :=
            _ ← emit (Killpg process SIGKILL);
            _ ← match os_killpg os process SIGKILL with
                | None => emit (Wait process PROCESS_KILL_TIMEOUT_SECS)
                | Some _ => mret tt
                end;
            _ ← modify (set_processes (delete name));
            _ ← _cleanup_streaming name;
            _ ← emit (Log "info" ("Force stopped process '" ++ name ++ "'"));
            _ ← emit (Print ("[" ++ name ++ "] Force stopped"));
            mret (true, "Process '" ++ name ++ "' force stopped") in
          let on_exception (e : exn) : M (bool * string) :=
            match e with
            | TimeoutExpired _ => on_timeout
            | _ =>
                _ ← emit (Log "error" ("Error stopping process '" ++ name ++ "': "
                                        ++ exn_text e));
                _ ← emit (Print ("[" ++ name ++ ":ERR] Error stopping: " ++ exn_text e));
                mret (false, "Error stopping process: " ++ exn_text e)
            end in
          _ ← emit (Print ("[" ++ name ++ "] Stopping..."));
          _ ← emit (Killpg process SIGTERM);
          match os_killpg os process SIGTERM with
          | Some e => on_exception e
          | None =>
              _ ← emit (Wait process PROCESS_STOP_TIMEOUT_SECS);
              match os_wait os process PROCESS_STOP_TIMEOUT_SECS with
              | Some e => on_exception e
              | None =>
                  _ ← modify (set_processes (delete name));
                  _ ← _cleanup_streaming name;
                  _ ← emit (Log "info" ("Stopped process '" ++ name ++ "'"));
                  _ ← emit (Print ("[" ++ name ++ "] Stopped"));
                  mret (true, "Process '" ++ name ++ "' stopped successfully")
              end
          end
      end
  end.

Definition is_running (name : string) : M bool :=
  m ← get_self;
  match processes m !! name with
  | None => mret false
  | Some process => mret (bool_decide (os_poll os process = None))
  end.

End manager.

(** ** Concrete surroundings used to run the model

    [str.lower()] and [int()] restricted to ASCII text, and the settings of a
    standalone container (ALSA devices passed through, no variable set). *)

Definition ascii_lower_char (c : ascii) : ascii :=
  let n := N_of_ascii c in
  if ((65 <=? n) && (n <=? 90))%N then ascii_of_N (n + 32) else c.

Fixpoint ascii_lower (s : string) : string :=
  match s with
  | EmptyString => EmptyString
  | String c rest => String (ascii_lower_char c) (ascii_lower rest)
  end.

Fixpoint all_digits (s : string) : bool :=
  match s with
  | EmptyString => true
  | String c rest => ((48 <=? N_of_ascii c) && (N_of_ascii c <=? 57))%N && all_digits rest
  end.

Definition ascii_int_accepts (s : string) : bool :=
  match s with
  | EmptyString => false
  | String c rest =>
      if Ascii.eqb c "-" || Ascii.eqb c "+"
      then negb (String.eqb rest "") && all_digits rest
      else all_digits s
  end.

Definition ascii_builtins : Builtins :=
  {| str_lower := ascii_lower; int_accepts := ascii_int_accepts |}.

Definition standalone_env : Environment :=
  {| get_squeezelite_output_device := fun device => device;
     get_player_backend_for_snapcast := "alsa";
     DEFAULT_BUFFER_SIZE := "80";
     DEFAULT_BUFFER_PARAMS := "500:2000";
     DEFAULT_CLOSE_TIMEOUT := "5";
     DEFAULT_SAMPLE_RATE := "44100" |}.

(** ** The providers as one family

    The callers hold a provider without knowing which one it is; the
    statements about "every provider" go through this dispatch. *)

Inductive provider : Type :=
  | SqueezeliteProvider
  | SendspinProvider
  | SnapcastProvider.

Definition get_default_config (p : provider) : gmap string value :=
  match p with
  | SqueezeliteProvider => Squeezelite.get_default_config
  | SendspinProvider => Sendspin.get_default_config
  | SnapcastProvider => Snapcast.get_default_config
  end.

Definition prepare_config (rt : Builtins) (p : provider) (config : gmap string value)
  : result (gmap string value) :=
  match p with
  | SqueezeliteProvider => Squeezelite.prepare_config config
  | SendspinProvider => Sendspin.prepare_config rt config
  | SnapcastProvider => Snapcast.prepare_config rt config
  end.

Definition build_command (rt : Builtins) (env : Environment) (p : provider)
    (player : gmap string value) (log_path : string) : result (list value) :=
  match p with
  | SqueezeliteProvider => Squeezelite.build_command env player log_path
  | SendspinProvider => Sendspin.build_command rt player log_path
  | SnapcastProvider => Snapcast.build_command env player log_path
  end.

Definition validate_config (rt : Builtins) (p : provider) (config : gmap string value)
  : result (bool * string) :=
  match p with
  | SqueezeliteProvider => Squeezelite.validate_config config
  | SendspinProvider => Sendspin.validate_config rt config
  | SnapcastProvider => Snapcast.validate_config rt config
  end.

(** The key under which each provider keeps its derived identifier, and the
    function that derives it from the name. *)
Definition identifier_key (p : provider) : string :=
  match p with
  | SqueezeliteProvider => "mac_address"
  | SendspinProvider => "client_id"
  | SnapcastProvider => "host_id"
  end.

Definition generate_identifier (rt : Builtins) (p : provider) (name : string) : string :=
  match p with
  | SqueezeliteProvider => Squeezelite.generate_mac_address name
  | SendspinProvider => Sendspin._generate_client_id rt name
  | SnapcastProvider => Snapcast.generate_host_id rt name
  end.


(** The configuration of the specification's end-to-end scenario. *)
Definition kitchen_config : gmap string value :=
  {[ "name" := VStr "Kitchen"; "device" := VStr "hw:1,0" ]}.

(** The device names that [Sendspin.build_command] passes over because
    PortAudio cannot open them: ALSA names and PulseAudio sink names. *)
Definition sendspin_incompatible (d : string) : bool :=
  startswith d "hw:" || startswith d "plughw:"
  || startswith d "alsa_output." || startswith d "alsa_input.".

(** The same player once prepared for Squeezelite, and a player left on
    the default device. *)
Definition kitchen_player : gmap string value :=
  <[ "mac_address" := VStr "32:fa:00:a6:6f:2e" ]> kitchen_config.


(** A pipe whose first line is not valid UTF-8 ([b"\xff\xfe\n"]), followed
    by the line [b"ok\n"]. *)
Definition undecodable_then_ok : list read_step :=
  [ ReadlineBytes [xff; xfe; x0a]; ReadlineBytes [x6f; x6b; x0a] ].

(** ** Reading the effects of the manager *)

(** The line that [_cleanup_streaming] logs when it has finished. *)
Definition is_cleanup (name : string) (e : effect) : bool :=
  match e with
  | Log level msg =>
      String.eqb level "debug"
      && String.eqb msg ("Cleaned up streaming resources for '" ++ name ++ "'")
  | _ => false
  end.

(** How many times the streaming resources of [name] were cleaned up. *)
Definition count_cleanups (name : string) (effects : list effect) : nat :=
  length (List.filter (is_cleanup name) effects).

(** The commands handed to [subprocess.Popen], in order. *)
Fixpoint popen_calls (effects : list effect) : list (list string) :=
  match effects with
  | [] => []
  | PopenCall command :: rest => command :: popen_calls rest
  | _ :: rest => popen_calls rest
  end.

(** The manager once the streaming entries of [name] are gone. *)
Definition cleaned (name : string) (m : ProcessManager) : ProcessManager :=
  mkProcessManager (processes m) (log_dir m) (delete name (_stream_threads m))
                   (delete name (_log_files m)) (delete name (_stop_events m)).

(** The releases that a cleanup of [name] performs on manager [m]: the stop
    event set, each reader thread joined, the log file closed. *)
Definition cleanup_effects (name : string) (m : ProcessManager) : list effect :=
  (match _stop_events m !! name with Some ev => [EventSet ev] | None => [] end
   ++ match _stream_threads m !! name with
      | Some threads => map ThreadJoin threads
      | None => []
      end
   ++ match _log_files m !! name with Some f => [FileClose f] | None => [] end)%list.

Definition is_release (e : effect) : bool :=
  match e with
  | EventSet _ | ThreadJoin _ | FileClose _ => true
  | _ => false
  end.

(** The releases among some effects, in order. *)
Definition releases (effects : list effect) : list effect :=
  List.filter is_release effects.

(** The paths through [stop] for a tracked handle. *)
Inductive stop_path : Type :=
  | AlreadyDead                 (* the poll shows an exit code *)
  | Graceful                    (* SIGTERM, exited within the timeout *)
  | TimeoutThenForceKill        (* [TimeoutExpired], then SIGKILL *)
  | SignalOrWaitRaised (e : exn). (* any other exception from SIGTERM or the wait *)

Definition stop_path_of (os : OS) (process : Popen) : stop_path :=
  let classify (e : exn) :=
    match e with
    | TimeoutExpired _ => TimeoutThenForceKill
    | _ => SignalOrWaitRaised e
    end in
  match os_poll os process with
  | Some _ => AlreadyDead
  | None =>
      match os_killpg os process SIGTERM with
      | Some e => classify e
      | None =>
          match os_wait os process PROCESS_STOP_TIMEOUT_SECS with
          | Some e => classify e
          | None => Graceful
          end
      end
  end.

(** ** Concrete operating systems and managers used to run the model *)

Definition fresh_manager : world :=
  mkWorld (mkProcessManager ∅ "/app/logs" ∅ ∅ ∅) [].

Definition kitchen_command : list string :=
  ["squeezelite"; "-n"; "Kitchen"; "-o"; "hw:1,0"; "-m"; "32:fa:00:a6:6f:2e";
   "-a"; "80"; "-b"; "500:2000"; "-C"; "5"].

Definition kitchen_fallback : list string :=
  ["squeezelite"; "-n"; "Kitchen"; "-o"; "null"; "-m"; "32:fa:00:a6:6f:2e";
   "-a"; "80"; "-b"; "500:2000"; "-C"; "5"; "-r"; "44100"].

(** Every process starts, stays alive, and exits on SIGTERM in time. *)
Definition healthy_os : OS :=
  {| os_win32 := false;
     os_has_setsid := true;
     os_spawn := fun _ _ => Spawned 4242 None;
     os_poll := fun _ => None;
     os_killpg := fun _ _ => None;
     os_wait := fun _ _ => None;
     os_open_log := fun _ => None;
     os_decode_error := fun _ => "'utf-8' codec can't decode bytes" |}.

(** The first process of a call exits at once, complaining on standard
    error (here: [b"busy"]); the second one stays alive. *)
Definition primary_dies_os : OS :=
  {| os_win32 := false;
     os_has_setsid := true;
     os_spawn := fun n _ =>
       match n with
       | O => Spawned 101 (Some [x62; x75; x73; x79])
       | _ => Spawned 102 None
       end;
     os_poll := fun _ => None;
     os_killpg := fun _ _ => None;
     os_wait := fun _ _ => None;
     os_open_log := fun _ => None;
     os_decode_error := fun _ => "'utf-8' codec can't decode bytes" |}.

(** As before, but the binary of the second command does not exist. *)
Definition fallback_missing_os (e : exn) : OS :=
  {| os_win32 := false;
     os_has_setsid := true;
     os_spawn := fun n _ =>
       match n with
       | O => Spawned 101 (Some [x62; x75; x73; x79])
       | _ => SpawnRaises e
       end;
     os_poll := fun _ => None;
     os_killpg := fun _ _ => None;
     os_wait := fun _ _ => None;
     os_open_log := fun _ => None;
     os_decode_error := fun _ => "'utf-8' codec can't decode bytes" |}.

(** The tracked process is alive at the poll and gone when SIGTERM is sent:
    [os.getpgid] raises [ProcessLookupError]. *)
Definition vanishing_os : OS :=
  {| os_win32 := false;
     os_has_setsid := true;
     os_spawn := fun _ _ => Spawned 4242 None;
     os_poll := fun _ => None;
     os_killpg := fun _ _ => Some (OtherException "[Errno 3] No such process");
     os_wait := fun _ _ => None;
     os_open_log := fun _ => None;
     os_decode_error := fun _ => "'utf-8' codec can't decode bytes" |}.

(** A process that ignores SIGTERM. *)
Definition stubborn_os : OS :=
  {| os_win32 := false;
     os_has_setsid := true;
     os_spawn := fun _ _ => Spawned 4242 None;
     os_poll := fun _ => None;
     os_killpg := fun _ _ => None;
     os_wait := fun _ _ => Some (TimeoutExpired "timed out after 5 seconds");
     os_open_log := fun _ => None;
     os_decode_error := fun _ => "'utf-8' codec can't decode bytes" |}.

(** A tracked process turns out to have exited with status 1. *)
Definition exited_os : OS :=
  {| os_win32 := false;
     os_has_setsid := true;
     os_spawn := fun _ _ => Spawned 4242 None;
     os_poll := fun _ => Some 1;
     os_killpg := fun _ _ => None;
     os_wait := fun _ _ => None;
     os_open_log := fun _ => None;
     os_decode_error := fun _ => "'utf-8' codec can't decode bytes" |}.

(** No binary exists for any command. *)
Definition missing_binary_text : string :=
  "[Errno 2] No such file or directory: 'squeezelite-null'".

Definition missing_os : OS :=
  {| os_win32 := false;
     os_has_setsid := true;
     os_spawn := fun _ _ => SpawnRaises (FileNotFoundError missing_binary_text);
     os_poll := fun _ => None;
     os_killpg := fun _ _ => None;
     os_wait := fun _ _ => None;
     os_open_log := fun _ => None;
     os_decode_error := fun _ => "'utf-8' codec can't decode bytes" |}.

(** A fallback command whose binary is not installed. *)
Definition missing_fallback : list string :=
  ["squeezelite-null"; "-n"; "Kitchen"; "-o"; "null"].

(** The manager after "Kitchen" was started on [healthy_os]. *)
Definition kitchen_running : world :=
  mkWorld (self (snd (start healthy_os "Kitchen" kitchen_command None fresh_manager))) [].

(** The three [prepare_config] methods are one scheme. *)
Definition prepare_with (defaults : gmap string value) (key : string)
    (generate : string -> string) (config : gmap string value)
  : result (gmap string value) :=
  let result := dict_update defaults config in
  if negb (truthy (dict_get result key)) && truthy (dict_get result "name")
  then
    name ← str_method (dict_get result "name") "encode";
    mret (<[ key := VStr (generate name) ]> result)
  else mret result.

(** What is checked of each octet of a generated address: its rendering
    has two lowercase hexadecimal digits, reads back as the octet, and holds
    no colon. *)
Definition octet_ok (o : Z) : bool :=
  is_lower_hex_octet (fmt_02x o)
  && bool_decide (int16_octet (fmt_02x o) = Some o)
  && negb (contains_char ":" (fmt_02x o))
  && (0 <=? o) && (o <? 256).

(** ** [managers/process_manager.py], the remaining methods *)

Section manager_queries.
Context (os : OS).

Definition get_process (name : string) : M (option Popen) :=
  m ← get_self;
  match processes m !! name with
  | Some process =>
      if bool_decide (os_poll os process = None) then mret (Some process) else mret None
  | None => mret None
  end.

Fixpoint get_all_statuses_from (statuses : gmap string bool) (player_names : list string)
  : M (gmap string bool) :=
  match player_names with
  | [] => mret statuses
  | name :: rest =>
      running ← is_running os name;
      get_all_statuses_from (<[ name := running ]> statuses) rest
  end.

Definition get_all_statuses (player_names : list string) : M (gmap string bool) :=
  get_all_statuses_from ∅ player_names.

(** The two loops below run over [list(self.processes.keys())], the tracked
    names in the order of the dictionary.  A finite map does not keep that
    order, so the list is an argument, [keys].  [self.processes[name]] raises
    [KeyError] for a name that is not tracked. *)
Fixpoint cleanup_dead_loop (keys : list string) (cleaned_names : list string)
  : M (result (list string)) :=
  match keys with
  | [] => mret (Ok cleaned_names)
  | name :: rest =>
      m ← get_self;
      match processes m !! name with
      | None => mret (Raise (KeyError name))
      | Some process =>
          match os_poll os process with
          | Some _ =>
              _ ← modify (set_processes (delete name));
              _ ← _cleanup_streaming name;
              _ ← emit (Log "debug" ("Cleaned up terminated process '" ++ name ++ "'"));
              cleanup_dead_loop rest (cleaned_names ++ [name])
          | None => cleanup_dead_loop rest cleaned_names
          end
      end
  end.

Definition cleanup_dead_processes (keys : list string) : M (result (list string)) :=
  cleanup_dead_loop keys [].

Fixpoint stop_all_loop (keys : list string) (stopped : Z) : M Z :=
  match keys with
  | [] => mret stopped
  | name :: rest =>
      '(success, _) ← stop os name;
      stop_all_loop rest (if success : bool then stopped + 1 else stopped)
  end.

Definition stop_all (keys : list string) : M Z := stop_all_loop keys 0.

End manager_queries.

(** ** The runs of [stop] and [start], path by path

    The same runs written without the monad: what is returned, the manager
    left behind and the effects added.  They are proved equal to the methods
    in the second part and serve to read properties off. *)

Definition cleanup_marker (name : string) : effect :=
  Log "debug" ("Cleaned up streaming resources for '" ++ name ++ "'").

Definition untracked (name : string) (m : ProcessManager) : ProcessManager :=
  cleaned name (set_processes (delete name) m).

Definition stop_result (os : OS) (name : string) (m : ProcessManager)
  : (bool * string) * ProcessManager * list effect :=
  match processes m !! name with
  | None => ((false, "Process '" ++ name ++ "' not found"), m, [])
  | Some process =>
      let cleanup := (cleanup_effects name m ++ [cleanup_marker name])%list in
      let began := [Print ("[" ++ name ++ "] Stopping..."); Killpg process SIGTERM] in
      let forced (pre : list effect) :=
        ((true, "Process '" ++ name ++ "' force stopped"), untracked name m,
         (pre ++ [Killpg process SIGKILL]
          ++ match os_killpg os process SIGKILL with
             | None => [Wait process PROCESS_KILL_TIMEOUT_SECS]
             | Some _ => []
             end
          ++ cleanup
          ++ [Log "info" ("Force stopped process '" ++ name ++ "'");
              Print ("[" ++ name ++ "] Force stopped")])%list) in
      let raised (pre : list effect) (e : exn) :=
        match e with
        | TimeoutExpired _ => forced pre
        | _ =>
            ((false, "Error stopping process: " ++ exn_text e), m,
             (pre ++ [Log "error" ("Error stopping process '" ++ name ++ "': " ++ exn_text e);
                      Print ("[" ++ name ++ ":ERR] Error stopping: " ++ exn_text e)])%list)
        end in
      match os_poll os process with
      | Some _ => ((false, "Process '" ++ name ++ "' was not running"), untracked name m, cleanup)
      | None =>
          match os_killpg os process SIGTERM with
          | Some e => raised began e
          | None =>
              match os_wait os process PROCESS_STOP_TIMEOUT_SECS with
              | Some e => raised (began ++ [Wait process PROCESS_STOP_TIMEOUT_SECS])%list e
              | None =>
                  ((true, "Process '" ++ name ++ "' stopped successfully"), untracked name m,
                   (began ++ [Wait process PROCESS_STOP_TIMEOUT_SECS] ++ cleanup
                    ++ [Log "info" ("Stopped process '" ++ name ++ "'");
                        Print ("[" ++ name ++ "] Stopped")])%list)
              end
          end
      end
  end.

(** The signals among some effects, in order. *)
Fixpoint signals_sent (effects : list effect) : list signal :=
  match effects with
  | [] => []
  | Killpg _ sig :: rest => sig :: signals_sent rest
  | _ :: rest => signals_sent rest
  end.

Definition preexec_result (os : OS) : bool * list effect :=
  if os_win32 os then (false, [])
  else if negb (os_has_setsid os)
       then (false, [Log "warning" "os.setsid not available on this platform"])
       else (true, []).

(** The manager with the streaming resources of [process] registered under
    [name]; the log file only when it could be opened. *)
Definition with_streaming (os : OS) (name : string) (process : Popen) (m : ProcessManager)
  : ProcessManager :=
  let log_path := get_log_path m name in
  mkProcessManager (processes m) (log_dir m)
    (<[ name := [mkThread (name ++ "-stdout") (pid process);
                 mkThread (name ++ "-stderr") (pid process)] ]> (_stream_threads m))
    (match os_open_log os log_path with
     | None => <[ name := mkLogFile log_path ]> (_log_files m)
     | Some _ => _log_files m
     end)
    (<[ name := mkEvent (pid process) ]> (_stop_events m)).

Definition setup_effects (os : OS) (name : string) (process : Popen) (m : ProcessManager)
  : list effect :=
  let log_path := get_log_path m name in
  (match os_open_log os log_path with
   | None => [FileOpen (mkLogFile log_path);
              Log "debug" ("Opened log file for '" ++ name ++ "': " ++ log_path)]
   | Some e => [Log "warning" ("Could not open log file for '" ++ name ++ "': " ++ exn_text e)]
   end
   ++ [ThreadStart (mkThread (name ++ "-stdout") (pid process));
       ThreadStart (mkThread (name ++ "-stderr") (pid process));
       Log "debug" ("Started 2 streaming threads for '" ++ name ++ "'")])%list.

Definition fallback_result (os : OS) (name : string) (command : list string)
    (m : ProcessManager) : (bool * string) * ProcessManager * list effect :=
  let intro :=
    ([Log "info" ("Fallback command for '" ++ name ++ "': " ++ join " " command);
      Print ("[" ++ name ++ "] Trying fallback configuration...")]
     ++ snd (preexec_result os) ++ [PopenCall command])%list in
  let failed (m' : ProcessManager) (pre : list effect) (e : exn) :=
    ((false, "Error starting fallback: " ++ exn_text e), m',
     (pre ++ [Log "error" ("Error starting fallback for '" ++ name ++ "': " ++ exn_text e);
              Print ("[" ++ name ++ ":ERR] Fallback error: " ++ exn_text e)])%list) in
  match os_spawn os 1 command with
  | SpawnRaises e => failed m intro e
  | Spawned new_pid early_exit =>
      let process := mkPopen new_pid command in
      let m1 := set_processes <[ name := process ]> m in
      let pre := (intro ++ [Sleep PROCESS_STARTUP_DELAY_MILLIS])%list in
      match early_exit with
      | Some stderr =>
          match error_message os stderr with
          | Raise e => failed m1 (pre ++ [Communicate process])%list e
          | Ok error_msg =>
              ((false, "Fallback also failed: " ++ error_msg), m1,
               (pre ++ [Communicate process;
                        Print ("[" ++ name ++ ":ERR] Fallback also failed: " ++ error_msg)])%list)
          end
      | None =>
          ((true, "Process '" ++ name ++ "' started with fallback configuration"),
           with_streaming os name process m1,
           (pre ++ setup_effects os name process m1
            ++ [Log "info" ("Started process '" ++ name ++ "' with fallback (PID "
                            ++ pretty new_pid ++ ")");
                Print ("[" ++ name ++ "] Started with fallback (PID "
                       ++ pretty new_pid ++ ")")])%list)
      end
  end.

(** Whether [start] finds the name already running. *)
Definition already_running (os : OS) (name : string) (m : ProcessManager) : bool :=
  match processes m !! name with
  | Some p => bool_decide (os_poll os p = None)
  | None => false
  end.

Definition start_result (os : OS) (name : string) (command : list string)
    (fallback_command : option (list string)) (m : ProcessManager)
  : (bool * string) * ProcessManager * list effect :=
  if already_running os name m
  then ((false, "Process '" ++ name ++ "' is already running"), m, [])
  else
    let base := cleaned name m in
    let intro :=
      ([Log "info" ("Starting process '" ++ name ++ "' with command: " ++ join " " command)]
       ++ cleanup_effects name m ++ [cleanup_marker name]
       ++ snd (preexec_result os)
       ++ [Log "debug" ("Starting subprocess with preexec_fn="
                        ++ py_str (VBool (fst (preexec_result os))));
           PopenCall command])%list in
    let failed (m' : ProcessManager) (pre : list effect) (e : exn) :=
      match e with
      | FileNotFoundError _ =>
          let binary := match command with b :: _ => b | [] => "unknown" end in
          ((false, "Binary '" ++ binary ++ "' not found"), m',
           (pre ++ [Log "error" ("Binary '" ++ binary ++ "' not found");
                    Print ("[" ++ name ++ ":ERR] Binary '" ++ binary ++ "' not found")])%list)
      | _ =>
          ((false, "Error starting process: " ++ exn_text e), m',
           (pre ++ [Log "error" ("Error starting process '" ++ name ++ "': " ++ exn_text e);
                    Print ("[" ++ name ++ ":ERR] Error starting: " ++ exn_text e)])%list)
      end in
    match os_spawn os 0 command with
    | SpawnRaises e => failed base intro e
    | Spawned new_pid early_exit =>
        let process := mkPopen new_pid command in
        let m1 := set_processes <[ name := process ]> base in
        let pre := (intro ++ [Sleep PROCESS_STARTUP_DELAY_MILLIS])%list in
        match early_exit with
        | Some stderr =>
            match error_message os stderr with
            | Raise e => failed m1 (pre ++ [Communicate process])%list e
            | Ok error_msg =>
                let pre :=
                  (pre ++ [Communicate process;
                           Log "error" ("Process '" ++ name ++ "' failed to start: "
                                        ++ error_msg);
                           Print ("[" ++ name ++ ":ERR] Failed to start: " ++ error_msg)])%list in
                match fallback_command with
                | Some ((_ :: _) as fallback) =>
                    let '(r, m', effects) := fallback_result os name fallback m1 in
                    (r, m',
                     (pre ++ [Log "info" ("Trying fallback command for '" ++ name ++ "'")]
                      ++ effects)%list)
                | _ => ((false, "Process failed to start: " ++ error_msg), m1, pre)
                end
            end
        | None =>
            ((true, "Process '" ++ name ++ "' started successfully"),
             with_streaming os name process m1,
             (pre ++ setup_effects os name process m1
              ++ [Log "info" ("Started process '" ++ name ++ "' with PID " ++ pretty new_pid);
                  Print ("[" ++ name ++ "] Started with PID " ++ pretty new_pid)])%list)
        end
    end.

(** ** Invariants of the manager *)

(** [m'] differs from [m] at most in the entries of [name]. *)
Definition same_elsewhere (name : string) (m m' : ProcessManager) : Prop :=
  log_dir m' = log_dir m
  /\ forall other, other <> name ->
       processes m' !! other = processes m !! other
       /\ _stream_threads m' !! other = _stream_threads m !! other
       /\ _log_files m' !! other = _log_files m !! other
       /\ _stop_events m' !! other = _stop_events m !! other.

(** The streaming resources kept under [name] are those of the process
    tracked under that name: its stop event, its two reader threads and, if
    any, the log file of the name. *)
Definition streams_ok_at (m : ProcessManager) (name : string) : Prop :=
  (forall ev, _stop_events m !! name = Some ev ->
     exists process,
       processes m !! name = Some process
       /\ ev = mkEvent (pid process)
       /\ _stream_threads m !! name
          = Some [mkThread (name ++ "-stdout") (pid process);
                  mkThread (name ++ "-stderr") (pid process)])
  /\ (forall threads, _stream_threads m !! name = Some threads ->
        is_Some (_stop_events m !! name))
  /\ (forall f, _log_files m !! name = Some f ->
        f = mkLogFile (get_log_path m name) /\ is_Some (_stop_events m !! name)).

Definition streams_of_tracked (m : ProcessManager) : Prop :=
  forall name, streams_ok_at m name.

(** No streaming resource is kept under [name]. *)
Definition no_streams (name : string) (m : ProcessManager) : Prop :=
  _stop_events m !! name = None
  /\ _stream_threads m !! name = None
  /\ _log_files m !! name = None.

(** ** What the loops over the tracked names meet *)

(** [stop] on [name] would report success: the process is tracked, alive at
    the poll and gone after SIGTERM or SIGKILL. *)
Definition stop_succeeds (os : OS) (m : ProcessManager) (name : string) : bool :=
  match processes m !! name with
  | Some process =>
      match stop_path_of os process with
      | Graceful | TimeoutThenForceKill => true
      | _ => false
      end
  | None => false
  end.

(** [stop] on [name] would end in its error branch. *)
Definition stop_errors (os : OS) (m : ProcessManager) (name : string) : bool :=
  match processes m !! name with
  | Some process =>
      match stop_path_of os process with
      | SignalOrWaitRaised _ => true
      | _ => false
      end
  | None => false
  end.

(** The process tracked under [name] has exited. *)
Definition dead (os : OS) (m : ProcessManager) (name : string) : bool :=
  match processes m !! name with
  | Some process => bool_decide (os_poll os process <> None)
  | None => false
  end.

(** ** Reading the effects of a log reader *)

(** The prefix that [_stream_output] puts before the lines of a stream. *)
Definition stream_prefix (name stream_type : string) : string :=
  if String.eqb stream_type "stderr" then "[" ++ name ++ ":ERR]" else "[" ++ name ++ "]".

(** What the reader does with one decoded, non-blank line. *)
Definition line_effects (prefix : string) (log_file : bool) (decoded : string)
  : list effect :=
  Print (prefix ++ " " ++ decoded)
  :: (if log_file then [FileWrite (decoded ++ String "010" "")] else []).

(** The turns at which a reader leaves its loop without reading further. *)
Definition ends_reading (step : read_step) : bool :=
  match step with
  | StopIsSet | ReadlineRaises | ReadlineOther _ => true
  | ReadlineBytes line => match line with [] => true | _ => false end
  end.

(** ** The providers, the remaining methods *)

(** [PlayerProvider.get_player_identifier] (kept by Squeezelite) and its
    two overrides; [a or b] is [a] when [a] is truthy. *)
Definition base_get_player_identifier (player : gmap string value) : value :=
  dict_get_default player "name" (VStr "unknown").

Definition sendspin_get_player_identifier (player : gmap string value) : value :=
  if truthy (dict_get player "client_id") then dict_get player "client_id"
  else dict_get_default player "name" (VStr "unknown").

Definition snapcast_get_player_identifier (player : gmap string value) : value :=
  if truthy (dict_get player "host_id") then dict_get player "host_id"
  else dict_get_default player "name" (VStr "unknown").

Definition get_player_identifier (p : provider) (player : gmap string value) : value :=
  match p with
  | SqueezeliteProvider => base_get_player_identifier player
  | SendspinProvider => sendspin_get_player_identifier player
  | SnapcastProvider => snapcast_get_player_identifier player
  end.

Definition binary_name (p : provider) : string :=
  match p with
  | SqueezeliteProvider => Squeezelite.binary_name
  | SendspinProvider => Sendspin.binary_name
  | SnapcastProvider => Snapcast.binary_name
  end.

(** [supports_fallback] and [build_fallback_command] of each provider. *)
Definition supports_fallback (p : provider) : bool :=
  match p with
  | SqueezeliteProvider => true
  | SendspinProvider | SnapcastProvider => false
  end.

Definition build_fallback_command (env : Environment) (p : provider)
    (player : gmap string value) (log_path : string) : result (option (list value)) :=
  match p with
  | SqueezeliteProvider =>
      cmd ← Squeezelite.build_fallback_command env player log_path; mret (Some cmd)
  | SendspinProvider => Ok (Sendspin.build_fallback_command player log_path)
  | SnapcastProvider => Ok (Snapcast.build_fallback_command player log_path)
  end.





(** ** [managers/audio_manager.py]: setting the volume

    The providers' [set_volume] hand the device of the player and the
    volume to [AudioManager.set_volume].  [amixer] is outside the program:
    what [subprocess.run(..., check=True)] does with a command is given by
    an oracle. *)

Inductive run_outcome : Type :=
  | RunOk                                    (* exit status 0 *)
  | RunCalledProcessError (text : string)    (* non-zero exit; [str(e)] *)
  | RunRaise (e : exn).                      (* the command could not be run *)

Inductive mixer_event : Type :=
  | MixerLog (level msg : string)
  | MixerRun (cmd : list string).

Record AudioManager : Type := mkAudioManager { windows_mode : bool }.

Definition VOLUME_WRITE_CONTROLS : list string :=
  ["Master"; "PCM"; "Speaker"; "Headphone"; "Digital"].

Definition VIRTUAL_AUDIO_DEVICES : list string := ["null"; "pulse"; "dmix"; "default"].

(** [x in l] for a list of strings. *)
Definition str_in (x : string) (l : list string) : bool := existsb (String.eqb x) l.

Definition is_digit (c : ascii) : bool :=
  ((48 <=? N_of_ascii c) && (N_of_ascii c <=? 57))%N.

(** The longest run of digits [0-9] at the start of [s]. *)
Fixpoint leading_digits (s : string) : string :=
  match s with
  | EmptyString => EmptyString
  | String c rest => if is_digit c then String c (leading_digits rest) else EmptyString
  end.

(** [ALSA_CARD_NUMBER_PATTERN.search(device)], the pattern being
    [hw:([0-9]+)]: group 1 of the leftmost match, if there is one. *)
Fixpoint card_number (device : string) : option string :=
  match device with
  | EmptyString => None
  | String _ rest =>
      let digits := leading_digits (substring 3 (String.length device - 3) device) in
      if startswith device "hw:" && negb (String.eqb digits "")
      then Some digits
      else card_number rest
  end.

Definition sset_command (card_num control_name : string) (volume : Z) : list string :=
  ["amixer"; "-c"; card_num; "sset"; control_name; py_str (VInt volume) ++ "%"].

Section audio_manager.
Context (am : AudioManager) (run : list string -> run_outcome).

(** The loop over [VOLUME_WRITE_CONTROLS] with what follows it; a
    [FileNotFoundError] leaves the loop for the handler of the enclosing
    [try], any other exception leaves [set_volume]. *)
Fixpoint set_volume_loop (device card_num : string) (volume : Z) (controls : list string)
  : result (bool * string) * list mixer_event :=
  match controls with
  | [] =>
      (Ok (false, "No working volume controls found for device " ++ device),
       [MixerLog "warning" ("Could not find working volume control for device " ++ device)])
  | control_name :: rest =>
      let cmd := sset_command card_num control_name volume in
      match run cmd with
      | RunOk =>
          (Ok (true, "Volume set to " ++ py_str (VInt volume) ++ "% (" ++ control_name ++ ")"),
           [MixerRun cmd;
            MixerLog "info" ("Set volume to " ++ py_str (VInt volume) ++ "% for device "
                             ++ device ++ " control " ++ control_name)])
      | RunCalledProcessError e =>
          let '(r, events) := set_volume_loop device card_num volume rest in
          (r, MixerRun cmd
              :: MixerLog "debug" ("Control " ++ control_name ++ " failed for device "
                                   ++ device ++ ": " ++ e)
              :: events)
      | RunRaise (FileNotFoundError _) =>
          (Ok (false, "Audio mixer control not available"),
           [MixerRun cmd; MixerLog "warning" "amixer command not found"])
      | RunRaise e => (Raise e, [MixerRun cmd])
      end
  end.

Definition is_virtual_device (device : string) : bool :=
  str_in device VIRTUAL_AUDIO_DEVICES.

(** [control] is a parameter of the method that its body never reads. *)
Definition set_volume (device : string) (volume : Z) (control : string)
  : result (bool * string) * list mixer_event :=
  if negb ((0 <=? volume) && (volume <=? 100))
  then (Ok (false, "Volume must be between 0 and 100"), [])
  else if windows_mode am || str_in device VIRTUAL_AUDIO_DEVICES
  then (Ok (true, "Volume set to " ++ py_str (VInt volume) ++ "% (virtual device)"),
        [MixerLog "info" ("Virtual device " ++ device ++ ", volume " ++ py_str (VInt volume)
                          ++ "% stored (no hardware control)")])
  else
    match card_number device with
    | None =>
        (Ok (true, "Volume set to " ++ py_str (VInt volume) ++ "% (no hardware control)"),
         [MixerLog "debug" ("No card number found in device " ++ device
                            ++ ", storing volume only")])
    | Some card_num => set_volume_loop device card_num volume VOLUME_WRITE_CONTROLS
    end.

End audio_manager.

(** The commands run, in order. *)
Fixpoint mixer_runs (events : list mixer_event) : list (list string) :=
  match events with
  | [] => []
  | MixerRun cmd :: rest => cmd :: mixer_runs rest
  | MixerLog _ _ :: rest => mixer_runs rest
  end.

(** An [amixer] that knows the control [PCM] only, and one that is not
    installed. *)
Definition pcm_only_amixer (cmd : list string) : run_outcome :=
  match cmd !! 4%nat with
  | Some "PCM" => RunOk
  | _ => RunCalledProcessError "Command returned non-zero exit status 1."
  end.

Definition failing_amixer (cmd : list string) : run_outcome :=
  RunCalledProcessError "Command returned non-zero exit status 1.".

Definition hardware_manager : AudioManager := mkAudioManager false.

(** ** [schemas/player_config.py]: the MAC address of a Squeezelite player

    The schema checks the address that the provider generates. *)

(** What a field validator does with a value: return it, possibly changed,
    or raise [ValueError]. *)
Inductive validated (A : Type) : Type :=
  | Valid (a : A)
  | ValueError (msg : string).
Arguments Valid {A} a.
Arguments ValueError {A} msg.

(** [[0-9A-Fa-f]]. *)
Definition is_hex_digit (c : ascii) : bool :=
  let n := Z.of_N (N_of_ascii c) in
  ((48 <=? n) && (n <=? 57)) || ((65 <=? n) && (n <=? 70)) || ((97 <=? n) && (n <=? 102)).

(** [([0-9A-Fa-f]{2}:){n}] at the start of [s]: what is left of [s]. *)
Fixpoint mac_groups (n : nat) (s : string) : option string :=
  match n with
  | O => Some s
  | S n' =>
      match s with
      | String a (String b (String c rest)) =>
          if is_hex_digit a && is_hex_digit b && Ascii.eqb c ":"
          then mac_groups n' rest else None
      | _ => None
      end
  end.

(** [MAC_ADDRESS_PATTERN.match(v)] finds a match; [$] also matches before
    a newline that ends the string. *)
Definition mac_address_matches (v : string) : bool :=
  match mac_groups 5 v with
  | Some (String a (String b tail)) =>
      is_hex_digit a && is_hex_digit b
      && (String.eqb tail "" || String.eqb tail (String "010" ""))
  | _ => false
  end.

(** [SqueezelitePlayerConfig.validate_mac_address]; [repr] is the builtin. *)
Definition validate_mac_address (rt : Builtins) (repr : string -> string) (v : string)
  : validated string :=
  if negb (String.eqb v "") && negb (mac_address_matches v)
  then ValueError ("Invalid MAC address format: " ++ repr v
                   ++ ". Expected format: XX:XX:XX:XX:XX:XX")
  else Valid (if negb (String.eqb v "") then str_lower rt v else v).

(** What the schema needs of each octet of a generated address. *)
Definition octet_passes (o : Z) : bool :=
  match fmt_02x o with
  | String a (String b EmptyString) =>
      is_hex_digit a && is_hex_digit b
      && Ascii.eqb (ascii_lower_char a) a && Ascii.eqb (ascii_lower_char b) b
  | _ => false
  end.

(** [SendspinPlayerConfig.validate_device_not_alsa]; [repr] is the builtin. *)
Definition validate_device_not_alsa (repr : string -> string) (v : string)
  : validated string :=
  if startswith v "hw:" || startswith v "plughw:"
  then ValueError ("ALSA device format " ++ repr v
                   ++ " is not compatible with Sendspin. "
                   ++ "Use PortAudio device index (e.g., '0', '1') or device name prefix. "
                   ++ "Run 'sendspin --list-audio-devices' to see available devices.")
  else Valid v.

(** * Properties *)

(** ** Checks of the model against known values *)
Example md5_empty : MD5.hexdigest (encode "") = "d41d8cd98f00b204e9800998ecf8427e".
Proof. vm_compute. reflexivity. Qed.

Example md5_abc : MD5.hexdigest (encode "abc") = "900150983cd24fb0d6963f7d28e17f72".
Proof. vm_compute. reflexivity. Qed.

Example md5_two_blocks :
  MD5.hexdigest (encode "12345678901234567890123456789012345678901234567890123456789012345678901234567890")
  = "57edf4a22be3c955ac49da2e2107b67a".
Proof. vm_compute. reflexivity. Qed.

Example decode_replace_ff : UTF8.decode_replace [xff; x41] = UTF8.of_chars [UTF8.replacement; [x41]].
Proof. reflexivity. Qed.

Example decode_strict_ff : UTF8.decode [xff; x41] = None.
Proof. reflexivity. Qed.

Example rstrip_newline : UTF8.rstrip (string_of_list_byte [x6f; x6b; x20; x0d; x0a]) = "ok".
Proof. reflexivity. Qed.

Example py_str_neg : py_str (VInt (-15)) = "-15".
Proof. reflexivity. Qed.


(** ** Splitting and joining *)

Lemma split_nonempty sep s : split sep s <> [].
Proof.
  destruct s as [|c rest]; simpl; [discriminate|].
  destruct (Ascii.eqb c sep); [discriminate|].
  destruct (split sep rest); discriminate.
Qed.

Lemma split_no_sep sep s : contains_char sep s = false -> split sep s = [s].
Proof.
  induction s as [|c rest IH]; simpl; [reflexivity|].
  intros H. apply orb_false_iff in H as [Hc Hrest].
  rewrite Ascii.eqb_sym, Hc, (IH Hrest). reflexivity.
Qed.

Lemma split_app_sep sep p rest :
  contains_char sep p = false ->
  split sep (p ++ String sep rest) = p :: split sep rest.
Proof.
  induction p as [|c p IH]; simpl; intros H.
  - rewrite Ascii.eqb_refl. reflexivity.
  - apply orb_false_iff in H as [Hc Hp].
    rewrite Ascii.eqb_sym, Hc, (IH Hp). reflexivity.
Qed.

Lemma split_join sep parts :
  parts <> [] ->
  Forall (fun p => contains_char sep p = false) parts ->
  split sep (join (String sep "") parts) = parts.
Proof.
  induction parts as [|p rest IH]; [congruence|].
  intros _ Hall. apply Forall_cons in Hall as [Hp Hrest].
  destruct rest as [|q rest'].
  - simpl. apply split_no_sep, Hp.
  - change (join (String sep "") (p :: q :: rest'))
      with (p ++ String sep (join (String sep "") (q :: rest'))).
    rewrite split_app_sep by exact Hp.
    rewrite IH; [reflexivity|discriminate|exact Hrest].
Qed.

(** ** Octets and their two-digit rendering *)

Lemma byte_octet_ok (b : byte) : octet_ok (int_of_byte b) = true.
Proof. destruct b; vm_compute; reflexivity. Qed.

Lemma first_octet_ok (b : byte) :
  let o := Z.land (Z.lor (int_of_byte b) 2) 254 in
  octet_ok o = true /\ Z.land o 2 = 2 /\ Z.land o 1 = 0.
Proof. destruct b; vm_compute; repeat split; reflexivity. Qed.

Lemma octet_ok_elim o :
  octet_ok o = true ->
  is_lower_hex_octet (fmt_02x o) = true
  /\ int16_octet (fmt_02x o) = Some o
  /\ contains_char ":" (fmt_02x o) = false
  /\ 0 <= o < 256.
Proof.
  unfold octet_ok. rewrite !andb_true_iff, negb_true_iff, bool_decide_eq_true.
  intros [[[[? ?] ?] ?] ?]. repeat split; auto; lia.
Qed.

Lemma md5_digest_length data : length (MD5.digest data) = 16%nat.
Proof. unfold MD5.digest. rewrite length_map. reflexivity. Qed.

(** The six octets that [generate_mac_address] renders. *)
Lemma generate_mac_address_octets name :
  exists b0 b1 b2 b3 b4 b5 : byte,
    Squeezelite.generate_mac_address name
    = join ":" (map fmt_02x
        [ Z.land (Z.lor (int_of_byte b0) 2) 254; int_of_byte b1; int_of_byte b2;
          int_of_byte b3; int_of_byte b4; int_of_byte b5 ]).
Proof.
  unfold Squeezelite.generate_mac_address.
  pose proof (md5_digest_length (encode name)) as Hlen.
  destruct (MD5.digest (encode name))
    as [|b0 [|b1 [|b2 [|b3 [|b4 [|b5 rest]]]]]]; try discriminate Hlen.
  exists b0, b1, b2, b3, b4, b5. reflexivity.
Qed.

(** C6: [generate_mac_address] is a function of the name alone; its output
    splits at the colons into six parts of two lowercase hexadecimal digits
    and is those parts joined by colons; the first part read as a
    hexadecimal number [o] has [(o & 0x02) == 0x02] and [(o & 0x01) == 0];
    and "Kitchen" and "Bedroom" get different addresses. *)
Theorem generate_mac_address_spec (name : string) :
  (forall name', name' = name ->
     Squeezelite.generate_mac_address name' = Squeezelite.generate_mac_address name)
  /\ (exists parts o,
        split ":" (Squeezelite.generate_mac_address name) = parts
        /\ join ":" parts = Squeezelite.generate_mac_address name
        /\ length parts = 6%nat
        /\ Forall (fun p => is_lower_hex_octet p = true) parts
        /\ head parts ≫= int16_octet = Some o
        /\ Z.land o 2 = 2
        /\ Z.land o 1 = 0)
  /\ Squeezelite.generate_mac_address "Kitchen"
     <> Squeezelite.generate_mac_address "Bedroom".
Proof.
  split; [intros ? ->; reflexivity|]. split; [|vm_compute; discriminate].
  destruct (generate_mac_address_octets name) as (b0 & b1 & b2 & b3 & b4 & b5 & ->).
  destruct (first_octet_ok b0) as (H0 & Hla & Hmc).
  set (o0 := Z.land (Z.lor (int_of_byte b0) 2) 254) in *.
  apply octet_ok_elim in H0 as (Hh0 & Hi0 & Hc0 & _).
  pose proof (octet_ok_elim _ (byte_octet_ok b1)) as (Hh1 & _ & Hc1 & _).
  pose proof (octet_ok_elim _ (byte_octet_ok b2)) as (Hh2 & _ & Hc2 & _).
  pose proof (octet_ok_elim _ (byte_octet_ok b3)) as (Hh3 & _ & Hc3 & _).
  pose proof (octet_ok_elim _ (byte_octet_ok b4)) as (Hh4 & _ & Hc4 & _).
  pose proof (octet_ok_elim _ (byte_octet_ok b5)) as (Hh5 & _ & Hc5 & _).
  eexists _, o0. split; [reflexivity|].
  rewrite (split_join ":"); [|discriminate|repeat constructor; assumption].
  split; [reflexivity|]. split; [reflexivity|].
  split; [repeat constructor; assumption|].
  split; [exact Hi0|]. split; assumption.
Qed.

(** ** Preparing a configuration *)

Lemma prepare_config_scheme rt p :
  prepare_config rt p
  = prepare_with (get_default_config p) (identifier_key p) (generate_identifier rt p).
Proof. destruct p; reflexivity. Qed.

Lemma default_has_no_name p : get_default_config p !! "name" = None.
Proof. destruct p; reflexivity. Qed.




Lemma identifier_key_not_name p : identifier_key p <> "name".
Proof. destruct p; discriminate. Qed.



Lemma dict_update_lookup (defaults config : gmap string value) k :
  dict_update defaults config !! k
  = match config !! k with Some v => Some v | None => defaults !! k end.
Proof.
  unfold dict_update. rewrite lookup_union.
  destruct (config !! k), (defaults !! k); reflexivity.
Qed.

Lemma dict_update_absorb (defaults m : gmap string value) :
  dict_update defaults (dict_update defaults m) = dict_update defaults m.
Proof.
  apply map_eq. intros k. rewrite !dict_update_lookup.
  destruct (m !! k), (defaults !! k); reflexivity.
Qed.

Lemma dict_update_insert_absorb (defaults m : gmap string value) k v :
  dict_update defaults (<[ k := v ]> (dict_update defaults m))
  = <[ k := v ]> (dict_update defaults m).
Proof.
  apply map_eq. intros j. rewrite dict_update_lookup.
  destruct (decide (k = j)) as [->|Hne].
  - rewrite lookup_insert_eq. reflexivity.
  - rewrite lookup_insert_ne by exact Hne. rewrite dict_update_lookup.
    destruct (m !! j), (defaults !! j); reflexivity.
Qed.

Lemma truthy_nonempty_str s : s <> "" -> truthy (VStr s) = true.
Proof. intros H. destruct s; [congruence|reflexivity]. Qed.

Lemma generate_identifier_nonempty rt p name : generate_identifier rt p name <> "".
Proof.
  destruct p; simpl.
  - destruct (generate_mac_address_octets name) as (b0 & b1 & b2 & b3 & b4 & b5 & ->).
    discriminate.
  - discriminate.
  - discriminate.
Qed.

(** What [prepare_with] returns when the name, if any, is a string. *)
Lemma prepare_with_returns defaults key generate config :
  defaults !! "name" = None ->
  (forall v, config !! "name" = Some v -> exists s, v = VStr s) ->
  let merged := dict_update defaults config in
  prepare_with defaults key generate config
  = Ok (if negb (truthy (dict_get merged key)) && truthy (dict_get merged "name")
        then <[ key := VStr (generate (py_str (dict_get merged "name"))) ]> merged
        else merged).
Proof.
  intros Hdef Hname merged. unfold prepare_with. fold merged.
  destruct (negb (truthy (dict_get merged key)) && truthy (dict_get merged "name"))
    eqn:Hcond; [|reflexivity].
  apply andb_true_iff in Hcond as [_ Htruthy]. revert Htruthy.
  unfold dict_get, merged. rewrite dict_update_lookup, Hdef.
  destruct (config !! "name") as [v|] eqn:E; simpl; [|discriminate].
  destruct (Hname v eq_refl) as [s ->]. reflexivity.
Qed.


(** C10: for each provider and each configuration with a non-empty name,
    [prepare_config] returns, and preparing what it returned gives the same
    configuration back. *)
Theorem prepare_config_idempotent
    (rt : Builtins) (p : provider) (config : gmap string value) (name : string)
    (Hname : config !! "name" = Some (VStr name)) (Hnonempty : name <> "") :
  exists result,
    prepare_config rt p config = Ok result
    /\ prepare_config rt p result = Ok result.
Proof.
  rewrite prepare_config_scheme.
  assert (Hstr : forall v, config !! "name" = Some v -> exists s, v = VStr s).
  { intros v Hv. rewrite Hname in Hv. injection Hv as <-. eauto. }
  rewrite (prepare_with_returns _ _ _ _ (default_has_no_name p) Hstr).
  set (merged := dict_update (get_default_config p) config).
  assert (Hmname : dict_get merged "name" = VStr name).
  { unfold dict_get, merged. rewrite dict_update_lookup, Hname. reflexivity. }
  rewrite Hmname, (truthy_nonempty_str _ Hnonempty), andb_true_r. simpl.
  eexists. split; [reflexivity|].
  destruct (truthy (dict_get merged (identifier_key p))) eqn:Hid; simpl.
  - unfold prepare_with, merged. rewrite dict_update_absorb. fold merged.
    rewrite Hid. reflexivity.
  - unfold prepare_with, merged. rewrite dict_update_insert_absorb. fold merged.
    unfold dict_get at 1. rewrite lookup_insert_eq.
    change (default VNone (Some ?v)) with v.
    rewrite (truthy_nonempty_str _ (generate_identifier_nonempty rt p name)).
    reflexivity.
Qed.



Lemma prepare_config_idempotent_witness :
  kitchen_config !! "name" = Some (VStr "Kitchen")
  /\ "Kitchen" <> ""
  /\ exists result,
       prepare_config ascii_builtins SendspinProvider kitchen_config = Ok result
       /\ prepare_config ascii_builtins SendspinProvider result = Ok result.
Proof.
  split; [reflexivity|]. split; [discriminate|].
  apply (prepare_config_idempotent ascii_builtins SendspinProvider kitchen_config "Kitchen");
    [reflexivity|discriminate].
Defined.

(** The scenario of the specification, run: the prepared configuration. *)
Example prepare_config_kitchen :
  prepare_config ascii_builtins SqueezeliteProvider kitchen_config
  = Ok {[ "name" := VStr "Kitchen"; "device" := VStr "hw:1,0";
          "provider" := VStr "squeezelite"; "server_ip" := VStr "";
          "mac_address" := VStr "32:fa:00:a6:6f:2e";
          "volume" := VInt 75; "autostart" := VBool false ]}.
Proof. vm_compute. reflexivity. Qed.

(** ** The device in the command line *)

Ltac result_simpl := cbn [mbind mret result_bind result_ret str_method].

Lemma dict_get_delete_ne (d : gmap string value) k j :
  k <> j -> dict_get (delete k d) j = dict_get d j.
Proof. intros H. unfold dict_get. rewrite lookup_delete_ne by exact H. reflexivity. Qed.

Lemma dict_get_default_delete_ne (d : gmap string value) k j dflt :
  k <> j -> dict_get_default (delete k d) j dflt = dict_get_default d j dflt.
Proof.
  intros H. unfold dict_get_default. rewrite lookup_delete_ne by exact H. reflexivity.
Qed.

Lemma dict_get_default_delete (d : gmap string value) k dflt :
  dict_get_default (delete k d) k dflt = dflt.
Proof. unfold dict_get_default. rewrite lookup_delete_eq. reflexivity. Qed.

Lemma dict_item_delete_ne (d : gmap string value) k j :
  k <> j -> dict_item (delete k d) j = dict_item d j.
Proof. intros H. unfold dict_item. rewrite lookup_delete_ne by exact H. reflexivity. Qed.


(** Sendspin: the command of a configuration and of the same configuration
    without its device. *)
Lemma sendspin_device rt (config : gmap string value) log_path name :
  config !! "name" = Some (VStr name) ->
  let device := dict_get_default config "device" (VStr "default") in
  exists base,
    Sendspin.build_command rt (delete "device" config) log_path = Ok base
    /\ match device with
       | VStr d =>
           Sendspin.build_command rt config log_path
           = Ok (if negb (String.eqb d "") && negb (String.eqb d "default")
                    && negb (String.eqb d "null") && negb (sendspin_incompatible d)
                 then (take 6 base ++ [VStr "--audio-device"; device] ++ drop 6 base)%list
                 else base)
       | _ =>
           if truthy device
           then exists e, Sendspin.build_command rt config log_path = Raise (AttributeError e)
           else Sendspin.build_command rt config log_path = Ok base
       end.
Proof.
  intros Hname device. unfold Sendspin.build_command.
  rewrite !dict_item_delete_ne by discriminate.
  unfold dict_item. rewrite Hname. result_simpl.
  rewrite dict_get_default_delete.
  rewrite !dict_get_delete_ne, !dict_get_default_delete_ne by discriminate.
  fold device.
  change (truthy (VStr "default") && py_ne (VStr "default") (VStr "default")
          && py_ne (VStr "default") (VStr "null")) with false.
  cbv iota. result_simpl.
  eexists. split; [reflexivity|].
  destruct device as [|[]|z|d]; unfold truthy, py_ne, py_eq; cbn [negb andb].
  - reflexivity.
  - eexists. reflexivity.
  - reflexivity.
  - destruct (z =? 0); cbn [negb andb]; [reflexivity|eexists; reflexivity].
  - unfold sendspin_incompatible.
    destruct (String.eqb d ""); cbn [negb andb]; [reflexivity|].
    destruct (String.eqb d "default"); cbn [negb andb]; [reflexivity|].
    destruct (String.eqb d "null"); cbn [negb andb]; [reflexivity|].
    result_simpl.
    destruct (startswith d "hw:"); cbn [orb negb]; [reflexivity|].
    destruct (startswith d "plughw:"); cbn [orb negb]; [reflexivity|].
    destruct (startswith d "alsa_output."); cbn [orb negb]; [reflexivity|].
    destruct (startswith d "alsa_input."); cbn [orb negb]; [reflexivity|].
    result_simpl.
    match goal with |- context [if ?c then (_ ++ _)%list else _] => destruct c end;
      reflexivity.
Qed.





(** ** The log reader *)

(** One turn of the loop on a non-empty line. *)
Lemma stream_loop_line prefix log_file (line : bytes) (rest : list read_step) :
  line <> [] ->
  stream_loop prefix log_file (ReadlineBytes line :: rest)
  = ((if negb (String.eqb (UTF8.rstrip (UTF8.decode_replace line)) "")
      then Print (prefix ++ " " ++ UTF8.rstrip (UTF8.decode_replace line))
           :: (if log_file
               then [FileWrite (UTF8.rstrip (UTF8.decode_replace line) ++ String "010" "")]
               else [])
      else []) ++ stream_loop prefix log_file rest)%list.
Proof. intros H. destruct line; [congruence|reflexivity]. Qed.

Lemma stream_loop_lines prefix log_file (before : list bytes) (rest : list read_step) :
  Forall (fun l => l <> []) before ->
  stream_loop prefix log_file (map ReadlineBytes before ++ rest)
  = (stream_loop prefix log_file (map ReadlineBytes before)
     ++ stream_loop prefix log_file rest)%list.
Proof.
  induction before as [|l before IH]; intros Hall; [reflexivity|].
  apply Forall_cons in Hall as [Hl Hbefore].
  change (map ReadlineBytes (l :: before) ++ rest)%list
    with (ReadlineBytes l :: (map ReadlineBytes before ++ rest))%list.
  change (map ReadlineBytes (l :: before))
    with (ReadlineBytes l :: map ReadlineBytes before).
  rewrite !stream_loop_line by exact Hl.
  rewrite (IH Hbefore), app_assoc. reflexivity.
Qed.

Lemma stream_loop_stops_at_other prefix log_file (pre post : list read_step) v :
  stream_loop prefix log_file (pre ++ ReadlineOther v :: post)
  = stream_loop prefix log_file pre.
Proof.
  induction pre as [|step pre IH]; [reflexivity|].
  change ((step :: pre) ++ ReadlineOther v :: post)%list
    with (step :: (pre ++ ReadlineOther v :: post))%list.
  destruct step as [| |line|w]; try reflexivity.
  destruct line as [|b l]; [reflexivity|].
  rewrite !stream_loop_line by discriminate. rewrite IH. reflexivity.
Qed.

(** C8, as the code has it: the reader decodes with [errors="replace"], so
    no line of bytes ends the reading.  In a pipe of non-empty lines every
    line, decodable or not, is decoded (undecodable parts becoming U+FFFD),
    stripped, printed and logged when something is left, and the lines
    after it are read in turn.  Only a [readline] that returns something
    other than [bytes] is treated as the end: nothing is emitted for it or
    for anything after it. *)
Theorem stream_reader_continues_after_any_line
    (prefix : string) (log_file : bool) (before after : list bytes) (line : bytes)
    (Hbefore : Forall (fun l => l <> []) before) (Hline : line <> []) :
  let decoded := UTF8.rstrip (UTF8.decode_replace line) in
  stream_loop prefix log_file (map ReadlineBytes (before ++ line :: after))
  = (stream_loop prefix log_file (map ReadlineBytes before)
     ++ (if negb (String.eqb decoded "")
         then Print (prefix ++ " " ++ decoded)
              :: (if log_file then [FileWrite (decoded ++ String "010" "")] else [])
         else [])
     ++ stream_loop prefix log_file (map ReadlineBytes after))%list
  /\ forall (pre post : list read_step) (v : value) (name stream_type : string),
       _stream_output (pre ++ ReadlineOther v :: post) name stream_type log_file
       = _stream_output pre name stream_type log_file.
Proof.
  intros decoded. split.
  - rewrite map_app, stream_loop_lines by exact Hbefore.
    change (map ReadlineBytes (line :: after))
      with (ReadlineBytes line :: map ReadlineBytes after).
    rewrite stream_loop_line by exact Hline. reflexivity.
  - intros pre post v name stream_type. unfold _stream_output.
    rewrite stream_loop_stops_at_other. reflexivity.
Qed.

Lemma stream_reader_continues_after_any_line_witness :
  Forall (fun l : bytes => l <> []) [[x61; x0a]]
  /\ [xff; xfe; x0a] <> ([] : bytes)
  /\ (let decoded := UTF8.rstrip (UTF8.decode_replace [xff; xfe; x0a]) in
      stream_loop "[Kitchen]" true
        (map ReadlineBytes ([[x61; x0a]] ++ [xff; xfe; x0a] :: [[x6f; x6b; x0a]]))
      = (stream_loop "[Kitchen]" true (map ReadlineBytes [[x61; x0a]])
         ++ (if negb (String.eqb decoded "")
             then Print ("[Kitchen]" ++ " " ++ decoded)
                  :: (if true then [FileWrite (decoded ++ String "010" "")] else [])
             else [])
         ++ stream_loop "[Kitchen]" true (map ReadlineBytes [[x6f; x6b; x0a]]))%list
      /\ forall (pre post : list read_step) (v : value) (name stream_type : string),
           _stream_output (pre ++ ReadlineOther v :: post) name stream_type true
           = _stream_output pre name stream_type true).
Proof.
  assert (H1 : Forall (fun l : bytes => l <> []) [[x61; x0a]])
    by (repeat constructor; discriminate).
  assert (H2 : [xff; xfe; x0a] <> ([] : bytes)) by discriminate.
  split; [exact H1|]. split; [exact H2|].
  exact (stream_reader_continues_after_any_line
           "[Kitchen]" true [[x61; x0a]] [[x6f; x6b; x0a]] [xff; xfe; x0a] H1 H2).
Defined.

(** C8 as stated fails: the first line of this pipe does not decode as
    UTF-8, yet the reader prints and logs it (as two U+FFFD) and goes on to
    print and log the line after it. *)
Lemma stream_decode_failure_counterexample :
  UTF8.decode [xff; xfe; x0a] = None
  /\ _stream_output undecodable_then_ok "Kitchen" "stdout" true
     = [ Print ("[Kitchen] " ++ UTF8.of_chars [UTF8.replacement; UTF8.replacement]);
         FileWrite (UTF8.of_chars [UTF8.replacement; UTF8.replacement; [x0a]]);
         Print "[Kitchen] ok";
         FileWrite (UTF8.of_chars [[x6f]; [x6b]; [x0a]]);
         StreamClose ].
Proof. split; vm_compute; reflexivity. Qed.

(** ** The process manager *)

Example kitchen_running_state :
  self kitchen_running
  = mkProcessManager
      {[ "Kitchen" := mkPopen 4242 kitchen_command ]}
      "/app/logs"
      {[ "Kitchen" := [mkThread "Kitchen-stdout" 4242; mkThread "Kitchen-stderr" 4242] ]}
      {[ "Kitchen" := mkLogFile "/app/logs/Kitchen.log" ]}
      {[ "Kitchen" := mkEvent 4242 ]}.
Proof. vm_compute. reflexivity. Qed.

Example start_kitchen_effects :
  start healthy_os "Kitchen" ["squeezelite"] None fresh_manager
  = ((true, "Process 'Kitchen' started successfully"),
     mkWorld
       (mkProcessManager
          {[ "Kitchen" := mkPopen 4242 ["squeezelite"] ]}
          "/app/logs"
          {[ "Kitchen" := [mkThread "Kitchen-stdout" 4242; mkThread "Kitchen-stderr" 4242] ]}
          {[ "Kitchen" := mkLogFile "/app/logs/Kitchen.log" ]}
          {[ "Kitchen" := mkEvent 4242 ]})
       [ Log "info" "Starting process 'Kitchen' with command: squeezelite";
         Log "debug" "Cleaned up streaming resources for 'Kitchen'";
         Log "debug" "Starting subprocess with preexec_fn=True";
         PopenCall ["squeezelite"];
         Sleep 500;
         FileOpen (mkLogFile "/app/logs/Kitchen.log");
         Log "debug" "Opened log file for 'Kitchen': /app/logs/Kitchen.log";
         ThreadStart (mkThread "Kitchen-stdout" 4242);
         ThreadStart (mkThread "Kitchen-stderr" 4242);
         Log "debug" "Started 2 streaming threads for 'Kitchen'";
         Log "info" "Started process 'Kitchen' with PID 4242";
         Print "[Kitchen] Started with PID 4242" ]).
Proof. vm_compute. reflexivity. Qed.

Lemma emit_run (e : effect) (w : world) :
  emit e w = (tt, mkWorld (self w) (trace w ++ [e])).
Proof. reflexivity. Qed.

Lemma modify_run (f : ProcessManager -> ProcessManager) (w : world) :
  modify f w = (tt, mkWorld (f (self w)) (trace w)).
Proof. reflexivity. Qed.

Ltac m_simpl :=
  repeat (unfold mbind, mret, M_bind, M_ret, get_self;
          cbn beta iota zeta;
          cbn [self trace fst snd];
          rewrite ?emit_run, ?modify_run).

Lemma for_each_join (threads : list Thread) (w : world) :
  for_each threads (fun thread => emit (ThreadJoin thread)) w
  = (tt, mkWorld (self w) (trace w ++ map ThreadJoin threads)).
Proof.
  revert w. induction threads as [|t threads IH]; intros w.
  - simpl. rewrite app_nil_r. destruct w; reflexivity.
  - cbn [for_each]. m_simpl. rewrite IH. m_simpl.
    rewrite <- app_assoc. reflexivity.
Qed.

(** What a cleanup does: the releases, the closing log line, and the three
    entries of [name] gone. *)
Lemma cleanup_streaming_spec (name : string) (w : world) :
  _cleanup_streaming name w
  = (tt, mkWorld (cleaned name (self w))
           (trace w ++ cleanup_effects name (self w)
            ++ [Log "debug" ("Cleaned up streaming resources for '" ++ name ++ "'")])).
Proof.
  destruct w as [[procs dir threads logs events] tr].
  unfold _cleanup_streaming, cleanup_effects, cleaned. m_simpl.
  cbn [processes log_dir _stream_threads _log_files _stop_events].
  destruct (events !! name) as [ev|] eqn:Hev;
    destruct (threads !! name) as [ts|] eqn:Hts;
    destruct (logs !! name) as [f|] eqn:Hf;
    m_simpl; rewrite ?for_each_join; m_simpl;
    unfold set_stop_events, set_stream_threads, set_log_files;
    cbn [processes log_dir _stream_threads _log_files _stop_events];
    rewrite ?(delete_id events) by exact Hev;
    rewrite ?(delete_id threads) by exact Hts;
    rewrite ?(delete_id logs) by exact Hf;
    rewrite <- ?app_assoc; reflexivity.
Qed.

Lemma count_cleanups_app name (a b : list effect) :
  count_cleanups name (a ++ b) = (count_cleanups name a + count_cleanups name b)%nat.
Proof. unfold count_cleanups. rewrite List.filter_app, length_app. reflexivity. Qed.

Lemma releases_app (a b : list effect) :
  releases (a ++ b) = (releases a ++ releases b)%list.
Proof. apply List.filter_app. Qed.

Lemma popen_calls_app (a b : list effect) :
  popen_calls (a ++ b) = (popen_calls a ++ popen_calls b)%list.
Proof.
  induction a as [|e a IH]; [reflexivity|].
  destruct e; simpl; rewrite ?IH; reflexivity.
Qed.

Lemma is_cleanup_marker name :
  is_cleanup name (Log "debug" ("Cleaned up streaming resources for '" ++ name ++ "'"))
  = true.
Proof. unfold is_cleanup. rewrite !String.eqb_refl. reflexivity. Qed.

Lemma count_cleanups_marker name :
  count_cleanups name
    [Log "debug" ("Cleaned up streaming resources for '" ++ name ++ "'")] = 1%nat.
Proof.
  unfold count_cleanups. cbn [List.filter]. rewrite is_cleanup_marker. reflexivity.
Qed.

Lemma releases_marker name :
  releases [Log "debug" ("Cleaned up streaming resources for '" ++ name ++ "'")] = [].
Proof. reflexivity. Qed.

Lemma map_join_facts name (threads : list Thread) :
  count_cleanups name (map ThreadJoin threads) = 0%nat
  /\ releases (map ThreadJoin threads) = map ThreadJoin threads
  /\ popen_calls (map ThreadJoin threads) = [].
Proof.
  induction threads as [|t threads (IH1 & IH2 & IH3)]; [repeat split|].
  repeat split.
  - exact IH1.
  - unfold releases in *. simpl. rewrite IH2. reflexivity.
  - exact IH3.
Qed.

(** The releases of a cleanup are releases and nothing else. *)
Lemma cleanup_effects_facts name (m : ProcessManager) :
  count_cleanups name (cleanup_effects name m) = 0%nat
  /\ releases (cleanup_effects name m) = cleanup_effects name m
  /\ popen_calls (cleanup_effects name m) = [].
Proof.
  unfold cleanup_effects.
  destruct (map_join_facts name (default [] (_stream_threads m !! name)))
    as (J1 & J2 & J3).
  rewrite !count_cleanups_app, !releases_app, !popen_calls_app.
  destruct (_stop_events m !! name), (_stream_threads m !! name), (_log_files m !! name);
    simpl in J1, J2, J3; rewrite ?J1, ?J2, ?J3; repeat split.
Qed.

(** A cleanup counted: one cleanup, its releases, no process spawned. *)
Lemma cleanup_counts name (m : ProcessManager) :
  let effects :=
    (cleanup_effects name m
     ++ [Log "debug" ("Cleaned up streaming resources for '" ++ name ++ "'")])%list in
  count_cleanups name effects = 1%nat
  /\ releases effects = cleanup_effects name m
  /\ popen_calls effects = [].
Proof.
  destruct (cleanup_effects_facts name m) as (C1 & C2 & C3). cbv zeta.
  rewrite count_cleanups_app, releases_app, popen_calls_app, C1, C2, C3.
  rewrite count_cleanups_marker, releases_marker, app_nil_r. repeat split.
Qed.

(** ** Stopping *)

Ltac trace_shape := rewrite <- ?app_assoc; reflexivity.

(** C1, as the code has it.  When [stop] finds a tracked entry it either
    untracks it (already dead; stopped by SIGTERM; or SIGTERM timed out and
    SIGKILL was sent, whatever the forced kill did) and then the streaming
    resources of the name are cleaned up exactly once before it returns: the
    stop event is set, each reader thread joined and the log file closed, once
    each, and the three entries are removed; or, when signalling or waiting
    raises anything but a timeout, it reports the error and leaves the entry
    and its streaming resources as they were, with no cleanup. *)
Theorem stop_cleanup_by_path (os : OS) (w : world) (name : string) (process : Popen)
    (Htracked : processes (self w) !! name = Some process) :
  exists r m' effects,
    stop os name w = (r, mkWorld m' (trace w ++ effects))
    /\ match stop_path_of os process with
       | SignalOrWaitRaised e =>
           r = (false, "Error stopping process: " ++ exn_text e)
           /\ m' = self w
           /\ count_cleanups name effects = 0%nat
           /\ releases effects = []
       | _ =>
           m' = cleaned name (set_processes (delete name) (self w))
           /\ count_cleanups name effects = 1%nat
           /\ releases effects = cleanup_effects name (self w)
       end.
Proof.
  pose proof (cleanup_counts name (self w)) as (C1 & C2 & C3).
  unfold stop, stop_path_of. m_simpl. rewrite Htracked.
  destruct (os_poll os process) as [code|].
  { m_simpl. rewrite cleanup_streaming_spec. m_simpl.
    eexists _, _, _. split; [reflexivity|].
    split; [reflexivity|]. split; [exact C1|exact C2]. }
  m_simpl.
  assert (Htimeout : forall tr0 pre,
    tr0 = (trace w ++ pre)%list -> count_cleanups name pre = 0%nat -> releases pre = [] ->
    exists r m' effects,
      (let '(_, w1) :=
         match os_killpg os process SIGKILL with
         | Some _ => mret ()
         | None => emit (Wait process PROCESS_KILL_TIMEOUT_SECS)
         end (mkWorld (self w) (tr0 ++ [Killpg process SIGKILL])) in
       let '(_, w2) := modify (set_processes (delete name)) w1 in
       let '(_, w3) := _cleanup_streaming name w2 in
       let '(_, w4) := emit (Log "info" ("Force stopped process '" ++ name ++ "'")) w3 in
       let '(_, w5) := emit (Print ("[" ++ name ++ "] Force stopped")) w4 in
       ((true, "Process '" ++ name ++ "' force stopped"), w5))
      = (r, mkWorld m' (trace w ++ effects))
      /\ m' = cleaned name (set_processes (delete name) (self w))
      /\ count_cleanups name effects = 1%nat
      /\ releases effects = cleanup_effects name (self w)).
  { intros tr0 pre -> Hc Hr.
    destruct (os_killpg os process SIGKILL); m_simpl;
      rewrite cleanup_streaming_spec; m_simpl;
      eexists _, _, _; (split; [f_equal; f_equal; trace_shape|]);
      (split; [reflexivity|]);
      rewrite !count_cleanups_app, !releases_app, Hc, Hr;
      change (cleanup_effects name (set_processes (delete name) (self w)))
        with (cleanup_effects name (self w));
      rewrite ?count_cleanups_marker, ?releases_marker;
      destruct (cleanup_effects_facts name (self w)) as (F1 & F2 & _);
      rewrite F1, F2, ?app_nil_r; split; reflexivity. }
  destruct (os_killpg os process SIGTERM) as [e|].
  { destruct e;
      try (m_simpl; eexists _, _, _; split; [f_equal; f_equal; trace_shape|];
           repeat split; reflexivity).
    destruct (Htimeout (trace w ++ [Print ("[" ++ name ++ "] Stopping...")]
                        ++ [Killpg process SIGTERM])%list
                       [Print ("[" ++ name ++ "] Stopping..."); Killpg process SIGTERM]
                       eq_refl eq_refl eq_refl)
      as (r & m' & effects & Hrun & Hm & Hc & Hr).
    exists r, m', effects. split; [|auto].
    rewrite <- Hrun. m_simpl. rewrite <- !app_assoc. reflexivity. }
  m_simpl.
  destruct (os_wait os process PROCESS_STOP_TIMEOUT_SECS) as [e|].
  { destruct e;
      try (m_simpl; eexists _, _, _; split; [f_equal; f_equal; trace_shape|];
           repeat split; reflexivity).
    destruct (Htimeout (trace w ++ [Print ("[" ++ name ++ "] Stopping...")]
                        ++ [Killpg process SIGTERM]
                        ++ [Wait process PROCESS_STOP_TIMEOUT_SECS])%list
                       [Print ("[" ++ name ++ "] Stopping..."); Killpg process SIGTERM;
                        Wait process PROCESS_STOP_TIMEOUT_SECS]
                       eq_refl eq_refl eq_refl)
      as (r & m' & effects & Hrun & Hm & Hc & Hr).
    exists r, m', effects. split; [|auto].
    rewrite <- Hrun. m_simpl. rewrite <- !app_assoc. reflexivity. }
  m_simpl. rewrite cleanup_streaming_spec. m_simpl.
  eexists _, _, _. split; [f_equal; f_equal; trace_shape|].
  split; [reflexivity|].
  rewrite !count_cleanups_app, !releases_app.
  change (cleanup_effects name (set_processes (delete name) (self w)))
    with (cleanup_effects name (self w)).
  rewrite ?count_cleanups_marker, ?releases_marker.
  destruct (cleanup_effects_facts name (self w)) as (F1 & F2 & _).
  rewrite F1, F2. unfold releases. cbn [List.filter is_release app].
  rewrite ?app_nil_r. split; reflexivity.
Qed.

Lemma stop_cleanup_by_path_witness :
  processes (self kitchen_running) !! "Kitchen" = Some (mkPopen 4242 kitchen_command)
  /\ exists r m' effects,
       stop stubborn_os "Kitchen" kitchen_running
       = (r, mkWorld m' (trace kitchen_running ++ effects))
       /\ match stop_path_of stubborn_os (mkPopen 4242 kitchen_command) with
          | SignalOrWaitRaised e =>
              r = (false, "Error stopping process: " ++ exn_text e)
              /\ m' = self kitchen_running
              /\ count_cleanups "Kitchen" effects = 0%nat
              /\ releases effects = []
          | _ =>
              m' = cleaned "Kitchen" (set_processes (delete "Kitchen") (self kitchen_running))
              /\ count_cleanups "Kitchen" effects = 1%nat
              /\ releases effects = cleanup_effects "Kitchen" (self kitchen_running)
          end.
Proof.
  assert (H : processes (self kitchen_running) !! "Kitchen"
              = Some (mkPopen 4242 kitchen_command)) by (vm_compute; reflexivity).
  split; [exact H|].
  exact (stop_cleanup_by_path stubborn_os kitchen_running "Kitchen"
           (mkPopen 4242 kitchen_command) H).
Defined.

(** The force-kill path, run. *)
Example stop_stubborn_effects :
  stop stubborn_os "Kitchen" kitchen_running
  = ((true, "Process 'Kitchen' force stopped"),
     mkWorld (mkProcessManager ∅ "/app/logs" ∅ ∅ ∅)
       [ Print "[Kitchen] Stopping...";
         Killpg (mkPopen 4242 kitchen_command) SIGTERM;
         Wait (mkPopen 4242 kitchen_command) 5;
         Killpg (mkPopen 4242 kitchen_command) SIGKILL;
         Wait (mkPopen 4242 kitchen_command) 2;
         EventSet (mkEvent 4242);
         ThreadJoin (mkThread "Kitchen-stdout" 4242);
         ThreadJoin (mkThread "Kitchen-stderr" 4242);
         FileClose (mkLogFile "/app/logs/Kitchen.log");
         Log "debug" "Cleaned up streaming resources for 'Kitchen'";
         Log "info" "Force stopped process 'Kitchen'";
         Print "[Kitchen] Force stopped" ]).
Proof. vm_compute. reflexivity. Qed.

(** C1 as stated fails on the path it names last: the tracked process is
    alive at the poll and gone when SIGTERM is sent, signalling raises, and
    [stop] returns with the entry still tracked, the stop event not set, the
    reader threads not joined and the log file open: no cleanup at all. *)
Lemma stop_cleanup_counterexample :
  processes (self kitchen_running) !! "Kitchen" = Some (mkPopen 4242 kitchen_command)
  /\ stop vanishing_os "Kitchen" kitchen_running
     = ((false, "Error stopping process: [Errno 3] No such process"),
        mkWorld (self kitchen_running)
          [ Print "[Kitchen] Stopping...";
            Killpg (mkPopen 4242 kitchen_command) SIGTERM;
            Log "error" "Error stopping process 'Kitchen': [Errno 3] No such process";
            Print "[Kitchen:ERR] Error stopping: [Errno 3] No such process" ])
  /\ count_cleanups "Kitchen" (trace (snd (stop vanishing_os "Kitchen" kitchen_running)))
     = 0%nat
  /\ releases (trace (snd (stop vanishing_os "Kitchen" kitchen_running))) = []
  /\ _stop_events (self (snd (stop vanishing_os "Kitchen" kitchen_running))) !! "Kitchen"
     = Some (mkEvent 4242)
  /\ _log_files (self (snd (stop vanishing_os "Kitchen" kitchen_running))) !! "Kitchen"
     = Some (mkLogFile "/app/logs/Kitchen.log").
Proof. repeat split; vm_compute; reflexivity. Qed.

(** C5: [stop] on a name that is not tracked returns the not-found failure
    and changes nothing; on a name whose tracked process has exited (the
    poll shows an exit code) it reports that the process was not running and
    removes the stale entry, leaving the entries of other names alone. *)
Theorem stop_untracked_or_dead (os : OS) (w : world) (name : string) :
  (processes (self w) !! name = None ->
   stop os name w = ((false, "Process '" ++ name ++ "' not found"), w))
  /\ (forall process code,
        processes (self w) !! name = Some process ->
        os_poll os process = Some code ->
        exists m' effects,
          stop os name w
          = ((false, "Process '" ++ name ++ "' was not running"),
             mkWorld m' (trace w ++ effects))
          /\ processes m' !! name = None
          /\ forall other, other <> name ->
               processes m' !! other = processes (self w) !! other).
Proof.
  split.
  - intros Hnone. unfold stop. m_simpl. rewrite Hnone. destruct w; reflexivity.
  - intros process code Hsome Hpoll. unfold stop. m_simpl. rewrite Hsome, Hpoll.
    m_simpl. rewrite cleanup_streaming_spec. m_simpl.
    eexists _, _. split; [reflexivity|].
    unfold cleaned, set_processes. cbn [processes]. split.
    + apply lookup_delete_eq.
    + intros other Hne. apply lookup_delete_ne. congruence.
Qed.

Lemma stop_untracked_or_dead_witness :
  processes (self fresh_manager) !! "Kitchen" = None
  /\ stop exited_os "Kitchen" fresh_manager
     = ((false, "Process '" ++ "Kitchen" ++ "' not found"), fresh_manager)
  /\ processes (self kitchen_running) !! "Kitchen" = Some (mkPopen 4242 kitchen_command)
  /\ os_poll exited_os (mkPopen 4242 kitchen_command) = Some 1
  /\ exists m' effects,
       stop exited_os "Kitchen" kitchen_running
       = ((false, "Process '" ++ "Kitchen" ++ "' was not running"),
          mkWorld m' (trace kitchen_running ++ effects))
       /\ processes m' !! "Kitchen" = None
       /\ forall other, other <> "Kitchen" ->
            processes m' !! other = processes (self kitchen_running) !! other.
Proof.
  assert (H0 : processes (self fresh_manager) !! "Kitchen" = None) by reflexivity.
  assert (H1 : processes (self kitchen_running) !! "Kitchen"
               = Some (mkPopen 4242 kitchen_command)) by (vm_compute; reflexivity).
  split; [exact H0|].
  split; [exact (proj1 (stop_untracked_or_dead exited_os fresh_manager "Kitchen") H0)|].
  split; [exact H1|]. split; [reflexivity|].
  exact (proj2 (stop_untracked_or_dead exited_os kitchen_running "Kitchen")
           (mkPopen 4242 kitchen_command) 1 H1 eq_refl).
Defined.

(** ** Starting *)

(** C4: [start] on a name whose tracked process is alive (the poll shows no
    exit code) fails with the already-running message and changes nothing:
    the manager, its process table with the existing handle, and the effects
    are as before, whatever the commands. *)
Theorem start_already_running (os : OS) (w : world) (name : string)
    (command : list string) (fallback_command : option (list string)) (process : Popen)
    (Htracked : processes (self w) !! name = Some process)
    (Halive : os_poll os process = None) :
  start os name command fallback_command w
  = ((false, "Process '" ++ name ++ "' is already running"), w)
  /\ processes (self (snd (start os name command fallback_command w))) !! name
     = Some process.
Proof.
  assert (Hrun : start os name command fallback_command w
                 = ((false, "Process '" ++ name ++ "' is already running"), w)).
  { unfold start. m_simpl. rewrite Htracked, Halive.
    rewrite bool_decide_eq_true_2 by reflexivity. destruct w; reflexivity. }
  split; [exact Hrun|]. rewrite Hrun. exact Htracked.
Qed.

Lemma start_already_running_witness :
  processes (self kitchen_running) !! "Kitchen" = Some (mkPopen 4242 kitchen_command)
  /\ os_poll healthy_os (mkPopen 4242 kitchen_command) = None
  /\ start healthy_os "Kitchen" kitchen_fallback (Some kitchen_fallback) kitchen_running
     = ((false, "Process '" ++ "Kitchen" ++ "' is already running"), kitchen_running)
  /\ processes (self (snd (start healthy_os "Kitchen" kitchen_fallback
                             (Some kitchen_fallback) kitchen_running))) !! "Kitchen"
     = Some (mkPopen 4242 kitchen_command).
Proof.
  assert (H1 : processes (self kitchen_running) !! "Kitchen"
               = Some (mkPopen 4242 kitchen_command)) by (vm_compute; reflexivity).
  split; [exact H1|]. split; [reflexivity|].
  exact (start_already_running healthy_os kitchen_running "Kitchen" kitchen_fallback
           (Some kitchen_fallback) (mkPopen 4242 kitchen_command) H1 eq_refl).
Defined.

Lemma preexec_frame (os : OS) (w : world) :
  exists b effects,
    _get_preexec_fn os w = (b, mkWorld (self w) (trace w ++ effects))
    /\ popen_calls effects = [].
Proof.
  unfold _get_preexec_fn.
  destruct (os_win32 os); [|destruct (os_has_setsid os)]; m_simpl.
  - exists false, []. rewrite app_nil_r. destruct w; split; reflexivity.
  - exists true, []. rewrite app_nil_r. destruct w; split; reflexivity.
  - eexists false, _. split; reflexivity.
Qed.


Ltac use_preexec_frame :=
  match goal with
  | |- context [_get_preexec_fn ?o ?w0] =>
      let b := fresh "preexec" in
      let effects := fresh "preexec_effects" in
      let H := fresh "Hpreexec" in
      destruct (preexec_frame o w0) as (b & effects & -> & H)
  end.





(** The fallback path of the specification, run: the tracked process is the
    second one. *)
Example start_with_fallback_effects :
  start primary_dies_os "Kitchen" kitchen_command (Some kitchen_fallback) fresh_manager
  = ((true, "Process 'Kitchen' started with fallback configuration"),
     mkWorld
       (mkProcessManager
          {[ "Kitchen" := mkPopen 102 kitchen_fallback ]}
          "/app/logs"
          {[ "Kitchen" := [mkThread "Kitchen-stdout" 102; mkThread "Kitchen-stderr" 102] ]}
          {[ "Kitchen" := mkLogFile "/app/logs/Kitchen.log" ]}
          {[ "Kitchen" := mkEvent 102 ]})
       [ Log "info" ("Starting process 'Kitchen' with command: " ++ join " " kitchen_command);
         Log "debug" "Cleaned up streaming resources for 'Kitchen'";
         Log "debug" "Starting subprocess with preexec_fn=True";
         PopenCall kitchen_command;
         Sleep 500;
         Communicate (mkPopen 101 kitchen_command);
         Log "error" "Process 'Kitchen' failed to start: busy";
         Print "[Kitchen:ERR] Failed to start: busy";
         Log "info" "Trying fallback command for 'Kitchen'";
         Log "info" ("Fallback command for 'Kitchen': " ++ join " " kitchen_fallback);
         Print "[Kitchen] Trying fallback configuration...";
         PopenCall kitchen_fallback;
         Sleep 500;
         FileOpen (mkLogFile "/app/logs/Kitchen.log");
         Log "debug" "Opened log file for 'Kitchen': /app/logs/Kitchen.log";
         ThreadStart (mkThread "Kitchen-stdout" 102);
         ThreadStart (mkThread "Kitchen-stderr" 102);
         Log "debug" "Started 2 streaming threads for 'Kitchen'";
         Log "info" "Started process 'Kitchen' with fallback (PID 102)";
         Print "[Kitchen] Started with fallback (PID 102)" ]).
Proof. vm_compute. reflexivity. Qed.


(** On the primary command a missing binary has its own outcome. *)
Lemma start_missing_binary (os : OS) (w : world) (name : string)
    (command : list string) (fallback_command : option (list string)) (text : string) :
  (forall p, processes (self w) !! name = Some p -> os_poll os p <> None) ->
  os_spawn os 0 command = SpawnRaises (FileNotFoundError text) ->
  fst (start os name command fallback_command w)
  = (false, "Binary '" ++ match command with b :: _ => b | [] => "unknown" end
            ++ "' not found").
Proof.
  intros Hfree Hraise. unfold start. m_simpl.
  assert (Hrunning : match processes (self w) !! name with
                     | Some p => bool_decide (os_poll os p = None)
                     | None => false
                     end = false).
  { destruct (processes (self w) !! name) as [p|] eqn:Hp; [|reflexivity].
    apply bool_decide_eq_false_2, Hfree, eq_refl. }
  rewrite Hrunning. m_simpl. rewrite cleanup_streaming_spec. m_simpl.
  use_preexec_frame. m_simpl. rewrite Hraise. m_simpl. reflexivity.
Qed.

(** C9: a missing binary is told apart from other spawn errors for the
    primary command only.  Here the primary process is found dead and the
    binary of the fallback command does not exist: [start] reports the
    fallback's [FileNotFoundError] with the very outcome it gives to any
    other exception of the same text, where the same error on the primary
    command gives [Binary 'squeezelite-null' not found]. *)
Theorem start_fallback_missing_binary_generic :
  fst (start (fallback_missing_os (FileNotFoundError missing_binary_text)) "Kitchen"
         kitchen_command (Some missing_fallback) fresh_manager)
  = (false, "Error starting fallback: " ++ missing_binary_text)
  /\ fst (start (fallback_missing_os (FileNotFoundError missing_binary_text)) "Kitchen"
            kitchen_command (Some missing_fallback) fresh_manager)
     = fst (start (fallback_missing_os (OtherException missing_binary_text)) "Kitchen"
              kitchen_command (Some missing_fallback) fresh_manager)
  /\ fst (start missing_os "Kitchen" missing_fallback None fresh_manager)
     = (false, "Binary 'squeezelite-null' not found").
Proof. repeat split; vm_compute; reflexivity. Qed.

(** ** The runs of the manager, path by path *)

Lemma preexec_run (os : OS) (w : world) :
  _get_preexec_fn os w
  = (fst (preexec_result os), mkWorld (self w) (trace w ++ snd (preexec_result os))).
Proof.
  unfold _get_preexec_fn, preexec_result.
  destruct (os_win32 os); [|destruct (os_has_setsid os)]; m_simpl; cbn [fst snd negb];
    rewrite ?app_nil_r; destruct w; reflexivity.
Qed.

Lemma setup_streaming_run (os : OS) (name : string) (process : Popen) (w : world) :
  _setup_streaming os name process w
  = (tt, mkWorld (with_streaming os name process (self w))
           (trace w ++ setup_effects os name process (self w))).
Proof.
  destruct w as [[procs dir threads logs events] tr].
  unfold _setup_streaming, with_streaming, setup_effects, get_log_path. m_simpl.
  unfold set_stop_events, set_log_files, set_stream_threads.
  cbn [processes log_dir _stream_threads _log_files _stop_events self trace].
  destruct (os_open_log os (os_path_join dir (name ++ ".log"))); m_simpl;
    cbn [processes log_dir _stream_threads _log_files _stop_events self trace];
    rewrite <- ?app_assoc; reflexivity.
Qed.

Lemma stop_run (os : OS) (name : string) (w : world) :
  stop os name w
  = (fst (fst (stop_result os name (self w))),
     mkWorld (snd (fst (stop_result os name (self w))))
             (trace w ++ snd (stop_result os name (self w)))).
Proof.
  unfold stop, stop_result, untracked, cleanup_marker. m_simpl.
  destruct (processes (self w) !! name) as [process|].
  2:{ cbn [fst snd]. rewrite app_nil_r. destruct w; reflexivity. }
  destruct (os_poll os process).
  { m_simpl. rewrite cleanup_streaming_spec. m_simpl. reflexivity. }
  m_simpl.
  assert (Hforced : forall tr0,
    (let '(_, w1) :=
       match os_killpg os process SIGKILL with
       | Some _ => mret ()
       | None => emit (Wait process PROCESS_KILL_TIMEOUT_SECS)
       end (mkWorld (self w) (tr0 ++ [Killpg process SIGKILL])) in
     let '(_, w2) := modify (set_processes (delete name)) w1 in
     let '(_, w3) := _cleanup_streaming name w2 in
     let '(_, w4) := emit (Log "info" ("Force stopped process '" ++ name ++ "'")) w3 in
     let '(_, w5) := emit (Print ("[" ++ name ++ "] Force stopped")) w4 in
     ((true, "Process '" ++ name ++ "' force stopped"), w5))
    = ((true, "Process '" ++ name ++ "' force stopped"),
       mkWorld (cleaned name (set_processes (delete name) (self w)))
         (tr0 ++ [Killpg process SIGKILL]
          ++ match os_killpg os process SIGKILL with
             | None => [Wait process PROCESS_KILL_TIMEOUT_SECS]
             | Some _ => []
             end
          ++ (cleanup_effects name (self w)
              ++ [Log "debug" ("Cleaned up streaming resources for '" ++ name ++ "'")])
          ++ [Log "info" ("Force stopped process '" ++ name ++ "'");
              Print ("[" ++ name ++ "] Force stopped")])%list)).
  { intros tr0. destruct (os_killpg os process SIGKILL); m_simpl;
      rewrite cleanup_streaming_spec; m_simpl;
      f_equal; f_equal; trace_shape. }
  destruct (os_killpg os process SIGTERM) as [e|].
  { destruct e; try (m_simpl; cbn [fst snd]; f_equal; f_equal; trace_shape).
    m_simpl. rewrite Hforced. cbn [fst snd]. f_equal. f_equal. trace_shape. }
  m_simpl.
  destruct (os_wait os process PROCESS_STOP_TIMEOUT_SECS) as [e|].
  { destruct e; try (m_simpl; cbn [fst snd]; f_equal; f_equal; trace_shape).
    m_simpl. rewrite Hforced. cbn [fst snd]. f_equal. f_equal. trace_shape. }
  m_simpl. rewrite cleanup_streaming_spec. m_simpl. cbn [fst snd].
  f_equal. f_equal. trace_shape.
Qed.

Ltac run_shape := cbn [fst snd]; f_equal; f_equal; trace_shape.

Lemma _start_fallback_run (os : OS) (name : string) (command : list string) (w : world) :
  _start_fallback os name command w
  = (fst (fst (fallback_result os name command (self w))),
     mkWorld (snd (fst (fallback_result os name command (self w))))
             (trace w ++ snd (fallback_result os name command (self w)))).
Proof.
  unfold _start_fallback, fallback_result. m_simpl. rewrite preexec_run. m_simpl.
  destruct (os_spawn os 1 command) as [e|new_pid [stderr|]]; m_simpl.
  - run_shape.
  - destruct (error_message os stderr) as [error_msg|e]; m_simpl; run_shape.
  - rewrite setup_streaming_run. m_simpl. run_shape.
Qed.

Lemma start_run (os : OS) (name : string) (command : list string)
    (fallback_command : option (list string)) (w : world) :
  start os name command fallback_command w
  = (fst (fst (start_result os name command fallback_command (self w))),
     mkWorld (snd (fst (start_result os name command fallback_command (self w))))
             (trace w ++ snd (start_result os name command fallback_command (self w)))).
Proof.
  unfold start, start_result, already_running, cleanup_marker. m_simpl.
  destruct (match processes (self w) !! name with
            | Some p => bool_decide (os_poll os p = None)
            | None => false
            end).
  { cbn [fst snd]. rewrite app_nil_r. destruct w; reflexivity. }
  m_simpl. rewrite cleanup_streaming_spec. m_simpl. rewrite preexec_run. m_simpl.
  destruct (os_spawn os 0 command) as [e|new_pid [stderr|]]; m_simpl.
  - destruct e; m_simpl; run_shape.
  - destruct (error_message os stderr) as [error_msg|e]; m_simpl.
    + destruct fallback_command as [[|c cs]|]; m_simpl.
      * run_shape.
      * rewrite _start_fallback_run. cbn [self trace].
        destruct (fallback_result os name (c :: cs)
                    (set_processes <[name:=mkPopen new_pid command]> (cleaned name (self w))))
          as [[r m'] effects].
        run_shape.
      * run_shape.
    + destruct e; m_simpl; run_shape.
  - rewrite setup_streaming_run. m_simpl. run_shape.
Qed.

Lemma preexec_quiet (os : OS) (name : string) :
  releases (snd (preexec_result os)) = []
  /\ count_cleanups name (snd (preexec_result os)) = 0%nat
  /\ popen_calls (snd (preexec_result os)) = []
  /\ signals_sent (snd (preexec_result os)) = [].
Proof.
  unfold preexec_result.
  destruct (os_win32 os); [|destruct (os_has_setsid os)]; repeat split.
Qed.

Lemma setup_quiet (os : OS) (name n : string) (process : Popen) (m : ProcessManager) :
  releases (setup_effects os name process m) = []
  /\ count_cleanups n (setup_effects os name process m) = 0%nat
  /\ popen_calls (setup_effects os name process m) = []
  /\ signals_sent (setup_effects os name process m) = [].
Proof.
  unfold setup_effects. destruct (os_open_log os _); repeat split.
Qed.

Lemma signals_sent_app (a b : list effect) :
  signals_sent (a ++ b) = (signals_sent a ++ signals_sent b)%list.
Proof.
  induction a as [|e a IH]; [reflexivity|].
  destruct e; simpl; rewrite ?IH; reflexivity.
Qed.

Lemma cleanup_effects_no_signal name (m : ProcessManager) :
  signals_sent (cleanup_effects name m) = [].
Proof.
  unfold cleanup_effects. rewrite !signals_sent_app.
  assert (J : forall ts, signals_sent (map ThreadJoin ts) = [])
    by (induction ts; auto).
  destruct (_stop_events m !! name), (_stream_threads m !! name), (_log_files m !! name);
    rewrite ?J; reflexivity.
Qed.

(** ** More on stopping *)

(** The manager after [stop]: untouched, or with [name] untracked; success
    is reported only in the second case. *)
Lemma stop_result_manager (os : OS) (name : string) (m : ProcessManager) :
  let '(r, m', _) := stop_result os name m in
  (m' = m /\ fst r = false) \/ m' = untracked name m.
Proof.
  unfold stop_result.
  destruct (processes m !! name) as [process|]; [|left; split; reflexivity].
  destruct (os_poll os process); [right; reflexivity|].
  destruct (os_killpg os process SIGTERM) as [e|];
    [destruct e; first [left; split; reflexivity | right; reflexivity]|].
  destruct (os_wait os process PROCESS_STOP_TIMEOUT_SECS) as [e|];
    [destruct e; first [left; split; reflexivity | right; reflexivity]|].
  right; reflexivity.
Qed.

Lemma untracked_lookup (name : string) (m : ProcessManager) :
  processes (untracked name m) !! name = None /\ no_streams name (untracked name m).
Proof.
  unfold untracked, cleaned, set_processes, no_streams.
  cbn [processes _stop_events _stream_threads _log_files].
  rewrite !lookup_delete_eq. repeat split.
Qed.

Lemma untracked_same_elsewhere (name : string) (m : ProcessManager) :
  same_elsewhere name m (untracked name m).
Proof.
  unfold same_elsewhere, untracked, cleaned, set_processes.
  cbn [processes log_dir _stop_events _stream_threads _log_files].
  split; [reflexivity|]. intros other Hne.
  rewrite !lookup_delete_ne by congruence. repeat split.
Qed.

Lemma same_elsewhere_refl (name : string) (m : ProcessManager) : same_elsewhere name m m.
Proof. split; [reflexivity|]. intros other _. repeat split. Qed.

(** [stop] reports success only when the name is gone: from then on the
    name is not tracked, holds no streaming resource and is not running,
    whatever the operating system answers afterwards. *)
Theorem stop_success_untracks (os os' : OS) (w : world) (name : string)
    (Hok : fst (fst (stop os name w)) = true) :
  processes (self (snd (stop os name w))) !! name = None
  /\ no_streams name (self (snd (stop os name w)))
  /\ fst (is_running os' name (snd (stop os name w))) = false.
Proof.
  rewrite stop_run in *. cbn [fst snd self] in *.
  pose proof (stop_result_manager os name (self w)) as Hm.
  destruct (stop_result os name (self w)) as [[r m'] effects]. cbn [fst snd] in *.
  destruct Hm as [[_ Hfalse]| ->]; [congruence|].
  destruct (untracked_lookup name (self w)) as [Hp Hs].
  split; [exact Hp|]. split; [exact Hs|].
  unfold is_running. m_simpl. rewrite Hp. reflexivity.
Qed.

Lemma stop_success_untracks_witness :
  fst (fst (stop stubborn_os "Kitchen" kitchen_running)) = true
  /\ processes (self (snd (stop stubborn_os "Kitchen" kitchen_running))) !! "Kitchen" = None
  /\ no_streams "Kitchen" (self (snd (stop stubborn_os "Kitchen" kitchen_running)))
  /\ fst (is_running healthy_os "Kitchen" (snd (stop stubborn_os "Kitchen" kitchen_running)))
     = false.
Proof.
  assert (H : fst (fst (stop stubborn_os "Kitchen" kitchen_running)) = true)
    by (vm_compute; reflexivity).
  split; [exact H|].
  exact (stop_success_untracks stubborn_os healthy_os kitchen_running "Kitchen" H).
Defined.


(** After a [stop] that untracked the name (success, or "was not running"),
    stopping again finds nothing and changes nothing. *)
Theorem stop_again_not_found (os os' : OS) (w : world) (name : string) (process : Popen)
    (Htracked : processes (self w) !! name = Some process)
    (Hpath : forall e, stop_path_of os process <> SignalOrWaitRaised e) :
  stop os' name (snd (stop os name w))
  = ((false, "Process '" ++ name ++ "' not found"), snd (stop os name w)).
Proof.
  assert (Hgone : processes (self (snd (stop os name w))) !! name = None).
  { rewrite stop_run. cbn [snd self].
    unfold stop_result, stop_path_of in *. rewrite Htracked in *.
    destruct (os_poll os process); [apply untracked_lookup|].
    destruct (os_killpg os process SIGTERM) as [e|].
    { destruct e; first [apply untracked_lookup | exfalso; eapply Hpath; reflexivity]. }
    destruct (os_wait os process PROCESS_STOP_TIMEOUT_SECS) as [e|].
    { destruct e; first [apply untracked_lookup | exfalso; eapply Hpath; reflexivity]. }
    apply untracked_lookup. }
  rewrite (stop_run os' name). unfold stop_result. rewrite Hgone. cbn [fst snd].
  rewrite app_nil_r. destruct (snd (stop os name w)); reflexivity.
Qed.

Lemma stop_again_not_found_witness :
  processes (self kitchen_running) !! "Kitchen" = Some (mkPopen 4242 kitchen_command)
  /\ (forall e, stop_path_of healthy_os (mkPopen 4242 kitchen_command)
                <> SignalOrWaitRaised e)
  /\ stop exited_os "Kitchen" (snd (stop healthy_os "Kitchen" kitchen_running))
     = ((false, "Process '" ++ "Kitchen" ++ "' not found"),
        snd (stop healthy_os "Kitchen" kitchen_running)).
Proof.
  assert (H1 : processes (self kitchen_running) !! "Kitchen"
               = Some (mkPopen 4242 kitchen_command)) by (vm_compute; reflexivity).
  assert (H2 : forall e, stop_path_of healthy_os (mkPopen 4242 kitchen_command)
                         <> SignalOrWaitRaised e) by (intros e; discriminate).
  split; [exact H1|]. split; [exact H2|].
  exact (stop_again_not_found healthy_os exited_os kitchen_running "Kitchen"
           (mkPopen 4242 kitchen_command) H1 H2).
Defined.

(** ** Frames and invariants *)

Lemma no_streams_ok (m : ProcessManager) (name : string) :
  no_streams name m -> streams_ok_at m name.
Proof.
  intros (He & Ht & Hf). unfold streams_ok_at. rewrite He, Ht, Hf.
  repeat split; intros; discriminate.
Qed.

Lemma streams_ok_elsewhere (name other : string) (m m' : ProcessManager) :
  same_elsewhere name m m' -> other <> name ->
  streams_ok_at m other -> streams_ok_at m' other.
Proof.
  intros [Hdir Hsame] Hne. destruct (Hsame other Hne) as (Hp & Ht & Hf & He).
  unfold streams_ok_at, get_log_path. rewrite Hp, Ht, Hf, He, Hdir. auto.
Qed.

Lemma streams_of_tracked_step (name : string) (m m' : ProcessManager) :
  same_elsewhere name m m' -> streams_of_tracked m -> streams_ok_at m' name ->
  streams_of_tracked m'.
Proof.
  intros Hsame Hinv Hat other. destruct (decide (other = name)) as [->|Hne].
  - exact Hat.
  - eapply streams_ok_elsewhere; eauto.
Qed.

Lemma same_elsewhere_trans (name : string) (m1 m2 m3 : ProcessManager) :
  same_elsewhere name m1 m2 -> same_elsewhere name m2 m3 -> same_elsewhere name m1 m3.
Proof.
  intros [D1 H1] [D2 H2]. split; [congruence|]. intros other Hne.
  destruct (H1 other Hne) as (? & ? & ? & ?), (H2 other Hne) as (? & ? & ? & ?).
  repeat split; congruence.
Qed.

Lemma cleaned_same_elsewhere (name : string) (m : ProcessManager) :
  same_elsewhere name m (cleaned name m).
Proof.
  unfold same_elsewhere, cleaned.
  cbn [processes log_dir _stop_events _stream_threads _log_files].
  split; [reflexivity|]. intros other Hne.
  rewrite !lookup_delete_ne by congruence. repeat split.
Qed.

Lemma cleaned_no_streams (name : string) (m : ProcessManager) :
  no_streams name (cleaned name m).
Proof.
  unfold no_streams, cleaned. cbn [_stop_events _stream_threads _log_files].
  rewrite !lookup_delete_eq. repeat split.
Qed.

Lemma tracked_same_elsewhere (name : string) (process : Popen) (m : ProcessManager) :
  same_elsewhere name m (set_processes <[ name := process ]> m).
Proof.
  unfold same_elsewhere, set_processes.
  cbn [processes log_dir _stop_events _stream_threads _log_files].
  split; [reflexivity|]. intros other Hne.
  rewrite lookup_insert_ne by congruence. repeat split.
Qed.

Lemma with_streaming_same_elsewhere (os : OS) (name : string) (process : Popen)
    (m : ProcessManager) :
  same_elsewhere name m (with_streaming os name process m).
Proof.
  unfold same_elsewhere, with_streaming.
  cbn [processes log_dir _stop_events _stream_threads _log_files].
  split; [reflexivity|]. intros other Hne.
  destruct (os_open_log os _); rewrite !lookup_insert_ne by congruence; repeat split.
Qed.

Lemma with_streaming_ok (os : OS) (name : string) (process : Popen) (m : ProcessManager) :
  processes m !! name = Some process -> no_streams name m ->
  streams_ok_at (with_streaming os name process m) name.
Proof.
  intros Hp (_ & _ & Hnolog). unfold streams_ok_at, with_streaming, get_log_path.
  cbn [processes log_dir _stop_events _stream_threads _log_files].
  rewrite !lookup_insert_eq. split; [|split].
  - intros ev Hev. injection Hev as <-. exists process. repeat split; assumption.
  - intros _ _. eauto.
  - intros f Hf. destruct (os_open_log os _).
    + congruence.
    + rewrite lookup_insert_eq in Hf. injection Hf as <-. split; [reflexivity|eauto].
Qed.

(** The manager after [start], case by case. *)
Lemma start_result_manager (os : OS) (name : string) (command : list string)
    (fallback_command : option (list string)) (m : ProcessManager) :
  let r := fst (fst (start_result os name command fallback_command m)) in
  let m' := snd (fst (start_result os name command fallback_command m)) in
  (already_running os name m = true /\ m' = m
   /\ r = (false, "Process '" ++ name ++ "' is already running"))
  \/ (already_running os name m = false
      /\ ((fst r = false
           /\ (m' = cleaned name m
               \/ exists process, m' = set_processes <[ name := process ]> (cleaned name m)))
          \/ (fst r = true
              /\ exists new_pid arguments,
                   m' = with_streaming os name (mkPopen new_pid arguments)
                          (set_processes <[ name := mkPopen new_pid arguments ]>
                             (cleaned name m))
                   /\ (arguments = command
                       \/ (fallback_given fallback_command = true
                           /\ fallback_command = Some arguments))))).
Proof.
  cbv zeta. unfold start_result.
  destruct (already_running os name m);
    [left; repeat split|right; split; [reflexivity|]].
  assert (Htwice : forall p0 p1 : Popen,
            set_processes <[ name := p1 ]> (set_processes <[ name := p0 ]> (cleaned name m))
            = set_processes <[ name := p1 ]> (cleaned name m)).
  { intros p0 p1. unfold set_processes.
    cbn [processes log_dir _stop_events _stream_threads _log_files].
    rewrite insert_insert_eq. reflexivity. }
  destruct (os_spawn os 0 command) as [e|new_pid [stderr|]].
  - left. destruct e; (split; [reflexivity|left; reflexivity]).
  - destruct (error_message os stderr) as [error_msg|e].
    + destruct fallback_command as [[|c cs]|];
        try (left; split; [reflexivity|right; eexists; reflexivity]).
      unfold fallback_result.
      destruct (os_spawn os 1 (c :: cs)) as [e|fallback_pid [stderr1|]].
      * left. split; [reflexivity|right; eexists; reflexivity].
      * left. destruct (error_message os stderr1);
          (split; [reflexivity|right; eexists; cbn [fst snd]; rewrite Htwice; reflexivity]).
      * right. split; [reflexivity|]. exists fallback_pid, (c :: cs).
        cbn [fst snd]. rewrite Htwice. split; [reflexivity|right; split; reflexivity].
    + left. destruct e; (split; [reflexivity|right; eexists; reflexivity]).
  - right. split; [reflexivity|]. exists new_pid, command.
    split; [reflexivity|left; reflexivity].
Qed.

Ltac tally Hr Hp Hs Pr Pp Ps Hsetup :=
  cbn [fst snd];
  rewrite ?releases_app, ?popen_calls_app, ?signals_sent_app;
  rewrite ?Hr, ?Hp, ?Hs, ?Pr, ?Pp, ?Ps;
  rewrite ?(proj1 (Hsetup _ _)), ?(proj1 (proj2 (Hsetup _ _))),
          ?(proj2 (proj2 (Hsetup _ _)));
  unfold releases; cbn [List.filter is_release popen_calls signals_sent app];
  rewrite ?app_nil_r.

(** The effects of a [start] that goes ahead. *)
Lemma start_result_effects (os : OS) (name : string) (command : list string)
    (fallback_command : option (list string)) (m : ProcessManager) :
  already_running os name m = false ->
  let effects := snd (start_result os name command fallback_command m) in
  releases effects = cleanup_effects name m
  /\ signals_sent effects = []
  /\ exists rest,
       popen_calls effects = command :: rest
       /\ (rest = []
           \/ exists fallback,
                fallback_command = Some fallback /\ fallback <> [] /\ rest = [fallback]).
Proof.
  intros Hrun. cbv zeta. unfold start_result, cleanup_marker. rewrite Hrun.
  destruct (cleanup_effects_facts name m) as (_ & Hr & Hp).
  pose proof (cleanup_effects_no_signal name m) as Hs.
  destruct (preexec_quiet os name) as (Pr & _ & Pp & Ps).
  assert (Hsetup : forall p m0,
            releases (setup_effects os name p m0) = []
            /\ popen_calls (setup_effects os name p m0) = []
            /\ signals_sent (setup_effects os name p m0) = []).
  { intros p m0. destruct (setup_quiet os name name p m0) as (? & _ & ? & ?). auto. }
  destruct (os_spawn os 0 command) as [e|new_pid [stderr|]].
  - destruct e; tally Hr Hp Hs Pr Pp Ps Hsetup;
      (split; [reflexivity|split; [reflexivity|eexists; split; [reflexivity|left; reflexivity]]]).
  - destruct (error_message os stderr) as [error_msg|e].
    + destruct fallback_command as [[|c cs]|];
        try (tally Hr Hp Hs Pr Pp Ps Hsetup;
             split; [reflexivity|split; [reflexivity|
               eexists; split; [reflexivity|left; reflexivity]]]).
      unfold fallback_result.
      destruct (os_spawn os 1 (c :: cs)) as [e|fallback_pid [stderr1|]];
        [|destruct (error_message os stderr1)|];
        tally Hr Hp Hs Pr Pp Ps Hsetup;
        (split; [reflexivity|split; [reflexivity|
           eexists; split; [reflexivity|
             right; exists (c :: cs); split; [reflexivity|split; [discriminate|reflexivity]]]]]).
    + destruct e; tally Hr Hp Hs Pr Pp Ps Hsetup;
        (split; [reflexivity|split; [reflexivity|
           eexists; split; [reflexivity|left; reflexivity]]]).
  - tally Hr Hp Hs Pr Pp Ps Hsetup.
    split; [reflexivity|split; [reflexivity|eexists; split; [reflexivity|left; reflexivity]]].
Qed.

(** ** More on starting *)

Lemma start_self (os : OS) (name : string) (command : list string)
    (fallback_command : option (list string)) (w : world) :
  self (snd (start os name command fallback_command w))
  = snd (fst (start_result os name command fallback_command (self w)))
  /\ fst (start os name command fallback_command w)
     = fst (fst (start_result os name command fallback_command (self w)))
  /\ trace (snd (start os name command fallback_command w))
     = (trace w ++ snd (start_result os name command fallback_command (self w)))%list.
Proof. rewrite start_run. repeat split. Qed.

Lemma stop_self (os : OS) (name : string) (w : world) :
  self (snd (stop os name w)) = snd (fst (stop_result os name (self w)))
  /\ fst (stop os name w) = fst (fst (stop_result os name (self w)))
  /\ trace (snd (stop os name w)) = (trace w ++ snd (stop_result os name (self w)))%list.
Proof. rewrite stop_run. repeat split. Qed.

Lemma start_result_same_elsewhere (os : OS) (name : string) (command : list string)
    (fallback_command : option (list string)) (m : ProcessManager) :
  same_elsewhere name m (snd (fst (start_result os name command fallback_command m))).
Proof.
  pose proof (start_result_manager os name command fallback_command m) as H.
  cbv zeta in H.
  destruct H as [(_ & -> & _)|(_ & [(_ & [->|(p & ->)])|(_ & pid0 & arguments & -> & _)])].
  - apply same_elsewhere_refl.
  - apply cleaned_same_elsewhere.
  - eapply same_elsewhere_trans;
      [apply cleaned_same_elsewhere|apply tracked_same_elsewhere].
  - eapply same_elsewhere_trans; [apply cleaned_same_elsewhere|].
    eapply same_elsewhere_trans;
      [apply tracked_same_elsewhere|apply with_streaming_same_elsewhere].
Qed.

Lemma stop_result_same_elsewhere (os : OS) (name : string) (m : ProcessManager) :
  same_elsewhere name m (snd (fst (stop_result os name m))).
Proof.
  pose proof (stop_result_manager os name m) as H.
  destruct (stop_result os name m) as [[r m'] effects]. cbn [fst snd].
  destruct H as [[-> _]| ->];
    [apply same_elsewhere_refl|apply untracked_same_elsewhere].
Qed.

(** [start] and [stop] on one name leave every other name alone: its
    tracked process, reader threads, log file and stop event, and the log
    directory, are as before. *)
Theorem start_stop_same_elsewhere (os : OS) (w : world) (name : string)
    (command : list string) (fallback_command : option (list string)) :
  same_elsewhere name (self w) (self (snd (start os name command fallback_command w)))
  /\ same_elsewhere name (self w) (self (snd (stop os name w))).
Proof.
  rewrite (proj1 (start_self _ _ _ _ _)), (proj1 (stop_self _ _ _)).
  split; [apply start_result_same_elsewhere|apply stop_result_same_elsewhere].
Qed.

Lemma tracked_no_streams (name : string) (process : Popen) (m : ProcessManager) :
  no_streams name m -> no_streams name (set_processes <[ name := process ]> m).
Proof. intros H. exact H. Qed.

Lemma start_result_ok_at (os : OS) (name : string) (command : list string)
    (fallback_command : option (list string)) (m : ProcessManager) :
  streams_ok_at m name ->
  streams_ok_at (snd (fst (start_result os name command fallback_command m))) name.
Proof.
  intros Hok.
  pose proof (start_result_manager os name command fallback_command m) as H.
  cbv zeta in H.
  destruct H as [(_ & -> & _)|(_ & [(_ & [->|(p & ->)])|(_ & pid0 & arguments & -> & _)])].
  - exact Hok.
  - apply no_streams_ok, cleaned_no_streams.
  - apply no_streams_ok, tracked_no_streams, cleaned_no_streams.
  - apply with_streaming_ok.
    + unfold set_processes. cbn [processes]. apply lookup_insert_eq.
    + apply tracked_no_streams, cleaned_no_streams.
Qed.

Lemma stop_result_ok_at (os : OS) (name : string) (m : ProcessManager) :
  streams_ok_at m name -> streams_ok_at (snd (fst (stop_result os name m))) name.
Proof.
  intros Hok. pose proof (stop_result_manager os name m) as H.
  destruct (stop_result os name m) as [[r m'] effects]. cbn [fst snd].
  destruct H as [[-> _]| ->]; [exact Hok|].
  apply no_streams_ok, untracked_lookup.
Qed.

(** The streaming resources kept under any name are always those of the
    process tracked under it: this holds of a new manager and is kept by
    [start] and by [stop], whatever their outcome.  So no stop event, reader
    thread or log file outlives its process's entry or is carried over to a
    restarted process. *)
Theorem streams_of_tracked_kept (os : OS) (w : world) (name : string)
    (command : list string) (fallback_command : option (list string))
    (Hinv : streams_of_tracked (self w)) :
  streams_of_tracked (self (snd (start os name command fallback_command w)))
  /\ streams_of_tracked (self (snd (stop os name w)))
  /\ streams_of_tracked (self fresh_manager).
Proof.
  rewrite (proj1 (start_self _ _ _ _ _)), (proj1 (stop_self _ _ _)).
  split; [|split].
  - eapply streams_of_tracked_step;
      [apply start_result_same_elsewhere|exact Hinv|apply start_result_ok_at, Hinv].
  - eapply streams_of_tracked_step;
      [apply stop_result_same_elsewhere|exact Hinv|apply stop_result_ok_at, Hinv].
  - intros n. apply no_streams_ok. repeat split.
Qed.

Lemma fresh_manager_streams : streams_of_tracked (self fresh_manager).
Proof. intros n. apply no_streams_ok. repeat split. Qed.

Lemma streams_of_tracked_kept_witness :
  streams_of_tracked (self fresh_manager)
  /\ streams_of_tracked
       (self (snd (start primary_dies_os "Kitchen" kitchen_command (Some kitchen_fallback)
                     fresh_manager)))
  /\ streams_of_tracked (self (snd (stop primary_dies_os "Kitchen" fresh_manager)))
  /\ streams_of_tracked (self fresh_manager).
Proof.
  split; [exact fresh_manager_streams|].
  exact (streams_of_tracked_kept primary_dies_os fresh_manager "Kitchen" kitchen_command
           (Some kitchen_fallback) fresh_manager_streams).
Defined.



(** A [start] that goes ahead (the name is not already running) first
    releases whatever streaming resources an earlier run left under the name,
    each exactly once, whatever happens next; it sends no signal, and it calls
    [Popen] on the command and at most once more, on a fallback that was
    given. *)
Theorem start_releases_stale_once (os : OS) (w : world) (name : string)
    (command : list string) (fallback_command : option (list string))
    (Hfree : already_running os name (self w) = false) :
  exists effects,
    trace (snd (start os name command fallback_command w)) = (trace w ++ effects)%list
    /\ releases effects = cleanup_effects name (self w)
    /\ signals_sent effects = []
    /\ exists rest,
         popen_calls effects = command :: rest
         /\ (rest = []
             \/ exists fallback,
                  fallback_command = Some fallback /\ fallback <> [] /\ rest = [fallback]).
Proof.
  destruct (start_self os name command fallback_command w) as (_ & _ & Ht).
  eexists. split; [exact Ht|].
  exact (start_result_effects os name command fallback_command (self w) Hfree).
Qed.

Lemma start_releases_stale_once_witness :
  already_running exited_os "Kitchen" (self kitchen_running) = false
  /\ exists effects,
       trace (snd (start exited_os "Kitchen" kitchen_command None kitchen_running))
       = (trace kitchen_running ++ effects)%list
       /\ releases effects = cleanup_effects "Kitchen" (self kitchen_running)
       /\ signals_sent effects = []
       /\ exists rest,
            popen_calls effects = kitchen_command :: rest
            /\ (rest = []
                \/ exists fallback,
                     (None : option (list string)) = Some fallback
                     /\ fallback <> [] /\ rest = [fallback]).
Proof.
  assert (H : already_running exited_os "Kitchen" (self kitchen_running) = false)
    by (vm_compute; reflexivity).
  split; [exact H|].
  exact (start_releases_stale_once exited_os kitchen_running "Kitchen" kitchen_command None H).
Defined.

(** A restart over a dead entry, run: the old event, threads and log file
    are released before the new process is spawned. *)
Example restart_over_dead_entry :
  releases (trace (snd (start exited_os "Kitchen" kitchen_command None kitchen_running)))
  = [ EventSet (mkEvent 4242);
      ThreadJoin (mkThread "Kitchen-stdout" 4242);
      ThreadJoin (mkThread "Kitchen-stderr" 4242);
      FileClose (mkLogFile "/app/logs/Kitchen.log") ].
Proof. vm_compute. reflexivity. Qed.

(** When [Popen] raises on the command, [start] fails and the process table
    is exactly as before (a dead entry of the name, if any, stays), while the
    name is left without streaming resources. *)
Theorem start_spawn_error_keeps_table (os : OS) (w : world) (name : string)
    (command : list string) (fallback_command : option (list string)) (e : exn)
    (Hfree : already_running os name (self w) = false)
    (Hraise : os_spawn os 0 command = SpawnRaises e) :
  fst (fst (start os name command fallback_command w)) = false
  /\ processes (self (snd (start os name command fallback_command w)))
     = processes (self w)
  /\ no_streams name (self (snd (start os name command fallback_command w))).
Proof.
  destruct (start_self os name command fallback_command w) as (Hs & Hr & _).
  rewrite Hs, Hr. unfold start_result. rewrite Hfree, Hraise.
  destruct e; cbn [fst snd]; (split; [reflexivity|split; [reflexivity|]]);
    apply cleaned_no_streams.
Qed.

Lemma start_spawn_error_keeps_table_witness :
  already_running missing_os "Kitchen" (self fresh_manager) = false
  /\ os_spawn missing_os 0 kitchen_command
     = SpawnRaises (FileNotFoundError missing_binary_text)
  /\ fst (fst (start missing_os "Kitchen" kitchen_command None fresh_manager)) = false
  /\ processes (self (snd (start missing_os "Kitchen" kitchen_command None fresh_manager)))
     = processes (self fresh_manager)
  /\ no_streams "Kitchen"
       (self (snd (start missing_os "Kitchen" kitchen_command None fresh_manager))).
Proof.
  split; [reflexivity|]. split; [reflexivity|].
  exact (start_spawn_error_keeps_table missing_os fresh_manager "Kitchen" kitchen_command
           None (FileNotFoundError missing_binary_text) eq_refl eq_refl).
Defined.

(** When the process is found dead after the delay and no fallback is
    given, the failed [start] leaves the dead process tracked under the name
    (without streaming resources); [is_running] is then false, and a later
    [stop] reports that the process was not running and untracks the name. *)
Theorem start_dead_then_stop (os os' : OS) (w : world) (name : string)
    (command : list string) (fallback_command : option (list string))
    (new_pid : Z) (stderr : bytes) (code : Z)
    (Hfree : already_running os name (self w) = false)
    (Hdead : os_spawn os 0 command = Spawned new_pid (Some stderr))
    (Hnone : fallback_given fallback_command = false)
    (Hpoll : os_poll os' (mkPopen new_pid command) = Some code) :
  let w' := snd (start os name command fallback_command w) in
  fst (fst (start os name command fallback_command w)) = false
  /\ processes (self w') !! name = Some (mkPopen new_pid command)
  /\ no_streams name (self w')
  /\ fst (is_running os' name w') = false
  /\ fst (stop os' name w') = (false, "Process '" ++ name ++ "' was not running")
  /\ processes (self (snd (stop os' name w'))) !! name = None.
Proof.
  cbv zeta.
  destruct (start_self os name command fallback_command w) as (Hs & Hr & _).
  assert (Hm : snd (fst (start_result os name command fallback_command (self w)))
               = set_processes <[ name := mkPopen new_pid command ]> (cleaned name (self w))
               /\ fst (fst (fst (start_result os name command fallback_command (self w))))
                  = false).
  { unfold start_result. rewrite Hfree, Hdead.
    destruct (error_message os stderr) as [msg|e].
    - destruct fallback_command as [[|c cs]|]; try discriminate Hnone; split; reflexivity.
    - destruct e; split; reflexivity. }
  destruct Hm as [Hm Hfalse]. rewrite Hr. split; [exact Hfalse|].
  assert (Hp : processes (self (snd (start os name command fallback_command w))) !! name
               = Some (mkPopen new_pid command)).
  { rewrite Hs, Hm. unfold set_processes. cbn [processes]. apply lookup_insert_eq. }
  split; [exact Hp|]. split.
  { rewrite Hs, Hm. apply tracked_no_streams, cleaned_no_streams. }
  split.
  { unfold is_running. m_simpl. rewrite Hp, Hpoll. reflexivity. }
  destruct (stop_self os' name (snd (start os name command fallback_command w)))
    as (Hs' & Hr' & _).
  rewrite Hr', Hs'. unfold stop_result. rewrite Hp, Hpoll. cbn [fst snd].
  split; [reflexivity|apply untracked_lookup].
Qed.

Lemma start_dead_then_stop_witness :
  already_running primary_dies_os "Kitchen" (self fresh_manager) = false
  /\ os_spawn primary_dies_os 0 kitchen_command = Spawned 101 (Some [x62; x75; x73; x79])
  /\ fallback_given None = false
  /\ os_poll exited_os (mkPopen 101 kitchen_command) = Some 1
  /\ (let w' := snd (start primary_dies_os "Kitchen" kitchen_command None fresh_manager) in
      fst (fst (start primary_dies_os "Kitchen" kitchen_command None fresh_manager)) = false
      /\ processes (self w') !! "Kitchen" = Some (mkPopen 101 kitchen_command)
      /\ no_streams "Kitchen" (self w')
      /\ fst (is_running exited_os "Kitchen" w') = false
      /\ fst (stop exited_os "Kitchen" w')
         = (false, "Process '" ++ "Kitchen" ++ "' was not running")
      /\ processes (self (snd (stop exited_os "Kitchen" w'))) !! "Kitchen" = None).
Proof.
  split; [reflexivity|]. split; [reflexivity|]. split; [reflexivity|].
  split; [reflexivity|].
  exact (start_dead_then_stop primary_dies_os exited_os fresh_manager "Kitchen"
           kitchen_command None 101 [x62; x75; x73; x79] 1
           eq_refl eq_refl eq_refl eq_refl).
Defined.

(** ** The queries and the loops over the tracked names *)

Lemma is_running_run (os : OS) (name : string) (w : world) :
  is_running os name w = (already_running os name (self w), w).
Proof.
  unfold is_running, already_running. m_simpl.
  destruct (processes (self w) !! name); destruct w; reflexivity.
Qed.

(** [get_process] and [is_running] agree, and neither changes anything:
    [get_process] returns a handle exactly when [is_running] is true, the
    handle is the tracked one, and it is never one whose poll shows an exit
    code. *)
Theorem get_process_is_running (os : OS) (w : world) (name : string) :
  snd (get_process os name w) = w
  /\ snd (is_running os name w) = w
  /\ (fst (is_running os name w) = true <-> is_Some (fst (get_process os name w)))
  /\ forall process,
       fst (get_process os name w) = Some process ->
       processes (self w) !! name = Some process /\ os_poll os process = None.
Proof.
  rewrite is_running_run. unfold get_process, already_running. m_simpl.
  destruct (processes (self w) !! name) as [p|]; cbn [fst snd].
  - destruct (bool_decide (os_poll os p = None)) eqn:Hb; m_simpl; cbn [fst snd].
    + apply bool_decide_eq_true_1 in Hb.
      split; [destruct w; reflexivity|]. split; [reflexivity|].
      split; [split; eauto|]. intros q Hq. injection Hq as <-. auto.
    + split; [destruct w; reflexivity|]. split; [reflexivity|].
      split; [split; [discriminate|intros [? ?]; discriminate]|]. discriminate.
  - split; [destruct w; reflexivity|]. split; [reflexivity|].
    split; [split; [discriminate|intros [? ?]; discriminate]|]. discriminate.
Qed.

Lemma get_all_statuses_from_run (os : OS) (names : list string)
    (statuses : gmap string bool) (w : world) :
  snd (get_all_statuses_from os statuses names w) = w
  /\ forall name,
       fst (get_all_statuses_from os statuses names w) !! name
       = if bool_decide (name ∈ names)
         then Some (already_running os name (self w))
         else statuses !! name.
Proof.
  revert statuses. induction names as [|n names IH]; intros statuses.
  - cbn [get_all_statuses_from]. m_simpl. split; [destruct w; reflexivity|].
    intros name. rewrite bool_decide_eq_false_2 by (apply not_elem_of_nil). reflexivity.
  - cbn [get_all_statuses_from]. m_simpl. rewrite is_running_run.
    destruct (IH (<[ n := already_running os n (self w) ]> statuses)) as [Hw Hl].
    split; [exact Hw|]. intros name. rewrite Hl.
    destruct (decide (name ∈ names)) as [Hin|Hnin].
    + rewrite !bool_decide_eq_true_2; [reflexivity|apply elem_of_cons; auto|exact Hin].
    + rewrite (bool_decide_eq_false_2 _ Hnin).
      destruct (decide (name = n)) as [->|Hne].
      * rewrite lookup_insert_eq, bool_decide_eq_true_2 by (apply elem_of_cons; auto).
        reflexivity.
      * rewrite lookup_insert_ne by congruence.
        rewrite bool_decide_eq_false_2; [reflexivity|].
        rewrite elem_of_cons. intros [?|?]; contradiction.
Qed.

(** [get_all_statuses] changes nothing and returns a dictionary whose keys
    are exactly the names asked for (each once, however often it was given),
    each with the value [is_running] gives for it; a name that is not tracked
    is reported as not running rather than left out. *)
Theorem get_all_statuses_spec (os : OS) (w : world) (player_names : list string) :
  snd (get_all_statuses os player_names w) = w
  /\ forall name,
       fst (get_all_statuses os player_names w) !! name
       = if bool_decide (name ∈ player_names)
         then Some (fst (is_running os name w))
         else None.
Proof.
  unfold get_all_statuses.
  destruct (get_all_statuses_from_run os player_names ∅ w) as [Hw Hl].
  split; [exact Hw|]. intros name. rewrite Hl, is_running_run, lookup_empty. reflexivity.
Qed.

Lemma stop_result_summary (os : OS) (name : string) (m : ProcessManager) :
  fst (fst (fst (stop_result os name m))) = stop_succeeds os m name
  /\ processes (snd (fst (stop_result os name m))) !! name
     = (if stop_errors os m name then processes m !! name else None).
Proof.
  unfold stop_result, stop_succeeds, stop_errors, stop_path_of.
  destruct (processes m !! name) as [process|] eqn:Hp; [|split; [reflexivity|exact Hp]].
  pose proof (proj1 (untracked_lookup name m)) as Hu.
  destruct (os_poll os process); [split; [reflexivity|exact Hu]|].
  destruct (os_killpg os process SIGTERM) as [e|];
    [destruct e; (split; [reflexivity|first [exact Hu|exact Hp]])|].
  destruct (os_wait os process PROCESS_STOP_TIMEOUT_SECS) as [e|];
    [destruct e; (split; [reflexivity|first [exact Hu|exact Hp]])|].
  split; [reflexivity|exact Hu].
Qed.

Lemma stop_all_loop_run (os : OS) (keys : list string) :
  forall (stopped : Z) (w : world),
    List.NoDup keys ->
    fst (stop_all_loop os keys stopped w)
    = stopped + Z.of_nat (length (List.filter (stop_succeeds os (self w)) keys))
    /\ forall name,
         processes (self (snd (stop_all_loop os keys stopped w))) !! name
         = if bool_decide (name ∈ keys) && negb (stop_errors os (self w) name)
           then None
           else processes (self w) !! name.
Proof.
  induction keys as [|k rest IH]; intros stopped w Hnodup.
  - cbn [stop_all_loop]. m_simpl. cbn [List.filter length fst snd]. split; [lia|].
    intros name. rewrite bool_decide_eq_false_2 by (apply not_elem_of_nil). reflexivity.
  - apply List.NoDup_cons_iff in Hnodup as [Hnotin Hrest].
    cbn [stop_all_loop]. m_simpl. rewrite stop_run.
    destruct (stop_result_summary os k (self w)) as [Hok Hk].
    pose proof (stop_result_same_elsewhere os k (self w)) as [_ Hsame].
    set (r := fst (fst (stop_result os k (self w)))) in *.
    set (m1 := snd (fst (stop_result os k (self w)))) in *.
    destruct r as [success message] eqn:Hr. cbn [fst] in Hok.
    match goal with
    | |- context [stop_all_loop os rest ?acc ?w1] =>
        destruct (IH acc w1 Hrest) as [Hcount Hlook]
    end.
    cbn [self] in Hcount, Hlook.
    assert (Hsucc : forall n, List.In n rest ->
              stop_succeeds os m1 n = stop_succeeds os (self w) n).
    { intros n Hin. unfold stop_succeeds.
      destruct (Hsame n) as (-> & _); [intros ->; contradiction|reflexivity]. }
    assert (Herr : forall n, n <> k -> stop_errors os m1 n = stop_errors os (self w) n).
    { intros n Hne. unfold stop_errors. destruct (Hsame n Hne) as (-> & _). reflexivity. }
    split.
    + rewrite Hcount, (List.filter_ext_in _ _ _ Hsucc). cbn [List.filter].
      rewrite <- Hok. destruct success; cbn [length]; lia.
    + intros name. rewrite Hlook. destruct (decide (name = k)) as [->|Hne].
      * rewrite (bool_decide_eq_false_2 (k ∈ rest))
          by (rewrite list_elem_of_In; exact Hnotin).
        rewrite (bool_decide_eq_true_2 (k ∈ k :: rest)) by (apply elem_of_cons; auto).
        cbn [andb]. rewrite Hk. destruct (stop_errors os (self w) k); reflexivity.
      * rewrite (Herr name Hne). destruct (Hsame name Hne) as (-> & _).
        destruct (decide (name ∈ rest)) as [Hin|Hnin].
        -- rewrite !bool_decide_eq_true_2; [reflexivity|apply elem_of_cons; auto|exact Hin].
        -- rewrite !bool_decide_eq_false_2; [reflexivity| |exact Hnin].
           rewrite elem_of_cons. intros [?|?]; contradiction.
Qed.

(** [stop_all] over the tracked names (each once): the count it returns is
    the number of names whose [stop] succeeds, and afterwards a name is still
    tracked only if it was not among the keys or its [stop] ended in the error
    branch; every other key is untracked. *)
Theorem stop_all_table (os : OS) (w : world) (keys : list string)
    (Hnodup : List.NoDup keys) :
  fst (stop_all os keys w)
  = Z.of_nat (length (List.filter (stop_succeeds os (self w)) keys))
  /\ 0 <= fst (stop_all os keys w) <= Z.of_nat (length keys)
  /\ forall name,
       processes (self (snd (stop_all os keys w))) !! name
       = if bool_decide (name ∈ keys) && negb (stop_errors os (self w) name)
         then None
         else processes (self w) !! name.
Proof.
  unfold stop_all. destruct (stop_all_loop_run os keys 0 w Hnodup) as [Hc Hl].
  split; [rewrite Hc; lia|]. split; [|exact Hl].
  rewrite Hc. pose proof (List.filter_length_le (stop_succeeds os (self w)) keys). lia.
Qed.

Lemma stop_all_table_witness :
  List.NoDup ["Kitchen"; "Bedroom"]
  /\ fst (stop_all stubborn_os ["Kitchen"; "Bedroom"] kitchen_running)
     = Z.of_nat (length (List.filter (stop_succeeds stubborn_os (self kitchen_running))
                           ["Kitchen"; "Bedroom"]))
  /\ 0 <= fst (stop_all stubborn_os ["Kitchen"; "Bedroom"] kitchen_running)
     <= Z.of_nat (length ["Kitchen"; "Bedroom"])
  /\ forall name,
       processes (self (snd (stop_all stubborn_os ["Kitchen"; "Bedroom"] kitchen_running)))
         !! name
       = if bool_decide (name ∈ ["Kitchen"; "Bedroom"])
            && negb (stop_errors stubborn_os (self kitchen_running) name)
         then None
         else processes (self kitchen_running) !! name.
Proof.
  assert (H : List.NoDup ["Kitchen"; "Bedroom"]).
  { repeat constructor; simpl; intuition discriminate. }
  split; [exact H|].
  exact (stop_all_table stubborn_os kitchen_running ["Kitchen"; "Bedroom"] H).
Defined.

(** When [stop_all] runs over all the tracked names and no [stop] ends in
    the error branch, nothing is tracked afterwards and [get_all_statuses]
    reports every name asked for as not running, whatever the operating
    system says then. *)
Theorem stop_all_then_statuses (os os' : OS) (w : world) (keys names : list string)
    (Hnodup : List.NoDup keys)
    (Hkeys : forall name, is_Some (processes (self w) !! name) -> name ∈ keys)
    (Hnoerr : forall name, stop_errors os (self w) name = false) :
  processes (self (snd (stop_all os keys w))) = ∅
  /\ forall name,
       name ∈ names ->
       fst (get_all_statuses os' names (snd (stop_all os keys w))) !! name = Some false.
Proof.
  destruct (stop_all_loop_run os keys 0 w Hnodup) as [_ Hl].
  change (stop_all_loop os keys 0 w) with (stop_all os keys w) in Hl.
  assert (Hempty : forall name,
            processes (self (snd (stop_all os keys w))) !! name = None).
  { intros name. rewrite Hl, Hnoerr, andb_true_r.
    destruct (decide (name ∈ keys)) as [Hin|Hnin].
    - rewrite bool_decide_eq_true_2 by exact Hin. reflexivity.
    - rewrite bool_decide_eq_false_2 by exact Hnin.
      destruct (processes (self w) !! name) eqn:Hp; [|reflexivity].
      exfalso. apply Hnin, Hkeys. rewrite Hp. eauto. }
  split.
  - apply map_eq. intros name. rewrite Hempty, lookup_empty. reflexivity.
  - intros name Hin.
    unfold get_all_statuses.
    destruct (get_all_statuses_from_run os' names ∅ (snd (stop_all os keys w))) as [_ Hs].
    rewrite Hs, bool_decide_eq_true_2 by exact Hin.
    unfold already_running. rewrite Hempty. reflexivity.
Qed.

Lemma stop_all_then_statuses_witness :
  List.NoDup ["Kitchen"]
  /\ (forall name, is_Some (processes (self kitchen_running) !! name) -> name ∈ ["Kitchen"])
  /\ (forall name, stop_errors healthy_os (self kitchen_running) name = false)
  /\ processes (self (snd (stop_all healthy_os ["Kitchen"] kitchen_running))) = ∅
  /\ forall name,
       name ∈ ["Kitchen"; "Bedroom"] ->
       fst (get_all_statuses healthy_os ["Kitchen"; "Bedroom"]
              (snd (stop_all healthy_os ["Kitchen"] kitchen_running))) !! name
       = Some false.
Proof.
  assert (H1 : List.NoDup ["Kitchen"]) by (repeat constructor; simpl; tauto).
  assert (H2 : forall name, is_Some (processes (self kitchen_running) !! name) ->
                            name ∈ ["Kitchen"]).
  { intros name [p Hp]. rewrite kitchen_running_state in Hp. cbn [processes] in Hp.
    apply lookup_singleton_Some in Hp as [<- _]. apply list_elem_of_here. }
  assert (H3 : forall name, stop_errors healthy_os (self kitchen_running) name = false).
  { intros name. unfold stop_errors.
    destruct (processes (self kitchen_running) !! name); reflexivity. }
  split; [exact H1|]. split; [exact H2|]. split; [exact H3|].
  exact (stop_all_then_statuses healthy_os healthy_os kitchen_running ["Kitchen"]
           ["Kitchen"; "Bedroom"] H1 H2 H3).
Defined.

Lemma cleanup_dead_loop_run (os : OS) (keys : list string) :
  forall (cleaned_names : list string) (w : world),
    List.NoDup keys ->
    (forall name, List.In name keys -> is_Some (processes (self w) !! name)) ->
    fst (cleanup_dead_loop os keys cleaned_names w)
    = Ok (cleaned_names ++ List.filter (dead os (self w)) keys)%list
    /\ forall name,
         let m := self w in
         let m' := self (snd (cleanup_dead_loop os keys cleaned_names w)) in
         let gone := bool_decide (name ∈ keys) && dead os m name in
         processes m' !! name = (if gone then None else processes m !! name)
         /\ _stop_events m' !! name = (if gone then None else _stop_events m !! name)
         /\ _stream_threads m' !! name = (if gone then None else _stream_threads m !! name)
         /\ _log_files m' !! name = (if gone then None else _log_files m !! name).
Proof.
  induction keys as [|k rest IH]; intros cleaned_names w Hnodup Htracked.
  - cbn [cleanup_dead_loop]. m_simpl. cbn [List.filter fst snd].
    rewrite app_nil_r. split; [reflexivity|]. intros name. cbv zeta.
    rewrite bool_decide_eq_false_2 by (apply not_elem_of_nil). repeat split.
  - apply List.NoDup_cons_iff in Hnodup as [Hnotin Hrest].
    destruct (Htracked k (or_introl eq_refl)) as [process Hk].
    cbn [cleanup_dead_loop]. m_simpl. rewrite Hk.
    assert (Hdeadk : dead os (self w) k
                     = match os_poll os process with Some _ => true | None => false end).
    { unfold dead. rewrite Hk. destruct (os_poll os process); reflexivity. }
    destruct (os_poll os process) as [code|] eqn:Hpoll.
    + m_simpl. rewrite cleanup_streaming_spec. m_simpl.
      fold (untracked k (self w)).
      pose proof (untracked_same_elsewhere k (self w)) as [_ Hsame].
      destruct (untracked_lookup k (self w)) as (Hup & Hue & Hut & Hul).
      match goal with
      | |- context [cleanup_dead_loop os rest ?acc ?w1] =>
          destruct (IH acc w1 Hrest) as [Hres Hlook]
      end.
      { intros n Hin. cbn [self].
        destruct (Hsame n) as (-> & _); [intros ->; contradiction|].
        apply Htracked. right. exact Hin. }
      cbn [self] in Hres, Hlook. split.
      * rewrite Hres. cbn [List.filter]. rewrite Hdeadk, <- app_assoc.
        f_equal. f_equal. cbn [app]. f_equal. apply List.filter_ext_in.
        intros n Hin. unfold dead.
        destruct (Hsame n) as (-> & _); [intros ->; contradiction|reflexivity].
      * intros name. cbv zeta. specialize (Hlook name). cbv zeta in Hlook.
        destruct (decide (name = k)) as [->|Hne].
        -- rewrite (bool_decide_eq_false_2 (k ∈ rest)) in Hlook
             by (rewrite list_elem_of_In; exact Hnotin).
           rewrite (bool_decide_eq_true_2 (k ∈ k :: rest)) by (apply elem_of_cons; auto).
           rewrite Hdeadk. cbn [andb] in *.
           destruct Hlook as (-> & -> & -> & ->). rewrite Hup, Hue, Hut, Hul. repeat split.
        -- assert (Hd : dead os (untracked k (self w)) name = dead os (self w) name).
           { unfold dead. destruct (Hsame name Hne) as (-> & _). reflexivity. }
           rewrite Hd in Hlook.
           assert (Hmem : bool_decide (name ∈ k :: rest) = bool_decide (name ∈ rest)).
           { apply bool_decide_ext. rewrite elem_of_cons. intuition. }
           rewrite Hmem. destruct (Hsame name Hne) as (Ep & Et & El & Ee).
           rewrite <- Ep, <- Et, <- El, <- Ee. exact Hlook.
    + match goal with
      | |- context [cleanup_dead_loop os rest ?acc ?w1] =>
          destruct (IH acc w1 Hrest) as [Hres Hlook]
      end.
      { intros n Hin. apply Htracked. right. exact Hin. }
      split.
      * rewrite Hres. cbn [List.filter]. rewrite Hdeadk. reflexivity.
      * intros name. cbv zeta. specialize (Hlook name). cbv zeta in Hlook.
        destruct (decide (name = k)) as [->|Hne].
        -- rewrite (bool_decide_eq_false_2 (k ∈ rest)) in Hlook
             by (rewrite list_elem_of_In; exact Hnotin).
           rewrite Hdeadk, andb_false_r. exact Hlook.
        -- assert (Hmem : bool_decide (name ∈ k :: rest) = bool_decide (name ∈ rest)).
           { apply bool_decide_ext. rewrite elem_of_cons. intuition. }
           rewrite Hmem. exact Hlook.
Qed.

(** [cleanup_dead_processes] over the tracked names (each once) returns, in
    that order, exactly the names whose process has exited; these lose their
    entry and their streaming resources, and every other name keeps its
    tracked process, stop event, reader threads and log file. *)
Theorem cleanup_dead_processes_spec (os : OS) (w : world) (keys : list string)
    (Hnodup : List.NoDup keys)
    (Htracked : forall name, List.In name keys -> is_Some (processes (self w) !! name)) :
  fst (cleanup_dead_processes os keys w) = Ok (List.filter (dead os (self w)) keys)
  /\ forall name,
       let m := self w in
       let m' := self (snd (cleanup_dead_processes os keys w)) in
       let gone := bool_decide (name ∈ keys) && dead os m name in
       processes m' !! name = (if gone then None else processes m !! name)
       /\ _stop_events m' !! name = (if gone then None else _stop_events m !! name)
       /\ _stream_threads m' !! name = (if gone then None else _stream_threads m !! name)
       /\ _log_files m' !! name = (if gone then None else _log_files m !! name).
Proof. exact (cleanup_dead_loop_run os keys [] w Hnodup Htracked). Qed.

Lemma cleanup_dead_processes_spec_witness :
  List.NoDup ["Kitchen"]
  /\ (forall name, List.In name ["Kitchen"] ->
        is_Some (processes (self kitchen_running) !! name))
  /\ fst (cleanup_dead_processes exited_os ["Kitchen"] kitchen_running)
     = Ok (List.filter (dead exited_os (self kitchen_running)) ["Kitchen"])
  /\ forall name,
       let m := self kitchen_running in
       let m' := self (snd (cleanup_dead_processes exited_os ["Kitchen"] kitchen_running)) in
       let gone := bool_decide (name ∈ ["Kitchen"]) && dead exited_os m name in
       processes m' !! name = (if gone then None else processes m !! name)
       /\ _stop_events m' !! name = (if gone then None else _stop_events m !! name)
       /\ _stream_threads m' !! name = (if gone then None else _stream_threads m !! name)
       /\ _log_files m' !! name = (if gone then None else _log_files m !! name).
Proof.
  assert (H1 : List.NoDup ["Kitchen"]) by (repeat constructor; simpl; tauto).
  assert (H2 : forall name, List.In name ["Kitchen"] ->
                            is_Some (processes (self kitchen_running) !! name)).
  { intros name [<-|[]]. rewrite kitchen_running_state. cbn [processes].
    rewrite lookup_singleton_eq. eauto. }
  split; [exact H1|]. split; [exact H2|].
  exact (cleanup_dead_processes_spec exited_os kitchen_running ["Kitchen"] H1 H2).
Defined.

(** Reconciliation, run: the dead player is reported and its resources are
    released. *)
Example cleanup_dead_kitchen :
  cleanup_dead_processes exited_os ["Kitchen"] kitchen_running
  = (Ok ["Kitchen"],
     mkWorld (mkProcessManager ∅ "/app/logs" ∅ ∅ ∅)
       [ EventSet (mkEvent 4242);
         ThreadJoin (mkThread "Kitchen-stdout" 4242);
         ThreadJoin (mkThread "Kitchen-stderr" 4242);
         FileClose (mkLogFile "/app/logs/Kitchen.log");
         Log "debug" "Cleaned up streaming resources for 'Kitchen'";
         Log "debug" "Cleaned up terminated process 'Kitchen'" ]).
Proof. vm_compute. reflexivity. Qed.

(** ** More on the log reader *)

Lemma stream_loop_shape (prefix : string) (log_file : bool) (stream : list read_step) :
  exists lines,
    Forall (fun d => d <> "") lines
    /\ stream_loop prefix log_file stream
       = flat_map (line_effects prefix log_file) lines.
Proof.
  induction stream as [|step stream (lines & Hne & IH)]; [exists []; split; [constructor|reflexivity]|].
  destruct step as [| |line|v]; try (exists []; split; [constructor|reflexivity]).
  destruct line as [|b l]; [exists []; split; [constructor|reflexivity]|].
  rewrite stream_loop_line by discriminate. rewrite IH.
  destruct (String.eqb (UTF8.rstrip (UTF8.decode_replace (b :: l))) "") eqn:Hblank.
  - exists lines. split; [exact Hne|reflexivity].
  - exists (UTF8.rstrip (UTF8.decode_replace (b :: l)) :: lines). split.
    + constructor; [|exact Hne]. intros Heq. rewrite Heq in Hblank. discriminate Hblank.
    + reflexivity.
Qed.

(** Whatever a reader thread meets, what it does is: for some non-blank
    lines, in order, print the line behind the prefix of its stream
    ([[name]] or [[name:ERR]]) and, when there is a log file, write the same
    line without the prefix and with a newline; then close its pipe, once, as
    the last thing.  Without a log file nothing is written. *)
Theorem stream_output_shape (stream : list read_step) (name stream_type : string)
    (log_file : bool) :
  exists lines,
    Forall (fun d => d <> "") lines
    /\ _stream_output stream name stream_type log_file
       = (flat_map (line_effects (stream_prefix name stream_type) log_file) lines
          ++ [StreamClose])%list.
Proof.
  destruct (stream_loop_shape (stream_prefix name stream_type) log_file stream)
    as (lines & Hne & Heq).
  exists lines. split; [exact Hne|].
  unfold _stream_output. fold (stream_prefix name stream_type).
  rewrite <- Heq. unfold stream_prefix. destruct (String.eqb stream_type "stderr"); reflexivity.
Qed.

Lemma stream_loop_stops (prefix : string) (log_file : bool)
    (pre post : list read_step) (step : read_step) :
  ends_reading step = true ->
  stream_loop prefix log_file (pre ++ step :: post) = stream_loop prefix log_file pre.
Proof.
  intros Hend. induction pre as [|first pre IH].
  - destruct step as [| |line|v]; try reflexivity.
    destruct line; [reflexivity|discriminate Hend].
  - change ((first :: pre) ++ step :: post)%list with (first :: (pre ++ step :: post))%list.
    destruct first as [| |line|v]; try reflexivity.
    destruct line as [|b l]; [reflexivity|].
    rewrite !stream_loop_line by discriminate. rewrite IH. reflexivity.
Qed.

(** A reader leaves its loop at the first turn where the stop event is set,
    the read raises, or the read returns no bytes (end of file) or something
    that is not bytes: whatever the pipe would still deliver after that turn
    is neither printed nor logged. *)
Theorem stream_output_stops (pre post : list read_step) (step : read_step)
    (name stream_type : string) (log_file : bool)
    (Hend : ends_reading step = true) :
  _stream_output (pre ++ step :: post) name stream_type log_file
  = _stream_output pre name stream_type log_file.
Proof.
  unfold _stream_output. rewrite (stream_loop_stops _ _ _ _ _ Hend). reflexivity.
Qed.

Lemma stream_output_stops_witness :
  ends_reading StopIsSet = true
  /\ _stream_output ([ReadlineBytes [x6f; x6b; x0a]] ++ StopIsSet :: undecodable_then_ok)
       "Kitchen" "stderr" true
     = _stream_output [ReadlineBytes [x6f; x6b; x0a]] "Kitchen" "stderr" true.
Proof.
  split; [reflexivity|].
  exact (stream_output_stops [ReadlineBytes [x6f; x6b; x0a]] undecodable_then_ok StopIsSet
           "Kitchen" "stderr" true eq_refl).
Defined.

(** ** Validating, preparing and building, composed *)










(** What [prepare_config] returns for a configuration whose name is a
    non-empty string: the merged configuration, with a truthy identifier. *)
Lemma prepared_config (rt : Builtins) (p : provider) (config : gmap string value)
    (s : string) :
  config !! "name" = Some (VStr s) -> s <> "" ->
  exists player ident,
    prepare_config rt p config = Ok player
    /\ (forall k, k <> identifier_key p ->
          player !! k = dict_update (get_default_config p) config !! k)
    /\ player !! identifier_key p = Some ident
    /\ truthy ident = true.
Proof.
  intros Hname Hs. rewrite prepare_config_scheme.
  rewrite prepare_with_returns;
    [|apply default_has_no_name|intros v Hv; rewrite Hname in Hv; injection Hv as <-; eauto].
  cbv zeta. set (merged := dict_update (get_default_config p) config).
  assert (Hn : dict_get merged "name" = VStr s).
  { unfold dict_get, merged. rewrite dict_update_lookup, Hname. reflexivity. }
  rewrite Hn, (truthy_nonempty_str s Hs), andb_true_r.
  destruct (truthy (dict_get merged (identifier_key p))) eqn:Hid; cbn [negb].
  - exists merged, (dict_get merged (identifier_key p)).
    split; [reflexivity|]. split; [reflexivity|]. split; [|exact Hid].
    unfold dict_get in Hid |- *. destruct (merged !! identifier_key p); [reflexivity|discriminate Hid].
  - eexists _, _. split; [reflexivity|]. split; [|split].
    + intros k Hk. rewrite lookup_insert_ne by congruence. reflexivity.
    + rewrite lookup_insert_eq. reflexivity.
    + apply truthy_nonempty_str, generate_identifier_nonempty.
Qed.







(** The fallback of each provider.  Sendspin and Snapcast have none.
    Squeezelite's fallback command does not depend on the configured device,
    and, where the environment leaves the device name "null" as it is, it is
    the command that [build_command] gives for the same player on the
    device "null". *)
Theorem build_fallback_command_null_device
    (rt : Builtins) (env : Environment) (p : provider)
    (player : gmap string value) (log_path : string) :
  get_squeezelite_output_device env (VStr "null") = VStr "null" ->
  (forall device, build_fallback_command env p (<[ "device" := device ]> player) log_path
                  = build_fallback_command env p player log_path)
  /\ build_fallback_command env p player log_path
     = (if supports_fallback p
        then cmd ← build_command rt env p (<[ "device" := VStr "null" ]> player) log_path;
             mret (Some cmd)
        else mret None).
Proof.
  intros Hnull. destruct p; cbn [build_fallback_command supports_fallback build_command];
    [|split; reflexivity|split; reflexivity].
  assert (Hframe : forall device k, k <> "device" ->
            (<[ "device" := device ]> player : gmap string value) !! k = player !! k).
  { intros device k Hk. apply lookup_insert_ne. congruence. }
  split.
  - intros device. unfold Squeezelite.build_fallback_command, dict_item, dict_get.
    rewrite !Hframe by discriminate. reflexivity.
  - unfold Squeezelite.build_fallback_command, Squeezelite.build_command, dict_item, dict_get.
    rewrite lookup_insert_eq. rewrite !Hframe by discriminate.
    cbn [mbind result_bind mret result_ret]. rewrite Hnull.
    destruct (player !! "name") as [name|]; [|reflexivity].
    cbn [mbind result_bind mret result_ret].
    destruct (player !! "mac_address") as [mac|]; [|reflexivity].
    cbn [mbind result_bind mret result_ret].
    replace (py_eq (VStr "null") (VStr Squeezelite.NULL_DEVICE)) with true by reflexivity.
    destruct (truthy (default VNone (player !! "server_ip"))); cbn [app];
      rewrite <- ?app_assoc; reflexivity.
Qed.

Lemma build_fallback_command_null_device_witness :
  (forall device,
     build_fallback_command standalone_env SqueezeliteProvider
       (<[ "device" := device ]> kitchen_player) "/app/logs/Kitchen.log"
     = build_fallback_command standalone_env SqueezeliteProvider
         kitchen_player "/app/logs/Kitchen.log")
  /\ build_fallback_command standalone_env SqueezeliteProvider
       kitchen_player "/app/logs/Kitchen.log"
     = (if supports_fallback SqueezeliteProvider
        then cmd ← build_command ascii_builtins standalone_env SqueezeliteProvider
                     (<[ "device" := VStr "null" ]> kitchen_player) "/app/logs/Kitchen.log";
             mret (Some cmd)
        else mret None).
Proof.
  apply (build_fallback_command_null_device ascii_builtins standalone_env
           SqueezeliteProvider kitchen_player "/app/logs/Kitchen.log").
  reflexivity.
Defined.

(** The identifier under which a prepared player is tracked: for Sendspin
    and Snapcast the prepared [client_id], respectively [host_id], for
    Squeezelite the name; it is never empty. *)
Theorem get_player_identifier_prepared
    (rt : Builtins) (p : provider) (config : gmap string value) (s : string) :
  config !! "name" = Some (VStr s) ->
  s <> "" ->
  exists player,
    prepare_config rt p config = Ok player
    /\ get_player_identifier p player
       = match p with
         | SqueezeliteProvider => VStr s
         | SendspinProvider | SnapcastProvider => dict_get player (identifier_key p)
         end
    /\ truthy (get_player_identifier p player) = true.
Proof.
  intros Hname Hs.
  destruct (prepared_config rt p config s Hname Hs)
    as (player & ident & Hprep & Hsame & Hid & Htruthy).
  exists player. split; [exact Hprep|].
  assert (Hpname : player !! "name" = Some (VStr s)).
  { rewrite Hsame by (apply not_eq_sym, identifier_key_not_name).
    rewrite dict_update_lookup, Hname. reflexivity. }
  destruct p; cbn [get_player_identifier identifier_key] in *.
  - unfold base_get_player_identifier, dict_get_default. rewrite Hpname.
    split; [reflexivity|]. apply truthy_nonempty_str, Hs.
  - assert (Hget : dict_get player "client_id" = ident)
      by (unfold dict_get; rewrite Hid; reflexivity).
    unfold sendspin_get_player_identifier. rewrite Hget, Htruthy.
    split; [reflexivity|exact Htruthy].
  - assert (Hget : dict_get player "host_id" = ident)
      by (unfold dict_get; rewrite Hid; reflexivity).
    unfold snapcast_get_player_identifier. rewrite Hget, Htruthy.
    split; [reflexivity|exact Htruthy].
Qed.

Lemma string_app_cons (c : ascii) (a b : string) : String c a ++ b = String c (a ++ b).
Proof. reflexivity. Qed.

Lemma string_app_nil_r (s : string) : s ++ "" = s.
Proof.
  induction s as [|c s IH]; [reflexivity|]. rewrite string_app_cons, IH. reflexivity.
Qed.

Lemma string_app_assoc (a b c : string) : (a ++ b) ++ c = a ++ b ++ c.
Proof.
  induction a as [|x a IH]; [reflexivity|]. rewrite !string_app_cons, IH. reflexivity.
Qed.

Lemma string_app_length (a b : string) :
  String.length (a ++ b) = (String.length a + String.length b)%nat.
Proof.
  induction a as [|x a IH]; [reflexivity|]. rewrite string_app_cons. simpl.
  rewrite IH. reflexivity.
Qed.

Lemma string_app_inv_head (a x y : string) : a ++ x = a ++ y -> x = y.
Proof.
  induction a as [|c a IH]; [auto|]. rewrite !string_app_cons. intros [= H]. auto.
Qed.

Lemma string_app_inv_tail (x y t : string) : x ++ t = y ++ t -> x = y.
Proof.
  revert y. induction x as [|c x IH]; intros [|d y]; rewrite ?string_app_cons.
  - reflexivity.
  - intros H. apply (f_equal String.length) in H. simpl in H.
    rewrite !string_app_length in H. simpl in H. lia.
  - intros H. apply (f_equal String.length) in H. simpl in H.
    rewrite !string_app_length in H. simpl in H. lia.
  - intros [= -> H]. f_equal. auto.
Qed.

Lemma startswith_app (p s : string) : startswith (p ++ s) p = true.
Proof.
  unfold startswith. induction p as [|c p IH].
  - destruct s; reflexivity.
  - rewrite string_app_cons. simpl.
    destruct (ascii_dec c c) as [_|Hne]; [exact IH|congruence].
Qed.

Lemma startswith_slash (name : string) :
  contains_char "/" name = false -> startswith (name ++ ".log") "/" = false.
Proof.
  destruct name as [|c name]; [reflexivity|]. rewrite string_app_cons.
  change (contains_char "/" (String c name))
    with (Ascii.eqb "/" c || contains_char "/" name).
  intros H. apply orb_false_iff in H as [Hc _]. unfold startswith.
  change (String.prefix "/" (String c (name ++ ".log")))
    with (if ascii_dec "/" c then String.prefix "" (name ++ ".log") else false).
  destruct (ascii_dec "/" c) as [<-|_]; [|reflexivity].
  rewrite Ascii.eqb_refl in Hc. discriminate Hc.
Qed.

(** The directory part of a log path: [os.path.join(log_dir, "")]. *)
Lemma get_log_path_plain (m : ProcessManager) (name : string) :
  contains_char "/" name = false ->
  get_log_path m name = os_path_join (log_dir m) "" ++ name ++ ".log".
Proof.
  intros Hname. unfold get_log_path, os_path_join.
  rewrite (startswith_slash name Hname).
  replace (startswith "" "/") with false by reflexivity.
  destruct (String.eqb (log_dir m) "" || _).
  - rewrite string_app_nil_r. reflexivity.
  - rewrite !string_app_assoc. reflexivity.
Qed.

(** Log files of names without a slash (the names that [validate_config]
    accepts have none) lie in the log directory, one file per name: the path
    is the directory, a separator unless the directory is empty or ends with
    one, the name and [.log]; two such names have the same path only if
    they are the same name. *)
Theorem get_log_path_per_name (m : ProcessManager) (name other : string) :
  contains_char "/" name = false ->
  contains_char "/" other = false ->
  startswith (get_log_path m name) (log_dir m) = true
  /\ get_log_path m name = os_path_join (log_dir m) "" ++ name ++ ".log"
  /\ (get_log_path m name = get_log_path m other -> name = other).
Proof.
  intros Hname Hother. rewrite !get_log_path_plain by assumption.
  split; [|split; [reflexivity|]].
  - unfold os_path_join. replace (startswith "" "/") with false by reflexivity.
    destruct (String.eqb (log_dir m) "" || _);
      rewrite ?string_app_assoc; apply startswith_app.
  - intros H. apply string_app_inv_head, string_app_inv_tail in H. exact H.
Qed.

Lemma get_log_path_per_name_witness :
  startswith (get_log_path (self fresh_manager) "Kitchen") (log_dir (self fresh_manager)) = true
  /\ get_log_path (self fresh_manager) "Kitchen"
     = os_path_join (log_dir (self fresh_manager)) "" ++ "Kitchen" ++ ".log"
  /\ (get_log_path (self fresh_manager) "Kitchen" = get_log_path (self fresh_manager) "Bedroom"
      -> "Kitchen" = "Bedroom").
Proof.
  apply (get_log_path_per_name (self fresh_manager) "Kitchen" "Bedroom"); reflexivity.
Defined.

Lemma get_player_identifier_prepared_witness :
  exists player,
    prepare_config ascii_builtins SnapcastProvider kitchen_config = Ok player
    /\ get_player_identifier SnapcastProvider player
       = dict_get player (identifier_key SnapcastProvider)
    /\ truthy (get_player_identifier SnapcastProvider player) = true.
Proof.
  apply (get_player_identifier_prepared ascii_builtins SnapcastProvider kitchen_config "Kitchen").
  - reflexivity.
  - discriminate.
Defined.

(** ** Setting the volume *)

Example card_number_hw : card_number "hw:1,0" = Some "1".
Proof. reflexivity. Qed.
Example card_number_plughw : card_number "plughw:12,0" = Some "12".
Proof. reflexivity. Qed.
Example card_number_second : card_number "hw:x hw:3" = Some "3".
Proof. reflexivity. Qed.
Example card_number_none : card_number "USB Audio" = None.
Proof. reflexivity. Qed.
Example set_volume_pcm :
  set_volume hardware_manager pcm_only_amixer "hw:1,0" 40 "Master"
  = (Ok (true, "Volume set to 40% (PCM)"),
     [MixerRun ["amixer"; "-c"; "1"; "sset"; "Master"; "40%"];
      MixerLog "debug" "Control Master failed for device hw:1,0: Command returned non-zero exit status 1.";
      MixerRun ["amixer"; "-c"; "1"; "sset"; "PCM"; "40%"];
      MixerLog "info" "Set volume to 40% for device hw:1,0 control PCM"]).
Proof. vm_compute. reflexivity. Qed.

Section set_volume_facts.
Context (am : AudioManager) (run : list string -> run_outcome).

Lemma set_volume_loop_skips (device card_num : string) (volume : Z)
    (tried controls : list string) :
  Forall (fun c => exists e, run (sset_command card_num c volume) = RunCalledProcessError e)
         tried ->
  fst (set_volume_loop run device card_num volume (tried ++ controls)%list)
  = fst (set_volume_loop run device card_num volume controls)
  /\ mixer_runs (snd (set_volume_loop run device card_num volume (tried ++ controls)%list))
     = (map (fun c => sset_command card_num c volume) tried
        ++ mixer_runs (snd (set_volume_loop run device card_num volume controls)))%list.
Proof.
  induction 1 as [|c tried (e & He) _ (IHr & IHe)]; [split; reflexivity|].
  change ((c :: tried) ++ controls)%list with (c :: (tried ++ controls))%list.
  cbn [set_volume_loop]. rewrite He.
  destruct (set_volume_loop run device card_num volume (tried ++ controls)%list) as [r events].
  cbn [fst snd mixer_runs map app] in *. rewrite IHr, IHe. split; reflexivity.
Qed.

Lemma set_volume_hardware (device card_num : string) (volume : Z) (control : string) :
  0 <= volume <= 100 ->
  windows_mode am = false ->
  str_in device VIRTUAL_AUDIO_DEVICES = false ->
  card_number device = Some card_num ->
  set_volume am run device volume control
  = set_volume_loop run device card_num volume VOLUME_WRITE_CONTROLS.
Proof.
  intros Hrange Hwin Hvirt Hcard. unfold set_volume.
  replace ((0 <=? volume) && (volume <=? 100)) with true
    by (symmetry; apply andb_true_iff; split; apply Z.leb_le; lia).
  rewrite Hwin, Hvirt, Hcard. reflexivity.
Qed.

(** [set_volume] does not touch the mixer when the volume is outside
    0..100, in Windows mode, for a device that [is_virtual_device] reports
    ("null", "pulse", "dmix", "default") or for a device name without
    [hw:<digits>]: no command is run, and the call fails exactly when the
    volume is out of range. *)
Theorem set_volume_without_mixer (device : string) (volume : Z) (control : string) :
  volume < 0 \/ 100 < volume \/ windows_mode am = true
  \/ is_virtual_device device = true \/ card_number device = None ->
  mixer_runs (snd (set_volume am run device volume control)) = []
  /\ exists msg, fst (set_volume am run device volume control)
                 = Ok ((0 <=? volume) && (volume <=? 100), msg).
Proof.
  intros H. unfold set_volume.
  destruct ((0 <=? volume) && (volume <=? 100)) eqn:Hrange; cbn [negb].
  - destruct (windows_mode am || str_in device VIRTUAL_AUDIO_DEVICES) eqn:Hvirt.
    + split; [reflexivity|eauto].
    + apply orb_false_iff in Hvirt as [Hw Hv].
      apply andb_true_iff in Hrange as [H0 H100]. apply Z.leb_le in H0, H100.
      destruct H as [H|[H|[H|[H|H]]]]; try lia; try congruence.
      * unfold is_virtual_device in H. congruence.
      * rewrite H. split; [reflexivity|eauto].
  - split; [reflexivity|eauto].
Qed.

(** On a sound card, [set_volume] tries the controls Master, PCM, Speaker,
    Headphone, Digital in this order with [amixer -c <card> sset <control>
    <volume>%], passes over those that [amixer] refuses, and reports success
    with the first control that works; the controls after it are not
    tried. *)
Theorem set_volume_first_working_control
    (device card_num : string) (volume : Z) (control : string)
    (tried : list string) (control_name : string) (rest : list string) :
  0 <= volume <= 100 ->
  windows_mode am = false ->
  str_in device VIRTUAL_AUDIO_DEVICES = false ->
  card_number device = Some card_num ->
  VOLUME_WRITE_CONTROLS = (tried ++ control_name :: rest)%list ->
  Forall (fun c => exists e, run (sset_command card_num c volume) = RunCalledProcessError e)
         tried ->
  run (sset_command card_num control_name volume) = RunOk ->
  fst (set_volume am run device volume control)
  = Ok (true, "Volume set to " ++ py_str (VInt volume) ++ "% (" ++ control_name ++ ")")
  /\ mixer_runs (snd (set_volume am run device volume control))
     = map (fun c => sset_command card_num c volume) (tried ++ [control_name])%list.
Proof.
  intros Hrange Hwin Hvirt Hcard Hsplit Htried Hok.
  rewrite (set_volume_hardware device card_num volume control Hrange Hwin Hvirt Hcard).
  rewrite Hsplit.
  destruct (set_volume_loop_skips device card_num volume tried (control_name :: rest) Htried)
    as [-> ->].
  cbn [set_volume_loop]. rewrite Hok. cbn [fst snd mixer_runs].
  split; [reflexivity|]. rewrite map_app. reflexivity.
Qed.

(** When [amixer] refuses all five controls, [set_volume] has tried each
    of them once, in order, and reports that the device has no working
    volume control. *)
Theorem set_volume_no_working_control
    (device card_num : string) (volume : Z) (control : string) :
  0 <= volume <= 100 ->
  windows_mode am = false ->
  str_in device VIRTUAL_AUDIO_DEVICES = false ->
  card_number device = Some card_num ->
  Forall (fun c => exists e, run (sset_command card_num c volume) = RunCalledProcessError e)
         VOLUME_WRITE_CONTROLS ->
  fst (set_volume am run device volume control)
  = Ok (false, "No working volume controls found for device " ++ device)
  /\ mixer_runs (snd (set_volume am run device volume control))
     = map (fun c => sset_command card_num c volume) VOLUME_WRITE_CONTROLS.
Proof.
  intros Hrange Hwin Hvirt Hcard Hall.
  rewrite (set_volume_hardware device card_num volume control Hrange Hwin Hvirt Hcard).
  destruct (set_volume_loop_skips device card_num volume VOLUME_WRITE_CONTROLS [] Hall)
    as [Hr He].
  rewrite app_nil_r in Hr, He. rewrite Hr, He. cbn [set_volume_loop fst snd mixer_runs].
  split; [reflexivity|]. rewrite app_nil_r. reflexivity.
Qed.

Lemma set_volume_loop_sound (device card_num : string) (volume : Z) (controls : list string) :
  let r := set_volume_loop run device card_num volume controls in
  Forall (fun cmd => exists c, c ∈ controls /\ cmd = sset_command card_num c volume)
         (mixer_runs (snd r))
  /\ (forall msg, fst r = Ok (true, msg) ->
        exists cmd, last (mixer_runs (snd r)) = Some cmd /\ run cmd = RunOk).
Proof.
  induction controls as [|c controls IH]; cbn [set_volume_loop].
  - split; [constructor|]. intros msg [=].
  - cbv zeta in IH. destruct IH as [IHall IHok].
    assert (Hhere : exists c0, c0 ∈ c :: controls
                               /\ sset_command card_num c volume = sset_command card_num c0 volume)
      by (exists c; split; [apply list_elem_of_here|reflexivity]).
    destruct (run (sset_command card_num c volume)) as [|e|e] eqn:Hrun.
    + cbn [fst snd mixer_runs]. split; [repeat constructor; exact Hhere|].
      intros msg _. eexists. split; [reflexivity|exact Hrun].
    + destruct (set_volume_loop run device card_num volume controls) as [r events].
      cbn [fst snd mixer_runs] in *. split.
      * constructor; [exact Hhere|].
        eapply Forall_impl; [exact IHall|].
        intros cmd (c0 & Hin & ->). exists c0. split; [apply list_elem_of_further, Hin|reflexivity].
      * intros msg Hmsg. destruct (IHok msg Hmsg) as (cmd & Hlast & Hcmd).
        exists cmd. split; [|exact Hcmd].
        destruct (mixer_runs events); [discriminate Hlast|exact Hlast].
    + destruct e; cbn [fst snd mixer_runs];
        (split; [repeat constructor; exact Hhere|intros msg [=]]).
Qed.

(** What [set_volume] never does: it runs no command other than
    [amixer -c <card> sset <control> <volume>%] with the card number of the
    device, one of the five write controls (never [Capture]) and a volume
    between 0 and 100; and it reports success after running commands only
    if the last one succeeded. *)
Theorem set_volume_sound (device : string) (volume : Z) (control : string) :
  Forall (fun cmd => exists card_num c,
            card_number device = Some card_num
            /\ c ∈ VOLUME_WRITE_CONTROLS
            /\ 0 <= volume <= 100
            /\ cmd = sset_command card_num c volume)
         (mixer_runs (snd (set_volume am run device volume control)))
  /\ (forall msg, fst (set_volume am run device volume control) = Ok (true, msg) ->
        0 <= volume <= 100
        /\ (mixer_runs (snd (set_volume am run device volume control)) = []
            \/ exists cmd, last (mixer_runs (snd (set_volume am run device volume control)))
                           = Some cmd
                           /\ run cmd = RunOk)).
Proof.
  unfold set_volume.
  destruct ((0 <=? volume) && (volume <=? 100)) eqn:Hrange; cbn [negb].
  - apply andb_true_iff in Hrange as [H0 H100]. apply Z.leb_le in H0, H100.
    destruct (windows_mode am || str_in device VIRTUAL_AUDIO_DEVICES).
    + split; [constructor|]. intros msg _. split; [lia|left; reflexivity].
    + destruct (card_number device) as [card_num|] eqn:Hcard.
      * destruct (set_volume_loop_sound device card_num volume VOLUME_WRITE_CONTROLS)
          as [Hall Hok].
        split.
        -- eapply Forall_impl; [exact Hall|].
           intros cmd (c & Hin & ->). exists card_num, c. repeat split; auto.
        -- intros msg Hmsg. split; [lia|]. right. exact (Hok msg Hmsg).
      * split; [constructor|]. intros msg _. split; [lia|left; reflexivity].
  - split; [constructor|]. intros msg [=].
Qed.

End set_volume_facts.

Lemma set_volume_without_mixer_witness :
  mixer_runs (snd (set_volume hardware_manager pcm_only_amixer "hw:1,0" 101 "Master")) = []
  /\ exists msg, fst (set_volume hardware_manager pcm_only_amixer "hw:1,0" 101 "Master")
                 = Ok ((0 <=? 101) && (101 <=? 100), msg).
Proof.
  apply (set_volume_without_mixer hardware_manager pcm_only_amixer "hw:1,0" 101 "Master").
  right. left. lia.
Defined.

Lemma set_volume_first_working_control_witness :
  fst (set_volume hardware_manager pcm_only_amixer "hw:1,0" 40 "Master")
  = Ok (true, "Volume set to " ++ py_str (VInt 40) ++ "% (" ++ "PCM" ++ ")")
  /\ mixer_runs (snd (set_volume hardware_manager pcm_only_amixer "hw:1,0" 40 "Master"))
     = map (fun c => sset_command "1" c 40) (["Master"] ++ ["PCM"])%list.
Proof.
  apply (set_volume_first_working_control hardware_manager pcm_only_amixer
           "hw:1,0" "1" 40 "Master" ["Master"] "PCM" ["Speaker"; "Headphone"; "Digital"]).
  - lia.
  - reflexivity.
  - reflexivity.
  - reflexivity.
  - reflexivity.
  - constructor; [|constructor]. eexists. reflexivity.
  - reflexivity.
Defined.

Lemma set_volume_no_working_control_witness :
  fst (set_volume hardware_manager failing_amixer "hw:1,0" 40 "Master")
  = Ok (false, "No working volume controls found for device " ++ "hw:1,0")
  /\ mixer_runs (snd (set_volume hardware_manager failing_amixer "hw:1,0" 40 "Master"))
     = map (fun c => sset_command "1" c 40) VOLUME_WRITE_CONTROLS.
Proof.
  apply (set_volume_no_working_control hardware_manager failing_amixer "hw:1,0" "1" 40 "Master").
  - lia.
  - reflexivity.
  - reflexivity.
  - reflexivity.
  - repeat constructor; eexists; reflexivity.
Defined.

(** ** The schema and the generated address *)

Example mac_matches_upper : mac_address_matches "AA:BB:CC:DD:EE:FF" = true.
Proof. reflexivity. Qed.
Example mac_matches_short : mac_address_matches "aa:bb:cc:dd:ee" = false.
Proof. reflexivity. Qed.
Example mac_matches_dash : mac_address_matches "aa-bb-cc-dd-ee-ff" = false.
Proof. reflexivity. Qed.

Lemma byte_octet_passes (b : byte) : octet_passes (int_of_byte b) = true.
Proof. destruct b; vm_compute; reflexivity. Qed.

Lemma first_octet_passes (b : byte) :
  octet_passes (Z.land (Z.lor (int_of_byte b) 2) 254) = true.
Proof. destruct b; vm_compute; reflexivity. Qed.

Lemma octet_passes_elim (o : Z) :
  octet_passes o = true ->
  exists a b, fmt_02x o = String a (String b "")
              /\ is_hex_digit a = true /\ is_hex_digit b = true
              /\ ascii_lower_char a = a /\ ascii_lower_char b = b.
Proof.
  unfold octet_passes. destruct (fmt_02x o) as [|a [|b [|c rest]]]; try discriminate.
  rewrite !andb_true_iff. intros [[[Ha Hb] Hla] Hlb].
  apply Ascii.eqb_eq in Hla, Hlb. exists a, b. auto.
Qed.

(** The schema accepts every address that the provider generates:
    [validate_mac_address] raises nothing on [generate_mac_address(name)]
    and returns it lowercased, which for a generated address is the address
    itself. *)
Theorem validate_mac_address_generated
    (rt : Builtins) (repr : string -> string) (name : string) :
  validate_mac_address rt repr (Squeezelite.generate_mac_address name)
  = Valid (str_lower rt (Squeezelite.generate_mac_address name))
  /\ str_lower ascii_builtins (Squeezelite.generate_mac_address name)
     = Squeezelite.generate_mac_address name.
Proof.
  destruct (generate_mac_address_octets name) as (b0 & b1 & b2 & b3 & b4 & b5 & ->).
  cbn [map].
  destruct (octet_passes_elim _ (first_octet_passes b0)) as (h0 & l0 & -> & Hh0 & Hl0 & Eh0 & El0).
  destruct (octet_passes_elim _ (byte_octet_passes b1)) as (h1 & l1 & -> & Hh1 & Hl1 & Eh1 & El1).
  destruct (octet_passes_elim _ (byte_octet_passes b2)) as (h2 & l2 & -> & Hh2 & Hl2 & Eh2 & El2).
  destruct (octet_passes_elim _ (byte_octet_passes b3)) as (h3 & l3 & -> & Hh3 & Hl3 & Eh3 & El3).
  destruct (octet_passes_elim _ (byte_octet_passes b4)) as (h4 & l4 & -> & Hh4 & Hl4 & Eh4 & El4).
  destruct (octet_passes_elim _ (byte_octet_passes b5)) as (h5 & l5 & -> & Hh5 & Hl5 & Eh5 & El5).
  change (join ":" [String h0 (String l0 ""); String h1 (String l1 ""); String h2 (String l2 "");
                    String h3 (String l3 ""); String h4 (String l4 ""); String h5 (String l5 "")])
    with (String h0 (String l0 (String ":" (String h1 (String l1 (String ":"
          (String h2 (String l2 (String ":" (String h3 (String l3 (String ":"
          (String h4 (String l4 (String ":" (String h5 (String l5 ""))))))))))))))))).
  split.
  - unfold validate_mac_address, mac_address_matches.
    cbn [mac_groups].
    rewrite Hh0, Hl0, Hh1, Hl1, Hh2, Hl2, Hh3, Hl3, Hh4, Hl4, !Ascii.eqb_refl.
    cbn [andb]. rewrite Hh5, Hl5. reflexivity.
  - cbn [str_lower ascii_builtins ascii_lower].
    rewrite Eh0, El0, Eh1, El1, Eh2, El2, Eh3, El3, Eh4, El4, Eh5, El5.
    reflexivity.
Qed.

(** The Sendspin schema and the Sendspin command agree on ALSA names and
    differ on PulseAudio sinks: [validate_device_not_alsa] rejects exactly
    the devices starting with [hw:] or [plughw:]; a device it accepts
    reaches the command line behind [--audio-device] unless it is empty,
    "default", "null" or starts with [alsa_output.] or [alsa_input.], which
    the schema lets through and [build_command] leaves out. *)
Theorem sendspin_schema_device
    (rt : Builtins) (repr : string -> string) (config : gmap string value)
    (log_path name d : string) :
  config !! "name" = Some (VStr name) ->
  config !! "device" = Some (VStr d) ->
  ((exists msg, validate_device_not_alsa repr d = ValueError msg)
   <-> startswith d "hw:" || startswith d "plughw:" = true)
  /\ (validate_device_not_alsa repr d = Valid d ->
      exists base,
        Sendspin.build_command rt (delete "device" config) log_path = Ok base
        /\ Sendspin.build_command rt config log_path
           = Ok (if String.eqb d "" || String.eqb d "default" || String.eqb d "null"
                    || startswith d "alsa_output." || startswith d "alsa_input."
                 then base
                 else (take 6 base ++ [VStr "--audio-device"; VStr d] ++ drop 6 base)%list)).
Proof.
  intros Hname Hdevice. split.
  - unfold validate_device_not_alsa.
    destruct (startswith d "hw:" || startswith d "plughw:").
    + split; [reflexivity|eauto].
    + split; [intros (msg & [=])|discriminate].
  - intros Hvalid.
    assert (Halsa : startswith d "hw:" || startswith d "plughw:" = false).
    { unfold validate_device_not_alsa in Hvalid.
      destruct (startswith d "hw:" || startswith d "plughw:"); [discriminate Hvalid|reflexivity]. }
    destruct (sendspin_device rt config log_path name Hname) as (base & Hbase & Hcmd).
    exists base. split; [exact Hbase|].
    unfold dict_get_default in Hcmd. rewrite Hdevice in Hcmd. cbn [default] in Hcmd.
    rewrite Hcmd. f_equal. unfold sendspin_incompatible.
    apply orb_false_iff in Halsa as [-> ->].
    destruct (String.eqb d ""), (String.eqb d "default"), (String.eqb d "null"),
      (startswith d "alsa_output."), (startswith d "alsa_input."); reflexivity.
Qed.

Lemma sendspin_schema_device_witness :
  ((exists msg, validate_device_not_alsa (fun v => v) "USB Audio" = ValueError msg)
   <-> startswith "USB Audio" "hw:" || startswith "USB Audio" "plughw:" = true)
  /\ (validate_device_not_alsa (fun v => v) "USB Audio" = Valid "USB Audio" ->
      exists base,
        Sendspin.build_command ascii_builtins
          (delete "device" (<[ "device" := VStr "USB Audio" ]> kitchen_config))
          "/app/logs/Kitchen.log" = Ok base
        /\ Sendspin.build_command ascii_builtins
             (<[ "device" := VStr "USB Audio" ]> kitchen_config) "/app/logs/Kitchen.log"
           = Ok (if String.eqb "USB Audio" "" || String.eqb "USB Audio" "default"
                    || String.eqb "USB Audio" "null"
                    || startswith "USB Audio" "alsa_output."
                    || startswith "USB Audio" "alsa_input."
                 then base
                 else (take 6 base ++ [VStr "--audio-device"; VStr "USB Audio"]
                       ++ drop 6 base)%list)).
Proof.
  apply (sendspin_schema_device ascii_builtins (fun v => v)
           (<[ "device" := VStr "USB Audio" ]> kitchen_config)
           "/app/logs/Kitchen.log" "Kitchen" "USB Audio").
  - reflexivity.
  - reflexivity.
Defined.
